(** * VeriAI: verification-request lifecycle, certificates and multichain routing

    A shallow embedding of the Solidity contracts [VerificationLibrary],
    [VeriAINFTSolana], [SolanaOracleRelayer] and [VeriAISolana], and of the
    TypeScript [MultichainContractService], followed by the properties
    established about them.

    Conventions of the embedding:
    - [uint256], [uint64], [int64], [address] and [bytes32] values are
      integers of [Z]; Solidity 0.8 checked arithmetic is written out
      ([uint256_add] and friends revert with [Panic] on overflow);
    - [string] and [bytes] values are byte strings ([string]);
    - a Solidity [mapping] is a [gmap] read with the zero value as default;
    - a transaction is a function from the state to a [result]: [Err] is a
      revert, so a reverted transaction leaves no state behind;
    - [keccak256] and [abi.encode] are builtins of the language and are
      taken as parameters ([EVMBuiltins]); [abi.encodePacked] is written
      out. *)

From Stdlib Require Import ZArith String Ascii List Lia Bool.
From stdpp Require Import base decidable option gmap strings list pretty.

Local Open Scope string_scope.
Local Open Scope Z_scope.

(* ===================================================================== *)
(** ** Solidity prelude *)
(* ===================================================================== *)

Module Sol.

Inductive error : Type :=
| Revert (msg : string)        (* require(cond, msg) failed *)
| CustomError (name : string)  (* revert Name() *)
| Panic (code : Z)             (* 0x11 arithmetic overflow, 0x12 division by zero,
                                  0x41 allocation of too much memory *)
| CallFailed.                  (* call to an address that holds no contract *)
(* A call is given the gas that it needs: running out of gas is not among
   the errors. *)

Inductive result (A : Type) : Type :=
| Ok (a : A)
| Err (e : error).
Arguments Ok {A} a.
Arguments Err {A} e.

Definition is_ok {A} (r : result A) : bool :=
  match r with Ok _ => true | Err _ => false end.

Definition ok_or {A} (d : A) (r : result A) : A :=
  match r with Ok a => a | Err _ => d end.

(** State-and-revert monad of a contract whose storage has type [S]. *)
Definition Tx (S A : Type) : Type := S -> result (A * S).

Definition tx_ret {S A} (a : A) : Tx S A := fun s => Ok (a, s).
Definition tx_bind {S A B} (m : Tx S A) (k : A -> Tx S B) : Tx S B :=
  fun s => match m s with
           | Ok (a, s') => k a s'
           | Err e => Err e
           end.
Definition tx_fail {S A} (e : error) : Tx S A := fun _ => Err e.
Definition tx_get {S} : Tx S S := fun s => Ok (s, s).
Definition tx_gets {S A} (f : S -> A) : Tx S A := fun s => Ok (f s, s).
Definition tx_modify {S} (f : S -> S) : Tx S unit := fun s => Ok (tt, f s).
(** A side-effect free computation that may revert. *)
Definition tx_lift {S A} (r : result A) : Tx S A :=
  fun s => match r with Ok a => Ok (a, s) | Err e => Err e end.

Definition require {S} (cond : bool) (msg : string) : Tx S unit :=
  if cond then tx_ret tt else tx_fail (Revert msg).
Definition revert_unless {S} (cond : bool) (name : string) : Tx S unit :=
  if cond then tx_ret tt else tx_fail (CustomError name).

(** Pure version of the monad, for [pure]/[view] library functions. *)
Definition res_bind {A B} (m : result A) (k : A -> result B) : result B :=
  match m with Ok a => k a | Err e => Err e end.
Definition res_require (cond : bool) (msg : string) : result unit :=
  if cond then Ok tt else Err (Revert msg).

(** The final state of a transaction: the new state, or the old one when
    the transaction reverted. *)
Definition commit {S A} (m : Tx S A) (s : S) : S :=
  match m s with Ok (_, s') => s' | Err _ => s end.

(** *** Machine integers *)

Definition UINT256_MOD : Z := 2 ^ 256.
Definition UINT64_MOD : Z := 2 ^ 64.

Definition PANIC_OVERFLOW : Z := 17.  (* 0x11 *)
Definition PANIC_DIV_ZERO : Z := 18.  (* 0x12 *)
Definition PANIC_ALLOCATION : Z := 65.  (* 0x41 *)

Definition uint256_add (a b : Z) : result Z :=
  if a + b <? UINT256_MOD then Ok (a + b) else Err (Panic PANIC_OVERFLOW).
Definition uint256_sub (a b : Z) : result Z :=
  if b <=? a then Ok (a - b) else Err (Panic PANIC_OVERFLOW).
Definition uint256_mul (a b : Z) : result Z :=
  if a * b <? UINT256_MOD then Ok (a * b) else Err (Panic PANIC_OVERFLOW).
Definition uint256_div (a b : Z) : result Z :=
  if b =? 0 then Err (Panic PANIC_DIV_ZERO) else Ok (a / b).

(** Explicit conversion [uint64(x)]: truncation. *)
Definition to_uint64 (x : Z) : Z := x mod UINT64_MOD.

(** *** Mappings *)

Definition mapping_get `{Countable K} {V} (zero : V) (m : gmap K V) (k : K) : V :=
  default zero (m !! k).

(** *** abi.encodePacked *)

Inductive abi_val : Type :=
| AAddress (a : Z)
| AString (s : string)
| ABytes (b : string)
| AUint256 (n : Z)
| ABytes32 (h : Z).

(** [n] bytes, most significant first. *)
Fixpoint be_bytes (n : nat) (z : Z) : string :=
  match n with
  | O => EmptyString
  | S k => be_bytes k (z / 256) +:+ String (ascii_of_N (Z.to_N (z mod 256))) EmptyString
  end.

Definition encodePacked1 (v : abi_val) : string :=
  match v with
  | AAddress a => be_bytes 20 a
  | AString s => s
  | ABytes b => b
  | AUint256 n => be_bytes 32 n
  | ABytes32 h => be_bytes 32 h
  end.

Definition abi_encodePacked (vs : list abi_val) : string :=
  fold_right (fun v acc => encodePacked1 v +:+ acc) EmptyString vs.

(** The builtins that stay abstract. *)
Class EVMBuiltins : Type := {
  keccak256 : string -> Z;
  abi_encode : list abi_val -> string
}.

End Sol.
Export Sol.

#[global] Instance tx_mret {S} : MRet (Tx S) := fun A a => tx_ret a.
#[global] Instance tx_mbind {S} : MBind (Tx S) := fun A B k m => tx_bind m k.
#[global] Instance result_mret : MRet result := fun A a => Ok a.
#[global] Instance result_mbind : MBind result := fun A B k m => res_bind m k.

(* ===================================================================== *)
(** ** VerificationLibrary *)
(* ===================================================================== *)

Module VerificationLibrary.

Definition MIN_VERIFICATION_FEE : Z := 10 ^ 15.   (* 0.001 ether *)
Definition MAX_VERIFICATION_FEE : Z := 10 ^ 18.   (* 1 ether *)
Definition MAX_PROMPT_LENGTH : Z := 2000.
Definition MAX_MODEL_LENGTH : Z := 50.
Definition RATE_LIMIT_WINDOW : Z := 60.           (* 60 seconds *)
Definition MAX_DAILY_REQUESTS : Z := 100.
Definition REQUEST_TIMEOUT : Z := 86400.          (* 24 hours *)

Definition INVALID_FEE_MSG : string := "Invalid fee amount".
Definition INVALID_PROMPT_MSG : string := "Invalid prompt length".
Definition INVALID_MODEL_MSG : string := "Invalid model length".

Definition bytes_length (s : string) : Z := Z.of_nat (String.length s).

Definition validateFee (fee : Z) : result unit :=
  res_require ((MIN_VERIFICATION_FEE <=? fee) && (fee <=? MAX_VERIFICATION_FEE))
              INVALID_FEE_MSG.

Definition validateVerificationInput (prompt model : string) : result unit :=
  _ ← res_require ((0 <? bytes_length prompt) && (bytes_length prompt <=? MAX_PROMPT_LENGTH))
                  INVALID_PROMPT_MSG;
  res_require ((0 <? bytes_length model) && (bytes_length model <=? MAX_MODEL_LENGTH))
              INVALID_MODEL_MSG.

Definition checkRateLimit (lastRequestTime currentTime : Z) : result bool :=
  limit ← uint256_add lastRequestTime RATE_LIMIT_WINDOW;
  Ok (currentTime >=? limit).

Definition checkDailyLimit (dailyCount : Z) : bool :=
  dailyCount <? MAX_DAILY_REQUESTS.

Definition generateRequestId `{EVMBuiltins}
    (requester : Z) (prompt model : string) (timestamp nonce : Z) : Z :=
  keccak256 (abi_encodePacked
    [AAddress requester; AString prompt; AString model; AUint256 timestamp; AUint256 nonce]).

Definition validateAttestation (attestationId : Z) (proof : string) : result unit :=
  _ ← res_require (negb (attestationId =? 0)) "Invalid attestation ID";
  res_require (0 <? bytes_length proof) "Invalid proof".

Definition calculateOutputHash `{EVMBuiltins} (output : string) : Z :=
  keccak256 (abi_encodePacked [AString output]).

Definition isRequestExpired (requestTime currentTime : Z) : result bool :=
  deadline ← uint256_add requestTime REQUEST_TIMEOUT;
  Ok (currentTime >? deadline).

(** [bytes1(b + 0x30)] and [bytes1(b + 0x57)]: the sums are checked
    [uint8] additions. *)
Definition uint8_add (a b : Z) : result Z :=
  if a + b <? 256 then Ok (a + b) else Err (Panic PANIC_OVERFLOW).

Definition _char (b : Z) : result ascii :=
  if b <? 10 then c ← uint8_add b 48; Ok (ascii_of_N (Z.to_N c))
  else c ← uint8_add b 87; Ok (ascii_of_N (Z.to_N c)).

(** The loop of [formatAddress], from index [i] on. The guard stops it
    at [i = 20] at the latest, so 20 rounds of [fuel] run it to its end.
    The two writes of a round are within [result], whose length is
    [chars * 2], since [i < chars]. *)
Fixpoint formatAddress_loop (fuel : nat) (i chars : Z) (addrBytes res : list ascii)
  : result (list ascii) :=
  match fuel with
  | O => Ok res
  | S fuel' =>
      if (i <? chars) && (i <? 20) then
        let b := Z.of_N (N_of_ascii (nth (Z.to_nat i) addrBytes zero)) in
        hi ← _char (b / 16);
        let res := <[Z.to_nat (i * 2) := hi]> res in
        lo ← _char (b mod 16);
        let res := <[Z.to_nat (i * 2 + 1) := lo]> res in
        formatAddress_loop fuel' (i + 1) chars addrBytes res
      else Ok res
  end.

Definition formatAddress (addr chars : Z) : result string :=
  let addrBytes := list_ascii_of_string (abi_encodePacked [AAddress addr]) in
  len ← uint256_mul chars 2;
  (* new bytes(chars * 2): zero-initialised; a length above 2^64 - 1 is
     refused with Panic(0x41). Below it the allocation is taken to
     succeed: the memory in use is not part of the model. *)
  if len >? UINT64_MOD - 1 then Err (Panic PANIC_ALLOCATION)
  else
    let res := replicate (Z.to_nat len) zero in
    res ← formatAddress_loop 20 0 chars addrBytes res;
    Ok (string_of_list_ascii res).

Definition timestampToDay (timestamp deploymentTime : Z) : result Z :=
  _ ← res_require (deploymentTime <=? timestamp) "Invalid timestamp";
  d ← uint256_sub timestamp deploymentTime;
  uint256_div d 86400.

Definition encodeVerificationData `{EVMBuiltins}
    (prompt model : string) (requester timestamp : Z) : string :=
  abi_encode [AString prompt; AString model; AAddress requester; AUint256 timestamp].

Definition validateBatchInputs (requestIds : list Z) (outputs : list string) : result unit :=
  _ ← res_require (Z.of_nat (length requestIds) =? Z.of_nat (length outputs))
                  "Array length mismatch";
  _ ← res_require (0 <? Z.of_nat (length requestIds)) "Empty arrays";
  res_require (Z.of_nat (length requestIds) <=? 50) "Batch too large".

End VerificationLibrary.

(* ===================================================================== *)
(** ** Transaction environment *)
(* ===================================================================== *)

(** What a transaction sees of the chain and of the collaborators that are
    outside the repository: the Pyth price feed ([None]: the query
    reverts), the Switchboard oracle and the accounts that receive value.
    A collaborator is taken to answer without calling back into the three
    contracts: of what it does, the transaction sees whether the call
    returned. *)
Record Env : Type := {
  block_timestamp : Z;
  block_number : Z;
  msg_sender : Z;
  msg_value : Z;
  pyth_getPrice : option (Z * Z);      (* (price, timestamp) of SOL_USD_PRICE_ID *)
  switchboard_requestData : bool;      (* does requestData return normally *)
  accepts_value : Z -> bool;           (* does a value transfer to the address succeed *)
  this_balance : Z                     (* address(this).balance of the registry *)
}.

(* ===================================================================== *)
(** ** VeriAINFTSolana *)
(* ===================================================================== *)

Module NFT.

Record VerificationMetadata : Type := {
  prompt : string;
  model : string;
  outputHash : string;
  timestamp : Z;          (* uint64 *)
  proofHash : Z;
  verified : bool;
  verifier : Z;
  requestId : Z
}.

Definition zero_metadata : VerificationMetadata :=
  {| prompt := ""; model := ""; outputHash := ""; timestamp := 0; proofHash := 0;
     verified := false; verifier := 0; requestId := 0 |}.

Record State : Type := {
  (* AccessManager *)
  _roles : gmap (Z * Z) bool;
  _admin : Z;
  (* VeriAINFTSolana *)
  _tokenIdCounter : Z;
  _name : string;
  _symbol : string;
  _baseTokenURI : string;
  _owners : gmap Z Z;
  _balances : gmap Z Z;
  _tokenURIs : gmap Z string;
  _tokenMetadata : gmap Z VerificationMetadata;
  _tokensByOwner : gmap Z (list Z);
  _tokensByModel : gmap string (list Z)
}.

Definition zero_state : State :=
  {| _roles := ∅; _admin := 0; _tokenIdCounter := 0; _name := ""; _symbol := "";
     _baseTokenURI := ""; _owners := ∅; _balances := ∅; _tokenURIs := ∅;
     _tokenMetadata := ∅; _tokensByOwner := ∅; _tokensByModel := ∅ |}.

Definition set_roles (v : gmap (Z * Z) bool) (s : State) : State :=
  {| _roles := v; _admin := _admin s; _tokenIdCounter := _tokenIdCounter s;
     _name := _name s; _symbol := _symbol s; _baseTokenURI := _baseTokenURI s;
     _owners := _owners s; _balances := _balances s; _tokenURIs := _tokenURIs s;
     _tokenMetadata := _tokenMetadata s; _tokensByOwner := _tokensByOwner s;
     _tokensByModel := _tokensByModel s |}.
Definition set_admin (v : Z) (s : State) : State :=
  {| _roles := _roles s; _admin := v; _tokenIdCounter := _tokenIdCounter s;
     _name := _name s; _symbol := _symbol s; _baseTokenURI := _baseTokenURI s;
     _owners := _owners s; _balances := _balances s; _tokenURIs := _tokenURIs s;
     _tokenMetadata := _tokenMetadata s; _tokensByOwner := _tokensByOwner s;
     _tokensByModel := _tokensByModel s |}.
Definition set_tokenIdCounter (v : Z) (s : State) : State :=
  {| _roles := _roles s; _admin := _admin s; _tokenIdCounter := v; _name := _name s;
     _symbol := _symbol s; _baseTokenURI := _baseTokenURI s; _owners := _owners s;
     _balances := _balances s; _tokenURIs := _tokenURIs s;
     _tokenMetadata := _tokenMetadata s; _tokensByOwner := _tokensByOwner s;
     _tokensByModel := _tokensByModel s |}.
Definition set_name (v : string) (s : State) : State :=
  {| _roles := _roles s; _admin := _admin s; _tokenIdCounter := _tokenIdCounter s;
     _name := v; _symbol := _symbol s; _baseTokenURI := _baseTokenURI s;
     _owners := _owners s; _balances := _balances s; _tokenURIs := _tokenURIs s;
     _tokenMetadata := _tokenMetadata s; _tokensByOwner := _tokensByOwner s;
     _tokensByModel := _tokensByModel s |}.
Definition set_symbol (v : string) (s : State) : State :=
  {| _roles := _roles s; _admin := _admin s; _tokenIdCounter := _tokenIdCounter s;
     _name := _name s; _symbol := v; _baseTokenURI := _baseTokenURI s; _owners := _owners s;
     _balances := _balances s; _tokenURIs := _tokenURIs s;
     _tokenMetadata := _tokenMetadata s; _tokensByOwner := _tokensByOwner s;
     _tokensByModel := _tokensByModel s |}.
Definition set_baseTokenURI (v : string) (s : State) : State :=
  {| _roles := _roles s; _admin := _admin s; _tokenIdCounter := _tokenIdCounter s;
     _name := _name s; _symbol := _symbol s; _baseTokenURI := v; _owners := _owners s;
     _balances := _balances s; _tokenURIs := _tokenURIs s;
     _tokenMetadata := _tokenMetadata s; _tokensByOwner := _tokensByOwner s;
     _tokensByModel := _tokensByModel s |}.
Definition set_owners (v : gmap Z Z) (s : State) : State :=
  {| _roles := _roles s; _admin := _admin s; _tokenIdCounter := _tokenIdCounter s;
     _name := _name s; _symbol := _symbol s; _baseTokenURI := _baseTokenURI s; _owners := v;
     _balances := _balances s; _tokenURIs := _tokenURIs s;
     _tokenMetadata := _tokenMetadata s; _tokensByOwner := _tokensByOwner s;
     _tokensByModel := _tokensByModel s |}.
Definition set_balances (v : gmap Z Z) (s : State) : State :=
  {| _roles := _roles s; _admin := _admin s; _tokenIdCounter := _tokenIdCounter s;
     _name := _name s; _symbol := _symbol s; _baseTokenURI := _baseTokenURI s;
     _owners := _owners s; _balances := v; _tokenURIs := _tokenURIs s;
     _tokenMetadata := _tokenMetadata s; _tokensByOwner := _tokensByOwner s;
     _tokensByModel := _tokensByModel s |}.
Definition set_tokenURIs (v : gmap Z string) (s : State) : State :=
  {| _roles := _roles s; _admin := _admin s; _tokenIdCounter := _tokenIdCounter s;
     _name := _name s; _symbol := _symbol s; _baseTokenURI := _baseTokenURI s;
     _owners := _owners s; _balances := _balances s; _tokenURIs := v;
     _tokenMetadata := _tokenMetadata s; _tokensByOwner := _tokensByOwner s;
     _tokensByModel := _tokensByModel s |}.
Definition set_tokenMetadata (v : gmap Z VerificationMetadata) (s : State) : State :=
  {| _roles := _roles s; _admin := _admin s; _tokenIdCounter := _tokenIdCounter s;
     _name := _name s; _symbol := _symbol s; _baseTokenURI := _baseTokenURI s;
     _owners := _owners s; _balances := _balances s; _tokenURIs := _tokenURIs s;
     _tokenMetadata := v; _tokensByOwner := _tokensByOwner s;
     _tokensByModel := _tokensByModel s |}.
Definition set_tokensByOwner (v : gmap Z (list Z)) (s : State) : State :=
  {| _roles := _roles s; _admin := _admin s; _tokenIdCounter := _tokenIdCounter s;
     _name := _name s; _symbol := _symbol s; _baseTokenURI := _baseTokenURI s;
     _owners := _owners s; _balances := _balances s; _tokenURIs := _tokenURIs s;
     _tokenMetadata := _tokenMetadata s; _tokensByOwner := v;
     _tokensByModel := _tokensByModel s |}.
Definition set_tokensByModel (v : gmap string (list Z)) (s : State) : State :=
  {| _roles := _roles s; _admin := _admin s; _tokenIdCounter := _tokenIdCounter s;
     _name := _name s; _symbol := _symbol s; _baseTokenURI := _baseTokenURI s;
     _owners := _owners s; _balances := _balances s; _tokenURIs := _tokenURIs s;
     _tokenMetadata := _tokenMetadata s; _tokensByOwner := _tokensByOwner s;
     _tokensByModel := v |}.

(** *** AccessManager *)

Definition DEFAULT_ADMIN_ROLE : Z := 0.
Definition MINTER_ROLE `{EVMBuiltins} : Z := keccak256 "MINTER_ROLE".
Definition UPDATER_ROLE `{EVMBuiltins} : Z := keccak256 "UPDATER_ROLE".

Definition initialize (admin : Z) : Tx State unit :=
  a ← tx_gets _admin;
  _ ← require (a =? 0) "Already initialized";
  _ ← require (negb (admin =? 0)) "Invalid admin";
  tx_modify (set_admin admin).

(** [msgSender()] of this contract is the stored admin, whoever calls. *)
Definition msgSender (s : State) : Z := _admin s.

Definition hasRole (role account : Z) (s : State) : bool :=
  mapping_get false (_roles s) (role, account).

Definition onlyRole (role : Z) : Tx State unit :=
  s ← tx_get;
  require (hasRole role (msgSender s) s) "Access denied".

Definition getRoleAdmin (role : Z) : Z := DEFAULT_ADMIN_ROLE.

Definition _grantRole (role account : Z) : Tx State unit :=
  s ← tx_get;
  if negb (hasRole role account s)
  then tx_modify (set_roles (<[(role, account) := true]> (_roles s)))
  else mret tt.

Definition grantRole (role account : Z) : Tx State unit :=
  _ ← onlyRole (getRoleAdmin role);
  _grantRole role account.

(** *** Internal functions *)

Definition _exists (tokenId : Z) (s : State) : bool :=
  negb (mapping_get 0 (_owners s) tokenId =? 0).

Definition _mint (to tokenId : Z) : Tx State unit :=
  _ ← require (negb (to =? 0)) "Invalid recipient";
  s ← tx_get;
  _ ← require (negb (_exists tokenId s)) "Token already exists";
  b ← tx_lift (uint256_add (mapping_get 0 (_balances s) to) 1);
  _ ← tx_modify (set_balances (<[to := b]> (_balances s)));
  s ← tx_get;
  tx_modify (set_owners (<[tokenId := to]> (_owners s))).

Definition _setTokenURI (tokenId : Z) (uri : string) : Tx State unit :=
  s ← tx_get;
  _ ← require (_exists tokenId s) "Token does not exist";
  tx_modify (set_tokenURIs (<[tokenId := uri]> (_tokenURIs s))).

Definition _validateMetadata (metadata : VerificationMetadata) : result unit :=
  _ ← res_require (0 <? VerificationLibrary.bytes_length (prompt metadata)) "Empty prompt";
  _ ← res_require (0 <? VerificationLibrary.bytes_length (model metadata)) "Empty model";
  _ ← res_require (0 <? VerificationLibrary.bytes_length (outputHash metadata))
                  "Empty output hash";
  _ ← res_require (0 <? timestamp metadata) "Invalid timestamp";
  res_require (negb (requestId metadata =? 0)) "Invalid request ID".

(** Decimal rendering of a [uint256]. *)
Definition _toString (value : Z) : string :=
  if value =? 0 then "0" else pretty (Z.to_N value).

Definition _generateTokenURI (metadata : VerificationMetadata) (s : State) : string :=
  abi_encodePacked
    [AString (_baseTokenURI s); AString (_toString (timestamp metadata));
     AString "?model="; AString (model metadata); AString "&verified=";
     AString (if verified metadata then "true" else "false")].

(** *** Core functions *)

Definition mintVerificationNFT `{EVMBuiltins}
    (recipient : Z) (metadata : VerificationMetadata) : Tx State Z :=
  _ ← onlyRole MINTER_ROLE;
  _ ← require (negb (recipient =? 0)) "Invalid recipient";
  _ ← tx_lift (_validateMetadata metadata);
  tokenId ← tx_gets _tokenIdCounter;
  next ← tx_lift (uint256_add tokenId 1);
  _ ← tx_modify (set_tokenIdCounter next);
  _ ← _mint recipient tokenId;
  s ← tx_get;
  _ ← tx_modify (set_tokenMetadata (<[tokenId := metadata]> (_tokenMetadata s)));
  s ← tx_get;
  _ ← _setTokenURI tokenId (_generateTokenURI metadata s);
  s ← tx_get;
  _ ← tx_modify (set_tokensByOwner
        (<[recipient := (mapping_get [] (_tokensByOwner s) recipient ++ [tokenId])%list]>
           (_tokensByOwner s)));
  s ← tx_get;
  _ ← tx_modify (set_tokensByModel
        (<[model metadata :=
            (mapping_get [] (_tokensByModel s) (model metadata) ++ [tokenId])%list]>
           (_tokensByModel s)));
  mret tokenId.

Definition updateTokenMetadata `{EVMBuiltins}
    (tokenId : Z) (newMetadata : string) : Tx State unit :=
  _ ← onlyRole UPDATER_ROLE;
  s ← tx_get;
  _ ← revert_unless (_exists tokenId s) "TokenNotFound";
  tx_modify (set_tokenURIs (<[tokenId := newMetadata]> (_tokenURIs s))).

Definition setBaseTokenURI (newBaseURI : string) : Tx State unit :=
  _ ← onlyRole DEFAULT_ADMIN_ROLE;
  tx_modify (set_baseTokenURI newBaseURI).

Definition constructor `{EVMBuiltins}
    (name_ symbol_ baseTokenURI_ : string) (_initialAdmin : Z) : Tx State unit :=
  _ ← require (negb (_initialAdmin =? 0)) "Invalid admin";
  _ ← tx_modify (set_name name_);
  _ ← tx_modify (set_symbol symbol_);
  _ ← tx_modify (set_baseTokenURI baseTokenURI_);
  _ ← initialize _initialAdmin;
  _ ← _grantRole DEFAULT_ADMIN_ROLE _initialAdmin;
  _ ← _grantRole MINTER_ROLE _initialAdmin;
  _grantRole UPDATER_ROLE _initialAdmin.

(** *** View functions *)

Definition name (s : State) : string := _name s.

Definition symbol (s : State) : string := _symbol s.

Definition totalSupply (s : State) : Z := _tokenIdCounter s.

Definition balanceOf (owner : Z) (s : State) : result Z :=
  _ ← res_require (negb (owner =? 0)) "Invalid owner";
  Ok (mapping_get 0 (_balances s) owner).

Definition ownerOf (tokenId : Z) (s : State) : result Z :=
  let owner := mapping_get 0 (_owners s) tokenId in
  if owner =? 0 then Err (CustomError "TokenNotFound") else Ok owner.

Definition tokenURI (tokenId : Z) (s : State) : result string :=
  if negb (_exists tokenId s) then Err (CustomError "TokenNotFound")
  else Ok (mapping_get "" (_tokenURIs s) tokenId).

Definition getVerificationMetadata (tokenId : Z) (s : State) : result VerificationMetadata :=
  if negb (_exists tokenId s) then Err (CustomError "TokenNotFound")
  else Ok (mapping_get zero_metadata (_tokenMetadata s) tokenId).

Definition getTokensByOwner (owner : Z) (s : State) : list Z :=
  mapping_get [] (_tokensByOwner s) owner.

Definition getTokensByModel (m : string) (s : State) : list Z :=
  mapping_get [] (_tokensByModel s) m.

(** 30 days validity period. *)
Definition isVerificationValid (e : Env) (tokenId : Z) (s : State) : result bool :=
  if negb (_exists tokenId s) then Ok false
  else
    let metadata := mapping_get zero_metadata (_tokenMetadata s) tokenId in
    if verified metadata
    then age ← uint256_sub (block_timestamp e) (timestamp metadata);
         Ok (age <? 2592000)
    else Ok false.

End NFT.

(* ===================================================================== *)
(** ** SolanaOracleRelayer *)
(* ===================================================================== *)

Module Relayer.

Record AttestationRequest : Type := {
  requester : Z;
  data : string;
  timestamp : Z;
  fulfilled : bool;
  attestationId : Z
}.

Definition zero_request : AttestationRequest :=
  {| requester := 0; data := ""; timestamp := 0; fulfilled := false; attestationId := 0 |}.

Record State : Type := {
  owner : Z;
  authorizedCallers : gmap Z bool;
  requests : gmap Z AttestationRequest;
  processedAttestations : gmap Z bool
}.

Definition set_owner (v : Z) (s : State) : State :=
  {| owner := v; authorizedCallers := authorizedCallers s; requests := requests s;
     processedAttestations := processedAttestations s |}.
Definition set_authorizedCallers (v : gmap Z bool) (s : State) : State :=
  {| owner := owner s; authorizedCallers := v; requests := requests s;
     processedAttestations := processedAttestations s |}.
Definition set_requests (v : gmap Z AttestationRequest) (s : State) : State :=
  {| owner := owner s; authorizedCallers := authorizedCallers s; requests := v;
     processedAttestations := processedAttestations s |}.
Definition set_processedAttestations (v : gmap Z bool) (s : State) : State :=
  {| owner := owner s; authorizedCallers := authorizedCallers s; requests := requests s;
     processedAttestations := v |}.

Definition constructor (e : Env) : State :=
  {| owner := msg_sender e;
     authorizedCallers := {[ msg_sender e := true ]};
     requests := ∅;
     processedAttestations := ∅ |}.

Definition onlyAuthorized (e : Env) : Tx State unit :=
  s ← tx_get;
  revert_unless
    (negb (negb (mapping_get false (authorizedCallers s) (msg_sender e))
           && negb (msg_sender e =? owner s)))
    "UnauthorizedCaller".

Definition onlyOwner (e : Env) : Tx State unit :=
  s ← tx_get;
  require (msg_sender e =? owner s) "Not owner".

Definition requestAttestation `{EVMBuiltins}
    (e : Env) (requestId : Z) (verificationData : string) : Tx State Z :=
  _ ← onlyAuthorized e;
  s ← tx_get;
  _ ← revert_unless (timestamp (mapping_get zero_request (requests s) requestId) =? 0)
                    "RequestAlreadyProcessed";
  let attestationId :=
    keccak256 (abi_encodePacked
      [ABytes32 requestId; AAddress (msg_sender e); ABytes verificationData;
       AUint256 (block_timestamp e); AUint256 (block_number e)]) in
  _ ← tx_modify (set_requests
        (<[requestId := {| requester := msg_sender e; data := verificationData;
                           timestamp := block_timestamp e; fulfilled := false;
                           attestationId := attestationId |}]> (requests s)));
  (* switchboardOracle.requestData(requestId, verificationData) *)
  _ ← (if switchboard_requestData e then mret tt else tx_fail CallFailed);
  mret attestationId.

Definition fulfillAttestation
    (e : Env) (requestId : Z) (result proof : string) : Tx State unit :=
  _ ← onlyAuthorized e;
  s ← tx_get;
  let request := mapping_get zero_request (requests s) requestId in
  _ ← revert_unless (negb (timestamp request =? 0)) "InvalidRequest";
  _ ← revert_unless (negb (fulfilled request)) "RequestAlreadyProcessed";
  _ ← require (0 <? VerificationLibrary.bytes_length proof) "Invalid proof";
  _ ← tx_modify (set_requests
        (<[requestId := {| requester := requester request; data := data request;
                           timestamp := timestamp request; fulfilled := true;
                           attestationId := attestationId request |}]> (requests s)));
  s ← tx_get;
  tx_modify (set_processedAttestations
        (<[attestationId request := true]> (processedAttestations s))).

(** [pythPriceFeeds.getPrice(SOL_USD_PRICE_ID)] *)
Definition getSOLUSDPrice (e : Env) : result (Z * Z) :=
  match pyth_getPrice e with
  | Some p => Ok p
  | None => Err CallFailed
  end.

Definition calculateSOLFee (e : Env) (usdFee : Z) : result Z :=
  p ← getSOLUSDPrice e;
  let solPrice := fst p in
  if solPrice <=? 0 then Err (CustomError "InvalidPriceData")
  else
    num ← uint256_mul usdFee (10 ^ 18);
    den ← uint256_mul (to_uint64 solPrice) (10 ^ 10);
    uint256_div num den.

Definition verifyAttestation (attestationId : Z) (s : State) : bool :=
  mapping_get false (processedAttestations s) attestationId.

Definition getAttestationRequest (requestId : Z) (s : State) : AttestationRequest :=
  mapping_get zero_request (requests s) requestId.

Definition authorizeOracleCaller (e : Env) (caller : Z) : Tx State unit :=
  _ ← onlyOwner e;
  s ← tx_get;
  tx_modify (set_authorizedCallers (<[caller := true]> (authorizedCallers s))).

Definition revokeOracleCaller (e : Env) (caller : Z) : Tx State unit :=
  _ ← onlyOwner e;
  s ← tx_get;
  tx_modify (set_authorizedCallers (<[caller := false]> (authorizedCallers s))).

End Relayer.

(* ===================================================================== *)
(** ** VeriAISolana: storage *)
(* ===================================================================== *)

Module Storage.

Inductive VerificationStatus : Type := Pending | Verified | Failed | Expired.

#[global] Instance VerificationStatus_eq_dec : EqDecision VerificationStatus.
Proof. solve_decision. Defined.

Record VerificationRequest : Type := {
  requester : Z;
  prompt : string;
  model : string;
  timestamp : Z;          (* uint64 *)
  status : VerificationStatus;
  outputHash : Z;
  attestationId : Z;
  feePaid : Z;
  nftMinted : bool
}.

Definition zero_request : VerificationRequest :=
  {| requester := 0; prompt := ""; model := ""; timestamp := 0; status := Pending;
     outputHash := 0; attestationId := 0; feePaid := 0; nftMinted := false |}.

Definition with_status (v : VerificationStatus) (s : VerificationRequest) : VerificationRequest :=
  {| requester := requester s; prompt := prompt s; model := model s;
     timestamp := timestamp s; status := v; outputHash := outputHash s;
     attestationId := attestationId s; feePaid := feePaid s; nftMinted := nftMinted s |}.
Definition with_outputHash (v : Z) (s : VerificationRequest) : VerificationRequest :=
  {| requester := requester s; prompt := prompt s; model := model s;
     timestamp := timestamp s; status := status s; outputHash := v;
     attestationId := attestationId s; feePaid := feePaid s; nftMinted := nftMinted s |}.
Definition with_attestationId (v : Z) (s : VerificationRequest) : VerificationRequest :=
  {| requester := requester s; prompt := prompt s; model := model s;
     timestamp := timestamp s; status := status s; outputHash := outputHash s;
     attestationId := v; feePaid := feePaid s; nftMinted := nftMinted s |}.
Definition with_nftMinted (v : bool) (s : VerificationRequest) : VerificationRequest :=
  {| requester := requester s; prompt := prompt s; model := model s;
     timestamp := timestamp s; status := status s; outputHash := outputHash s;
     attestationId := attestationId s; feePaid := feePaid s; nftMinted := v |}.

Record OracleData : Type := {
  oracle : Z;
  isActive : bool;
  successfulVerifications : Z;
  failedVerifications : Z;
  lastActivity : Z
}.

Definition zero_oracle : OracleData :=
  {| oracle := 0; isActive := false; successfulVerifications := 0;
     failedVerifications := 0; lastActivity := 0 |}.

(** The storage of [VeriAISolana] with what it inherits. The variables
    [_successfulVerifications], [_failedVerifications], [_totalFeesCollected]
    and [_activeOracleCount] are declared but never read or written by the
    contract and are left out. *)
Record State : Type := {
  (* AccessManager *)
  _roles : gmap (Z * Z) bool;
  _admin : Z;
  (* PausableManager *)
  _paused : bool;
  (* ReentrancyGuard *)
  _status : Z;
  (* VeriAISolana *)
  _requestCounter : Z;
  _verificationFee : Z;
  _treasuryAddress : Z;
  _nftContract : Z;
  DEPLOYMENT_TIME : Z;
  _requests : gmap Z VerificationRequest;
  _userRequests : gmap Z (list Z);
  _requestCount : gmap Z Z;
  _lastRequestTime : gmap Z Z;
  _dailyRequestCount : gmap (Z * Z) Z;
  _oracles : gmap Z OracleData;
  _processedAttestations : gmap Z bool;
  _totalRequests : Z;
  _totalVerified : Z;
  _totalFailed : Z;
  _oracleRelayer : Z
}.

Definition zero_state : State :=
  {| _roles := ∅; _admin := 0; _paused := false; _status := 0; _requestCounter := 0;
     _verificationFee := 0; _treasuryAddress := 0; _nftContract := 0;
     DEPLOYMENT_TIME := 0; _requests := ∅; _userRequests := ∅; _requestCount := ∅;
     _lastRequestTime := ∅; _dailyRequestCount := ∅; _oracles := ∅;
     _processedAttestations := ∅; _totalRequests := 0; _totalVerified := 0;
     _totalFailed := 0; _oracleRelayer := 0 |}.

Definition set_roles (v : gmap (Z * Z) bool) (s : State) : State :=
  {| _roles := v; _admin := _admin s; _paused := _paused s; _status := _status s;
     _requestCounter := _requestCounter s; _verificationFee := _verificationFee s;
     _treasuryAddress := _treasuryAddress s; _nftContract := _nftContract s;
     DEPLOYMENT_TIME := DEPLOYMENT_TIME s; _requests := _requests s;
     _userRequests := _userRequests s; _requestCount := _requestCount s;
     _lastRequestTime := _lastRequestTime s; _dailyRequestCount := _dailyRequestCount s;
     _oracles := _oracles s; _processedAttestations := _processedAttestations s;
     _totalRequests := _totalRequests s; _totalVerified := _totalVerified s;
     _totalFailed := _totalFailed s; _oracleRelayer := _oracleRelayer s |}.
Definition set_admin (v : Z) (s : State) : State :=
  {| _roles := _roles s; _admin := v; _paused := _paused s; _status := _status s;
     _requestCounter := _requestCounter s; _verificationFee := _verificationFee s;
     _treasuryAddress := _treasuryAddress s; _nftContract := _nftContract s;
     DEPLOYMENT_TIME := DEPLOYMENT_TIME s; _requests := _requests s;
     _userRequests := _userRequests s; _requestCount := _requestCount s;
     _lastRequestTime := _lastRequestTime s; _dailyRequestCount := _dailyRequestCount s;
     _oracles := _oracles s; _processedAttestations := _processedAttestations s;
     _totalRequests := _totalRequests s; _totalVerified := _totalVerified s;
     _totalFailed := _totalFailed s; _oracleRelayer := _oracleRelayer s |}.
Definition set_paused (v : bool) (s : State) : State :=
  {| _roles := _roles s; _admin := _admin s; _paused := v; _status := _status s;
     _requestCounter := _requestCounter s; _verificationFee := _verificationFee s;
     _treasuryAddress := _treasuryAddress s; _nftContract := _nftContract s;
     DEPLOYMENT_TIME := DEPLOYMENT_TIME s; _requests := _requests s;
     _userRequests := _userRequests s; _requestCount := _requestCount s;
     _lastRequestTime := _lastRequestTime s; _dailyRequestCount := _dailyRequestCount s;
     _oracles := _oracles s; _processedAttestations := _processedAttestations s;
     _totalRequests := _totalRequests s; _totalVerified := _totalVerified s;
     _totalFailed := _totalFailed s; _oracleRelayer := _oracleRelayer s |}.
Definition set_status (v : Z) (s : State) : State :=
  {| _roles := _roles s; _admin := _admin s; _paused := _paused s; _status := v;
     _requestCounter := _requestCounter s; _verificationFee := _verificationFee s;
     _treasuryAddress := _treasuryAddress s; _nftContract := _nftContract s;
     DEPLOYMENT_TIME := DEPLOYMENT_TIME s; _requests := _requests s;
     _userRequests := _userRequests s; _requestCount := _requestCount s;
     _lastRequestTime := _lastRequestTime s; _dailyRequestCount := _dailyRequestCount s;
     _oracles := _oracles s; _processedAttestations := _processedAttestations s;
     _totalRequests := _totalRequests s; _totalVerified := _totalVerified s;
     _totalFailed := _totalFailed s; _oracleRelayer := _oracleRelayer s |}.
Definition set_requestCounter (v : Z) (s : State) : State :=
  {| _roles := _roles s; _admin := _admin s; _paused := _paused s; _status := _status s;
     _requestCounter := v; _verificationFee := _verificationFee s;
     _treasuryAddress := _treasuryAddress s; _nftContract := _nftContract s;
     DEPLOYMENT_TIME := DEPLOYMENT_TIME s; _requests := _requests s;
     _userRequests := _userRequests s; _requestCount := _requestCount s;
     _lastRequestTime := _lastRequestTime s; _dailyRequestCount := _dailyRequestCount s;
     _oracles := _oracles s; _processedAttestations := _processedAttestations s;
     _totalRequests := _totalRequests s; _totalVerified := _totalVerified s;
     _totalFailed := _totalFailed s; _oracleRelayer := _oracleRelayer s |}.
Definition set_verificationFee (v : Z) (s : State) : State :=
  {| _roles := _roles s; _admin := _admin s; _paused := _paused s; _status := _status s;
     _requestCounter := _requestCounter s; _verificationFee := v;
     _treasuryAddress := _treasuryAddress s; _nftContract := _nftContract s;
     DEPLOYMENT_TIME := DEPLOYMENT_TIME s; _requests := _requests s;
     _userRequests := _userRequests s; _requestCount := _requestCount s;
     _lastRequestTime := _lastRequestTime s; _dailyRequestCount := _dailyRequestCount s;
     _oracles := _oracles s; _processedAttestations := _processedAttestations s;
     _totalRequests := _totalRequests s; _totalVerified := _totalVerified s;
     _totalFailed := _totalFailed s; _oracleRelayer := _oracleRelayer s |}.
Definition set_treasuryAddress (v : Z) (s : State) : State :=
  {| _roles := _roles s; _admin := _admin s; _paused := _paused s; _status := _status s;
     _requestCounter := _requestCounter s; _verificationFee := _verificationFee s;
     _treasuryAddress := v; _nftContract := _nftContract s;
     DEPLOYMENT_TIME := DEPLOYMENT_TIME s; _requests := _requests s;
     _userRequests := _userRequests s; _requestCount := _requestCount s;
     _lastRequestTime := _lastRequestTime s; _dailyRequestCount := _dailyRequestCount s;
     _oracles := _oracles s; _processedAttestations := _processedAttestations s;
     _totalRequests := _totalRequests s; _totalVerified := _totalVerified s;
     _totalFailed := _totalFailed s; _oracleRelayer := _oracleRelayer s |}.
Definition set_nftContract (v : Z) (s : State) : State :=
  {| _roles := _roles s; _admin := _admin s; _paused := _paused s; _status := _status s;
     _requestCounter := _requestCounter s; _verificationFee := _verificationFee s;
     _treasuryAddress := _treasuryAddress s; _nftContract := v;
     DEPLOYMENT_TIME := DEPLOYMENT_TIME s; _requests := _requests s;
     _userRequests := _userRequests s; _requestCount := _requestCount s;
     _lastRequestTime := _lastRequestTime s; _dailyRequestCount := _dailyRequestCount s;
     _oracles := _oracles s; _processedAttestations := _processedAttestations s;
     _totalRequests := _totalRequests s; _totalVerified := _totalVerified s;
     _totalFailed := _totalFailed s; _oracleRelayer := _oracleRelayer s |}.
Definition set_DEPLOYMENT_TIME (v : Z) (s : State) : State :=
  {| _roles := _roles s; _admin := _admin s; _paused := _paused s; _status := _status s;
     _requestCounter := _requestCounter s; _verificationFee := _verificationFee s;
     _treasuryAddress := _treasuryAddress s; _nftContract := _nftContract s;
     DEPLOYMENT_TIME := v; _requests := _requests s; _userRequests := _userRequests s;
     _requestCount := _requestCount s; _lastRequestTime := _lastRequestTime s;
     _dailyRequestCount := _dailyRequestCount s; _oracles := _oracles s;
     _processedAttestations := _processedAttestations s; _totalRequests := _totalRequests s;
     _totalVerified := _totalVerified s; _totalFailed := _totalFailed s;
     _oracleRelayer := _oracleRelayer s |}.
Definition set_requests (v : gmap Z VerificationRequest) (s : State) : State :=
  {| _roles := _roles s; _admin := _admin s; _paused := _paused s; _status := _status s;
     _requestCounter := _requestCounter s; _verificationFee := _verificationFee s;
     _treasuryAddress := _treasuryAddress s; _nftContract := _nftContract s;
     DEPLOYMENT_TIME := DEPLOYMENT_TIME s; _requests := v; _userRequests := _userRequests s;
     _requestCount := _requestCount s; _lastRequestTime := _lastRequestTime s;
     _dailyRequestCount := _dailyRequestCount s; _oracles := _oracles s;
     _processedAttestations := _processedAttestations s; _totalRequests := _totalRequests s;
     _totalVerified := _totalVerified s; _totalFailed := _totalFailed s;
     _oracleRelayer := _oracleRelayer s |}.
Definition set_userRequests (v : gmap Z (list Z)) (s : State) : State :=
  {| _roles := _roles s; _admin := _admin s; _paused := _paused s; _status := _status s;
     _requestCounter := _requestCounter s; _verificationFee := _verificationFee s;
     _treasuryAddress := _treasuryAddress s; _nftContract := _nftContract s;
     DEPLOYMENT_TIME := DEPLOYMENT_TIME s; _requests := _requests s; _userRequests := v;
     _requestCount := _requestCount s; _lastRequestTime := _lastRequestTime s;
     _dailyRequestCount := _dailyRequestCount s; _oracles := _oracles s;
     _processedAttestations := _processedAttestations s; _totalRequests := _totalRequests s;
     _totalVerified := _totalVerified s; _totalFailed := _totalFailed s;
     _oracleRelayer := _oracleRelayer s |}.
Definition set_requestCount (v : gmap Z Z) (s : State) : State :=
  {| _roles := _roles s; _admin := _admin s; _paused := _paused s; _status := _status s;
     _requestCounter := _requestCounter s; _verificationFee := _verificationFee s;
     _treasuryAddress := _treasuryAddress s; _nftContract := _nftContract s;
     DEPLOYMENT_TIME := DEPLOYMENT_TIME s; _requests := _requests s;
     _userRequests := _userRequests s; _requestCount := v;
     _lastRequestTime := _lastRequestTime s; _dailyRequestCount := _dailyRequestCount s;
     _oracles := _oracles s; _processedAttestations := _processedAttestations s;
     _totalRequests := _totalRequests s; _totalVerified := _totalVerified s;
     _totalFailed := _totalFailed s; _oracleRelayer := _oracleRelayer s |}.
Definition set_lastRequestTime (v : gmap Z Z) (s : State) : State :=
  {| _roles := _roles s; _admin := _admin s; _paused := _paused s; _status := _status s;
     _requestCounter := _requestCounter s; _verificationFee := _verificationFee s;
     _treasuryAddress := _treasuryAddress s; _nftContract := _nftContract s;
     DEPLOYMENT_TIME := DEPLOYMENT_TIME s; _requests := _requests s;
     _userRequests := _userRequests s; _requestCount := _requestCount s;
     _lastRequestTime := v; _dailyRequestCount := _dailyRequestCount s;
     _oracles := _oracles s; _processedAttestations := _processedAttestations s;
     _totalRequests := _totalRequests s; _totalVerified := _totalVerified s;
     _totalFailed := _totalFailed s; _oracleRelayer := _oracleRelayer s |}.
Definition set_dailyRequestCount (v : gmap (Z * Z) Z) (s : State) : State :=
  {| _roles := _roles s; _admin := _admin s; _paused := _paused s; _status := _status s;
     _requestCounter := _requestCounter s; _verificationFee := _verificationFee s;
     _treasuryAddress := _treasuryAddress s; _nftContract := _nftContract s;
     DEPLOYMENT_TIME := DEPLOYMENT_TIME s; _requests := _requests s;
     _userRequests := _userRequests s; _requestCount := _requestCount s;
     _lastRequestTime := _lastRequestTime s; _dailyRequestCount := v;
     _oracles := _oracles s; _processedAttestations := _processedAttestations s;
     _totalRequests := _totalRequests s; _totalVerified := _totalVerified s;
     _totalFailed := _totalFailed s; _oracleRelayer := _oracleRelayer s |}.
Definition set_oracles (v : gmap Z OracleData) (s : State) : State :=
  {| _roles := _roles s; _admin := _admin s; _paused := _paused s; _status := _status s;
     _requestCounter := _requestCounter s; _verificationFee := _verificationFee s;
     _treasuryAddress := _treasuryAddress s; _nftContract := _nftContract s;
     DEPLOYMENT_TIME := DEPLOYMENT_TIME s; _requests := _requests s;
     _userRequests := _userRequests s; _requestCount := _requestCount s;
     _lastRequestTime := _lastRequestTime s; _dailyRequestCount := _dailyRequestCount s;
     _oracles := v; _processedAttestations := _processedAttestations s;
     _totalRequests := _totalRequests s; _totalVerified := _totalVerified s;
     _totalFailed := _totalFailed s; _oracleRelayer := _oracleRelayer s |}.
Definition set_processedAttestations (v : gmap Z bool) (s : State) : State :=
  {| _roles := _roles s; _admin := _admin s; _paused := _paused s; _status := _status s;
     _requestCounter := _requestCounter s; _verificationFee := _verificationFee s;
     _treasuryAddress := _treasuryAddress s; _nftContract := _nftContract s;
     DEPLOYMENT_TIME := DEPLOYMENT_TIME s; _requests := _requests s;
     _userRequests := _userRequests s; _requestCount := _requestCount s;
     _lastRequestTime := _lastRequestTime s; _dailyRequestCount := _dailyRequestCount s;
     _oracles := _oracles s; _processedAttestations := v;
     _totalRequests := _totalRequests s; _totalVerified := _totalVerified s;
     _totalFailed := _totalFailed s; _oracleRelayer := _oracleRelayer s |}.
Definition set_totalRequests (v : Z) (s : State) : State :=
  {| _roles := _roles s; _admin := _admin s; _paused := _paused s; _status := _status s;
     _requestCounter := _requestCounter s; _verificationFee := _verificationFee s;
     _treasuryAddress := _treasuryAddress s; _nftContract := _nftContract s;
     DEPLOYMENT_TIME := DEPLOYMENT_TIME s; _requests := _requests s;
     _userRequests := _userRequests s; _requestCount := _requestCount s;
     _lastRequestTime := _lastRequestTime s; _dailyRequestCount := _dailyRequestCount s;
     _oracles := _oracles s; _processedAttestations := _processedAttestations s;
     _totalRequests := v; _totalVerified := _totalVerified s;
     _totalFailed := _totalFailed s; _oracleRelayer := _oracleRelayer s |}.
Definition set_totalVerified (v : Z) (s : State) : State :=
  {| _roles := _roles s; _admin := _admin s; _paused := _paused s; _status := _status s;
     _requestCounter := _requestCounter s; _verificationFee := _verificationFee s;
     _treasuryAddress := _treasuryAddress s; _nftContract := _nftContract s;
     DEPLOYMENT_TIME := DEPLOYMENT_TIME s; _requests := _requests s;
     _userRequests := _userRequests s; _requestCount := _requestCount s;
     _lastRequestTime := _lastRequestTime s; _dailyRequestCount := _dailyRequestCount s;
     _oracles := _oracles s; _processedAttestations := _processedAttestations s;
     _totalRequests := _totalRequests s; _totalVerified := v;
     _totalFailed := _totalFailed s; _oracleRelayer := _oracleRelayer s |}.
Definition set_totalFailed (v : Z) (s : State) : State :=
  {| _roles := _roles s; _admin := _admin s; _paused := _paused s; _status := _status s;
     _requestCounter := _requestCounter s; _verificationFee := _verificationFee s;
     _treasuryAddress := _treasuryAddress s; _nftContract := _nftContract s;
     DEPLOYMENT_TIME := DEPLOYMENT_TIME s; _requests := _requests s;
     _userRequests := _userRequests s; _requestCount := _requestCount s;
     _lastRequestTime := _lastRequestTime s; _dailyRequestCount := _dailyRequestCount s;
     _oracles := _oracles s; _processedAttestations := _processedAttestations s;
     _totalRequests := _totalRequests s; _totalVerified := _totalVerified s;
     _totalFailed := v; _oracleRelayer := _oracleRelayer s |}.
Definition set_oracleRelayer (v : Z) (s : State) : State :=
  {| _roles := _roles s; _admin := _admin s; _paused := _paused s; _status := _status s;
     _requestCounter := _requestCounter s; _verificationFee := _verificationFee s;
     _treasuryAddress := _treasuryAddress s; _nftContract := _nftContract s;
     DEPLOYMENT_TIME := DEPLOYMENT_TIME s; _requests := _requests s;
     _userRequests := _userRequests s; _requestCount := _requestCount s;
     _lastRequestTime := _lastRequestTime s; _dailyRequestCount := _dailyRequestCount s;
     _oracles := _oracles s; _processedAttestations := _processedAttestations s;
     _totalRequests := _totalRequests s; _totalVerified := _totalVerified s;
     _totalFailed := _totalFailed s; _oracleRelayer := v |}.

End Storage.

(** The three contracts as deployed: their storage and their addresses.
    A call to any other address finds no contract. *)
Record World : Type := {
  registry : Storage.State;
  nft : NFT.State;
  relayer : Relayer.State;
  registry_address : Z;
  nft_address : Z;
  relayer_address : Z
}.

Definition set_registry (v : Storage.State) (s : World) : World :=
  {| registry := v; nft := nft s; relayer := relayer s;
     registry_address := registry_address s; nft_address := nft_address s;
     relayer_address := relayer_address s |}.
Definition set_nft (v : NFT.State) (s : World) : World :=
  {| registry := registry s; nft := v; relayer := relayer s;
     registry_address := registry_address s; nft_address := nft_address s;
     relayer_address := relayer_address s |}.
Definition set_relayer (v : Relayer.State) (s : World) : World :=
  {| registry := registry s; nft := nft s; relayer := v;
     registry_address := registry_address s; nft_address := nft_address s;
     relayer_address := relayer_address s |}.

(* ===================================================================== *)
(** ** VeriAISolana: functions *)
(* ===================================================================== *)

Module VeriAISolana.
Import Storage.

(** *** Cross-contract calls *)

(** Run a function of the relayer found at [target], with the calling
    contract as [msg.sender]. The world holds the three contracts of the
    repository and no other: a registry whose pointer has been set to
    another address is outside of it, and the call is answered with
    [CallFailed]. What is proved of the result of a cross-contract call
    therefore states as a hypothesis that the pointer is the address of
    the contract of this world. *)
Definition call_relayer {A} (target : Z) (m : Tx Relayer.State A) : Tx World A :=
  fun w =>
    if target =? relayer_address w
    then match m (relayer w) with
         | Ok (a, r) => Ok (a, set_relayer r w)
         | Err e => Err e
         end
    else Err CallFailed.

Definition call_nft {A} (target : Z) (m : Tx NFT.State A) : Tx World A :=
  fun w =>
    if target =? nft_address w
    then match m (nft w) with
         | Ok (a, n) => Ok (a, set_nft n w)
         | Err e => Err e
         end
    else Err CallFailed.

(** The environment of a call made by the registry itself. *)
Definition inner_env (e : Env) (w : World) : Env :=
  {| block_timestamp := block_timestamp e; block_number := block_number e;
     msg_sender := registry_address w; msg_value := 0;
     pyth_getPrice := pyth_getPrice e;
     switchboard_requestData := switchboard_requestData e;
     accepts_value := accepts_value e;
     this_balance := this_balance e |}.

Definition reg_get : Tx World State := tx_gets registry.
Definition reg_modify (f : State -> State) : Tx World unit :=
  tx_modify (fun w => set_registry (f (registry w)) w).

(** *** AccessManager *)

Definition DEFAULT_ADMIN_ROLE : Z := 0.
Definition ORACLE_ROLE `{EVMBuiltins} : Z := keccak256 "ORACLE_ROLE".
Definition PAUSER_ROLE `{EVMBuiltins} : Z := keccak256 "PAUSER_ROLE".
Definition FEE_MANAGER_ROLE `{EVMBuiltins} : Z := keccak256 "FEE_MANAGER_ROLE".

Definition initialize (admin : Z) : Tx World unit :=
  s ← reg_get;
  _ ← require (_admin s =? 0) "Already initialized";
  _ ← require (negb (admin =? 0)) "Invalid admin";
  reg_modify (set_admin admin).

(** [msgSender()] is the stored admin, whoever calls. *)
Definition msgSender (s : State) : Z := _admin s.

Definition hasRole (role account : Z) (s : State) : bool :=
  mapping_get false (_roles s) (role, account).

Definition onlyRole {A} (role : Z) (body : Tx World A) : Tx World A :=
  s ← reg_get;
  _ ← require (hasRole role (msgSender s) s) "Access denied";
  body.

Definition getRoleAdmin (role : Z) : Z := DEFAULT_ADMIN_ROLE.

Definition _grantRole (role account : Z) : Tx World unit :=
  s ← reg_get;
  if negb (hasRole role account s)
  then reg_modify (set_roles (<[(role, account) := true]> (_roles s)))
  else mret tt.

Definition _revokeRole (role account : Z) : Tx World unit :=
  s ← reg_get;
  if hasRole role account s
  then reg_modify (set_roles (<[(role, account) := false]> (_roles s)))
  else mret tt.

Definition grantRole (role account : Z) : Tx World unit :=
  onlyRole (getRoleAdmin role) (_grantRole role account).

Definition revokeRole (role account : Z) : Tx World unit :=
  onlyRole (getRoleAdmin role) (_revokeRole role account).

(** *** PausableManager *)

Definition whenNotPaused {A} (body : Tx World A) : Tx World A :=
  s ← reg_get;
  _ ← require (negb (_paused s)) "Contract paused";
  body.

Definition paused (s : State) : bool := _paused s.

Definition pause `{EVMBuiltins} : Tx World unit :=
  onlyRole PAUSER_ROLE (reg_modify (set_paused true)).

Definition unpause `{EVMBuiltins} : Tx World unit :=
  onlyRole PAUSER_ROLE (reg_modify (set_paused false)).

(** *** ReentrancyGuard *)

Definition _NOT_ENTERED : Z := 1.
Definition _ENTERED : Z := 2.

Definition nonReentrant {A} (body : Tx World A) : Tx World A :=
  s ← reg_get;
  _ ← require (negb (_status s =? _ENTERED)) "ReentrancyGuard: reentrant call";
  _ ← reg_modify (set_status _ENTERED);
  r ← body;
  _ ← reg_modify (set_status _NOT_ENTERED);
  mret r.

(** *** Dynamic fee *)

(** [try _oracleRelayer.getSOLUSDPrice() ... catch]: only a revert of the
    price query itself is caught; what the success clause does, including
    its call of [calculateSOLFee], reverts the caller. *)
Definition _calculateDynamicFee (e : Env) : Tx World Z :=
  s ← reg_get;
  w ← tx_get;
  if negb (_oracleRelayer s =? relayer_address w) then tx_fail CallFailed
  else
    match Relayer.getSOLUSDPrice (inner_env e w) with
    | Ok (solPrice, timestamp) =>
        age ← tx_lift (uint256_sub (block_timestamp e) timestamp);
        if age >? 3600 then mret (_verificationFee s)
        else
          let usdFeeInCents := 100 in
          usd ← tx_lift (uint256_mul usdFeeInCents (10 ^ 6));
          call_relayer (_oracleRelayer s)
            (tx_lift (Relayer.calculateSOLFee (inner_env e w) usd))
    | Err _ => mret (_verificationFee s)
    end.

(** *** Request verification *)

Definition new_request (requester : Z) (prompt model : string) (e : Env)
  : VerificationRequest :=
  {| requester := requester; prompt := prompt; model := model;
     timestamp := to_uint64 (block_timestamp e); status := Pending;
     outputHash := 0; attestationId := 0; feePaid := msg_value e;
     nftMinted := false |}.

(** [requestVerification(string prompt, string model)]: the caller pays. *)
Definition requestVerification `{EVMBuiltins}
    (e : Env) (prompt model : string) : Tx World Z :=
  whenNotPaused (nonReentrant (
    (* Validate inputs *)
    _ ← tx_lift (VerificationLibrary.validateVerificationInput prompt model);
    (* Get current SOL price and calculate fee *)
    requiredFee ← _calculateDynamicFee e;
    _ ← require (msg_value e >=? requiredFee) "Insufficient fee";
    (* Rate limiting *)
    s ← reg_get;
    rate_ok ← tx_lift (VerificationLibrary.checkRateLimit
                 (mapping_get 0 (_lastRequestTime s) (msgSender s)) (block_timestamp e));
    _ ← require rate_ok "Rate limit exceeded";
    (* Daily limit check *)
    currentDay ← tx_lift (VerificationLibrary.timestampToDay
                    (block_timestamp e) (DEPLOYMENT_TIME s));
    _ ← require (VerificationLibrary.checkDailyLimit
                   (mapping_get 0 (_dailyRequestCount s) (msgSender s, currentDay)))
                "Daily limit exceeded";
    (* Generate request ID *)
    let requestId := VerificationLibrary.generateRequestId
                       (msgSender s) prompt model (block_timestamp e) (_requestCounter s) in
    (* Create verification request *)
    _ ← reg_modify (set_requests
          (<[requestId := new_request (msgSender s) prompt model e]> (_requests s)));
    (* Update tracking *)
    s ← reg_get;
    _ ← reg_modify (set_userRequests
          (<[msgSender s := (mapping_get [] (_userRequests s) (msgSender s) ++ [requestId])%list]>
             (_userRequests s)));
    s ← reg_get;
    count ← tx_lift (uint256_add (mapping_get 0 (_requestCount s) (msgSender s)) 1);
    _ ← reg_modify (set_requestCount (<[msgSender s := count]> (_requestCount s)));
    s ← reg_get;
    _ ← reg_modify (set_lastRequestTime
          (<[msgSender s := block_timestamp e]> (_lastRequestTime s)));
    s ← reg_get;
    daily ← tx_lift (uint256_add
               (mapping_get 0 (_dailyRequestCount s) (msgSender s, currentDay)) 1);
    _ ← reg_modify (set_dailyRequestCount
          (<[(msgSender s, currentDay) := daily]> (_dailyRequestCount s)));
    s ← reg_get;
    counter ← tx_lift (uint256_add (_requestCounter s) 1);
    _ ← reg_modify (set_requestCounter counter);
    s ← reg_get;
    total ← tx_lift (uint256_add (_totalRequests s) 1);
    _ ← reg_modify (set_totalRequests total);
    (* Prepare verification data for oracle *)
    s ← reg_get;
    let verificationData :=
      abi_encode [AString prompt; AString model; AAddress (msgSender s);
                  AUint256 (block_timestamp e)] in
    (* Request attestation from oracle *)
    w ← tx_get;
    attestationId ← call_relayer (_oracleRelayer s)
                      (Relayer.requestAttestation (inner_env e w) requestId verificationData);
    s ← reg_get;
    _ ← reg_modify (set_requests
          (<[requestId := with_attestationId attestationId
                            (mapping_get zero_request (_requests s) requestId)]>
             (_requests s)));
    (* Transfer fee to treasury *)
    s ← reg_get;
    _ ← require (accepts_value e (_treasuryAddress s)) "Fee transfer failed";
    mret requestId)).

(** [requestVerification(address requester, string prompt, string model)]:
    the backend service pays on behalf of [requester]. *)
Definition requestVerificationFor `{EVMBuiltins}
    (e : Env) (requester : Z) (prompt model : string) : Tx World Z :=
  whenNotPaused (nonReentrant (onlyRole ORACLE_ROLE (
    _ ← require (negb (requester =? 0)) "Invalid requester";
    (* Validate inputs *)
    _ ← tx_lift (VerificationLibrary.validateVerificationInput prompt model);
    (* Calculate required fee *)
    requiredFee ← _calculateDynamicFee e;
    _ ← require (msg_value e >=? requiredFee) "Insufficient fee";
    (* Check rate limiting for the user *)
    s ← reg_get;
    rate_ok ← tx_lift (VerificationLibrary.checkRateLimit
                 (mapping_get 0 (_lastRequestTime s) requester) (block_timestamp e));
    _ ← require rate_ok "Rate limit exceeded";
    (* Check daily limit *)
    currentDay ← tx_lift (VerificationLibrary.timestampToDay
                    (block_timestamp e) (DEPLOYMENT_TIME s));
    _ ← require (VerificationLibrary.checkDailyLimit
                   (mapping_get 0 (_dailyRequestCount s) (requester, currentDay)))
                "Daily limit exceeded";
    (* Generate request ID *)
    let requestId := VerificationLibrary.generateRequestId
                       requester prompt model (block_timestamp e) (_requestCounter s) in
    (* Create verification request *)
    _ ← reg_modify (set_requests
          (<[requestId := new_request requester prompt model e]> (_requests s)));
    (* Update tracking for the actual user (not msg.sender) *)
    s ← reg_get;
    _ ← reg_modify (set_userRequests
          (<[requester := (mapping_get [] (_userRequests s) requester ++ [requestId])%list]>
             (_userRequests s)));
    s ← reg_get;
    count ← tx_lift (uint256_add (mapping_get 0 (_requestCount s) requester) 1);
    _ ← reg_modify (set_requestCount (<[requester := count]> (_requestCount s)));
    s ← reg_get;
    _ ← reg_modify (set_lastRequestTime
          (<[requester := block_timestamp e]> (_lastRequestTime s)));
    s ← reg_get;
    daily ← tx_lift (uint256_add
               (mapping_get 0 (_dailyRequestCount s) (requester, currentDay)) 1);
    _ ← reg_modify (set_dailyRequestCount
          (<[(requester, currentDay) := daily]> (_dailyRequestCount s)));
    s ← reg_get;
    counter ← tx_lift (uint256_add (_requestCounter s) 1);
    _ ← reg_modify (set_requestCounter counter);
    s ← reg_get;
    total ← tx_lift (uint256_add (_totalRequests s) 1);
    _ ← reg_modify (set_totalRequests total);
    (* Prepare verification data for oracle *)
    let verificationData :=
      VerificationLibrary.encodeVerificationData prompt model requester (block_timestamp e) in
    (* Request attestation from oracle *)
    s ← reg_get;
    w ← tx_get;
    attestationId ← call_relayer (_oracleRelayer s)
                      (Relayer.requestAttestation (inner_env e w) requestId verificationData);
    s ← reg_get;
    _ ← reg_modify (set_requests
          (<[requestId := with_attestationId attestationId
                            (mapping_get zero_request (_requests s) requestId)]>
             (_requests s)));
    (* Transfer fee to treasury *)
    s ← reg_get;
    _ ← require (accepts_value e (_treasuryAddress s)) "Fee transfer failed";
    mret requestId))).

(** *** Fulfilment *)

(** [request] is a storage pointer to [_requests[requestId]]: its fields
    are read from, and written to, the mapping. *)
Definition _mintVerificationNFT `{EVMBuiltins}
    (recipient requestId outputHash : Z) (proof : string) : Tx World unit :=
  let proofHash := keccak256 proof in
  s ← reg_get;
  let request := mapping_get zero_request (_requests s) requestId in
  let metadata :=
    {| NFT.prompt := prompt request;
       NFT.model := model request;
       NFT.outputHash := abi_encodePacked [ABytes32 outputHash];
       NFT.timestamp := timestamp request;
       NFT.proofHash := proofHash;
       NFT.verified := true;
       NFT.verifier := msgSender s;
       NFT.requestId := requestId |} in
  _ ← call_nft (_nftContract s) (NFT.mintVerificationNFT recipient metadata);
  s ← reg_get;
  reg_modify (set_requests
    (<[requestId := with_nftMinted true (mapping_get zero_request (_requests s) requestId)]>
       (_requests s))).

Definition fulfillVerification `{EVMBuiltins}
    (e : Env) (requestId : Z) (output : string) (attestationId : Z) (proof : string)
  : Tx World unit :=
  onlyRole ORACLE_ROLE (
    s ← reg_get;
    let request := mapping_get zero_request (_requests s) requestId in
    _ ← require (negb (requester request =? 0)) "Request not found";
    _ ← require (bool_decide (status request = Pending)) "Request already fulfilled";
    (* Verify attestation with oracle *)
    valid ← call_relayer (_oracleRelayer s)
              (tx_gets (Relayer.verifyAttestation attestationId));
    _ ← require valid "Invalid attestation";
    (* Validate attestation matches request *)
    _ ← require (Storage.attestationId request =? attestationId) "Attestation mismatch";
    (* Check if request has expired *)
    expired ← tx_lift (VerificationLibrary.isRequestExpired
                 (timestamp request) (block_timestamp e));
    _ ← require (negb expired) "Request expired";
    (* Calculate output hash *)
    let outputHash := VerificationLibrary.calculateOutputHash output in
    (* Update request *)
    _ ← reg_modify (set_requests
          (<[requestId := with_outputHash outputHash (with_status Verified request)]>
             (_requests s)));
    s ← reg_get;
    verifiedCount ← tx_lift (uint256_add (_totalVerified s) 1);
    _ ← reg_modify (set_totalVerified verifiedCount);
    (* Mint NFT certificate *)
    _mintVerificationNFT (requester request) requestId outputHash proof).

Definition markVerificationFailed `{EVMBuiltins}
    (e : Env) (requestId : Z) (reason : string) : Tx World unit :=
  onlyRole ORACLE_ROLE (
    s ← reg_get;
    let request := mapping_get zero_request (_requests s) requestId in
    _ ← require (negb (requester request =? 0)) "Request not found";
    _ ← require (bool_decide (status request = Pending)) "Request already processed";
    _ ← reg_modify (set_requests
          (<[requestId := with_status Failed request]> (_requests s)));
    s ← reg_get;
    failedCount ← tx_lift (uint256_add (_totalFailed s) 1);
    reg_modify (set_totalFailed failedCount)).

(** *** Admin functions *)

Definition setOracleRelayer (newOracleRelayer : Z) : Tx World unit :=
  onlyRole DEFAULT_ADMIN_ROLE (
    _ ← require (negb (newOracleRelayer =? 0)) "Invalid oracle relayer";
    reg_modify (set_oracleRelayer newOracleRelayer)).

Definition setVerificationFee `{EVMBuiltins} (_fee : Z) : Tx World unit :=
  onlyRole FEE_MANAGER_ROLE (
    _ ← tx_lift (VerificationLibrary.validateFee _fee);
    reg_modify (set_verificationFee _fee)).

Definition setTreasuryAddress (_treasury : Z) : Tx World unit :=
  onlyRole DEFAULT_ADMIN_ROLE (
    _ ← revert_unless (negb (_treasury =? 0)) "InvalidTreasuryAddress";
    reg_modify (set_treasuryAddress _treasury)).

Definition setNFTContract (_nftContractAddress : Z) : Tx World unit :=
  onlyRole DEFAULT_ADMIN_ROLE (
    _ ← revert_unless (negb (_nftContractAddress =? 0)) "InvalidNFTContract";
    reg_modify (set_nftContract _nftContractAddress)).

Definition addOracle `{EVMBuiltins} (e : Env) (_oracle : Z) : Tx World unit :=
  onlyRole DEFAULT_ADMIN_ROLE (
    _ ← revert_unless (negb (_oracle =? 0)) "ZeroAddress";
    _ ← _grantRole ORACLE_ROLE _oracle;
    s ← reg_get;
    reg_modify (set_oracles
      (<[_oracle := {| oracle := _oracle; isActive := true; successfulVerifications := 0;
                       failedVerifications := 0;
                       lastActivity := to_uint64 (block_timestamp e) |}]> (_oracles s)))).

Definition removeOracle `{EVMBuiltins} (_oracle : Z) : Tx World unit :=
  onlyRole DEFAULT_ADMIN_ROLE (
    _ ← _revokeRole ORACLE_ROLE _oracle;
    s ← reg_get;
    let o := mapping_get zero_oracle (_oracles s) _oracle in
    reg_modify (set_oracles
      (<[_oracle := {| oracle := oracle o; isActive := false;
                       successfulVerifications := successfulVerifications o;
                       failedVerifications := failedVerifications o;
                       lastActivity := lastActivity o |}]> (_oracles s)))).

Definition _transferFees (e : Env) (amount : Z) : Tx World unit :=
  s ← reg_get;
  revert_unless (accepts_value e (_treasuryAddress s)) "TransferFailed".

(** The withdrawal changes no storage. *)
Definition emergencyWithdraw (e : Env) : Tx World unit :=
  onlyRole DEFAULT_ADMIN_ROLE (
    let balance := this_balance e in
    if balance >? 0 then _transferFees e balance else mret tt).

Definition constructor `{EVMBuiltins}
    (e : Env) (_initialFee _treasury _admin _oracleRelayer : Z) : Tx World unit :=
  _ ← reg_modify (set_status _NOT_ENTERED);
  _ ← require (negb (_treasury =? 0)) "Invalid treasury";
  _ ← require (negb (_admin =? 0)) "Invalid admin";
  _ ← require (negb (_oracleRelayer =? 0)) "Invalid oracle relayer";
  _ ← reg_modify (set_verificationFee _initialFee);
  _ ← reg_modify (set_treasuryAddress _treasury);
  _ ← reg_modify (set_oracleRelayer _oracleRelayer);
  _ ← reg_modify (set_DEPLOYMENT_TIME (block_timestamp e));
  _ ← initialize _admin;
  _ ← _grantRole DEFAULT_ADMIN_ROLE _admin;
  _ ← _grantRole ORACLE_ROLE _admin;
  _grantRole FEE_MANAGER_ROLE _admin.

(** *** View functions *)

Definition getVerificationRequest (requestId : Z) (s : State) : VerificationRequest :=
  mapping_get zero_request (_requests s) requestId.

Definition verifyOutput `{EVMBuiltins} (requestId : Z) (output : string) (s : State) : bool :=
  let request := mapping_get zero_request (_requests s) requestId in
  if negb (bool_decide (status request = Verified)) then false
  else
    let outputHash := VerificationLibrary.calculateOutputHash output in
    outputHash =? Storage.outputHash request.

Definition getUserRequestCount (user : Z) (s : State) : Z :=
  mapping_get 0 (_requestCount s) user.

Definition getUserRequests (user : Z) (s : State) : list Z :=
  mapping_get [] (_userRequests s) user.

Definition getVerificationFee (s : State) : Z := _verificationFee s.

Definition getTreasuryAddress (s : State) : Z := _treasuryAddress s.

Definition getNFTContract (s : State) : Z := _nftContract s.

Definition getOracleData (oracle : Z) (s : State) : OracleData :=
  mapping_get zero_oracle (_oracles s) oracle.

Definition isAttestationProcessed (attestationId : Z) (s : State) : bool :=
  mapping_get false (_processedAttestations s) attestationId.

Definition getContractStats (s : State) : Z * Z * Z :=
  (_totalRequests s, _totalVerified s, _totalFailed s).

End VeriAISolana.

(* ===================================================================== *)
(** ** The deployed system *)
(* ===================================================================== *)

Module System.

(** Every state-changing entry point of the three contracts. *)
Inductive call : Type :=
(* VeriAISolana *)
| RequestVerification (prompt model : string)
| RequestVerificationFor (requester : Z) (prompt model : string)
| FulfillVerification (requestId : Z) (output : string) (attestationId : Z) (proof : string)
| MarkVerificationFailed (requestId : Z) (reason : string)
| SetOracleRelayer (newOracleRelayer : Z)
| SetVerificationFee (fee : Z)
| SetTreasuryAddress (treasury : Z)
| SetNFTContract (nftContract : Z)
| AddOracle (oracle : Z)
| RemoveOracle (oracle : Z)
| GrantRole (role account : Z)
| RevokeRole (role account : Z)
| Pause
| Unpause
| Initialize (admin : Z)
| EmergencyWithdraw
(* VeriAINFTSolana *)
| NftMintVerificationNFT (recipient : Z) (metadata : NFT.VerificationMetadata)
| NftUpdateTokenMetadata (tokenId : Z) (newMetadata : string)
| NftSetBaseTokenURI (newBaseURI : string)
| NftGrantRole (role account : Z)
| NftInitialize (admin : Z)
(* SolanaOracleRelayer *)
| RelayerRequestAttestation (requestId : Z) (verificationData : string)
| RelayerFulfillAttestation (requestId : Z) (result proof : string)
| RelayerAuthorizeOracleCaller (caller : Z)
| RelayerRevokeOracleCaller (caller : Z).

Definition on_nft {A} (m : Tx NFT.State A) : Tx World A :=
  fun w => match m (nft w) with
           | Ok (a, n) => Ok (a, set_nft n w)
           | Err e => Err e
           end.

Definition on_relayer {A} (m : Tx Relayer.State A) : Tx World A :=
  fun w => match m (relayer w) with
           | Ok (a, r) => Ok (a, set_relayer r w)
           | Err e => Err e
           end.

Definition discard {S A} (m : Tx S A) : Tx S unit := _ ← m; mret tt.

Definition exec `{EVMBuiltins} (e : Env) (c : call) : Tx World unit :=
  match c with
  | RequestVerification p m => discard (VeriAISolana.requestVerification e p m)
  | RequestVerificationFor r p m => discard (VeriAISolana.requestVerificationFor e r p m)
  | FulfillVerification i o a p => VeriAISolana.fulfillVerification e i o a p
  | MarkVerificationFailed i r => VeriAISolana.markVerificationFailed e i r
  | SetOracleRelayer a => VeriAISolana.setOracleRelayer a
  | SetVerificationFee f => VeriAISolana.setVerificationFee f
  | SetTreasuryAddress t => VeriAISolana.setTreasuryAddress t
  | SetNFTContract n => VeriAISolana.setNFTContract n
  | AddOracle o => VeriAISolana.addOracle e o
  | RemoveOracle o => VeriAISolana.removeOracle o
  | GrantRole r a => VeriAISolana.grantRole r a
  | RevokeRole r a => VeriAISolana.revokeRole r a
  | Pause => VeriAISolana.pause
  | Unpause => VeriAISolana.unpause
  | Initialize a => VeriAISolana.initialize a
  | EmergencyWithdraw => VeriAISolana.emergencyWithdraw e
  | NftMintVerificationNFT r m => on_nft (discard (NFT.mintVerificationNFT r m))
  | NftUpdateTokenMetadata t m => on_nft (NFT.updateTokenMetadata t m)
  | NftSetBaseTokenURI u => on_nft (NFT.setBaseTokenURI u)
  | NftGrantRole r a => on_nft (NFT.grantRole r a)
  | NftInitialize a => on_nft (NFT.initialize a)
  | RelayerRequestAttestation i d => on_relayer (discard (Relayer.requestAttestation e i d))
  | RelayerFulfillAttestation i r p => on_relayer (Relayer.fulfillAttestation e i r p)
  | RelayerAuthorizeOracleCaller c => on_relayer (Relayer.authorizeOracleCaller e c)
  | RelayerRevokeOracleCaller c => on_relayer (Relayer.revokeOracleCaller e c)
  end.

(** One transaction: the call takes effect, or reverts and changes nothing. *)
Definition step `{EVMBuiltins} (e : Env) (c : call) (w : World) : World :=
  commit (exec e c) w.

Fixpoint run `{EVMBuiltins} (txs : list (Env * call)) (w : World) : World :=
  match txs with
  | [] => w
  | (e, c) :: rest => run rest (step e c w)
  end.

(** Deployment: the relayer, then the certificate contract, then the
    registry, each by its constructor. *)
Record DeployParams : Type := {
  dp_registry_address : Z;
  dp_nft_address : Z;
  dp_relayer_address : Z;
  dp_relayer_deployer : Z;
  dp_nft_name : string;
  dp_nft_symbol : string;
  dp_nft_baseTokenURI : string;
  dp_nft_admin : Z;
  dp_initialFee : Z;
  dp_treasury : Z;
  dp_admin : Z;
  dp_oracleRelayer : Z
}.

Definition deploy `{EVMBuiltins} (e : Env) (p : DeployParams) : result World :=
  let relayer_env :=
    {| block_timestamp := block_timestamp e; block_number := block_number e;
       msg_sender := dp_relayer_deployer p; msg_value := 0;
       pyth_getPrice := pyth_getPrice e;
       switchboard_requestData := switchboard_requestData e;
       accepts_value := accepts_value e;
       this_balance := this_balance e |} in
  let w0 :=
    {| registry := Storage.zero_state; nft := NFT.zero_state;
       relayer := Relayer.constructor relayer_env;
       registry_address := dp_registry_address p;
       nft_address := dp_nft_address p;
       relayer_address := dp_relayer_address p |} in
  r1 ← on_nft (NFT.constructor (dp_nft_name p) (dp_nft_symbol p)
                 (dp_nft_baseTokenURI p) (dp_nft_admin p)) w0;
  r2 ← VeriAISolana.constructor e (dp_initialFee p) (dp_treasury p) (dp_admin p)
         (dp_oracleRelayer p) (snd r1);
  Ok (snd r2).

Inductive reachable `{EVMBuiltins} : World -> Prop :=
| reachable_deploy e p w : deploy e p = Ok w -> reachable w
| reachable_step e c w : reachable w -> reachable (step e c w).

End System.

(* ===================================================================== *)
(** ** MultichainContractService *)
(* ===================================================================== *)

Module Multichain.

(** A chain selector is the string that TypeScript's [ChainType] erases
    to at run time: ["ethereum"] or ["solana"]. *)
Definition ChainType : Type := string.

Record MultichainNFTData : Type := {
  tokenId : string;
  owner : string;
  prompt : string;
  output : string;
  model : string;
  verificationId : string;
  metadataURI : option string;
  timestamp : string;
  chain : ChainType
}.

(** A settled promise. *)
Inductive promise (A : Type) : Type :=
| Resolved (a : A)
| Rejected.
Arguments Resolved {A} a.
Arguments Rejected {A}.

(** What the router uses of a per-chain service. *)
Record ChainService : Type := {
  getNFT_of : string -> promise (option MultichainNFTData)
}.

Record MultichainContractService : Type := {
  solanaService : ChainService;
  ethereumService : ChainService;
  defaultChain : ChainType
}.

Definition startsWith (s p : string) : bool := String.prefix p s.

Definition detectChainFromTokenId (this : MultichainContractService) (tokenId : string)
  : ChainType :=
  if startsWith tokenId "sol_" || startsWith tokenId "solana_" then "solana"
  else if startsWith tokenId "eth_" || startsWith tokenId "ethereum_" then "ethereum"
  else (* Default to configured default chain *) defaultChain this.

(** [chain || this.detectChainFromTokenId(tokenId)]: an omitted (or empty)
    selector is falsy. *)
Definition targetChain_of (this : MultichainContractService) (tokenId : string)
    (chain : option ChainType) : ChainType :=
  match chain with
  | Some c => if String.eqb c "" then detectChainFromTokenId this tokenId else c
  | None => detectChainFromTokenId this tokenId
  end.

Definition getNFT (this : MultichainContractService) (tokenId : string)
    (chain : option ChainType) : option MultichainNFTData :=
  let targetChain := targetChain_of this tokenId chain in
  let attempt : promise (option MultichainNFTData) :=
    if String.eqb targetChain "solana" then getNFT_of (solanaService this) tokenId
    else if String.eqb targetChain "ethereum" then getNFT_of (ethereumService this) tokenId
    else
      (* If chain detection fails, try both chains *)
      match getNFT_of (solanaService this) tokenId with
      | Resolved (Some solanaResult) => Resolved (Some solanaResult)
      | Resolved None => getNFT_of (ethereumService this) tokenId
      | Rejected => Rejected
      end in
  match attempt with
  | Resolved nftData => nftData
  | Rejected => None          (* catch (error) { return null } *)
  end.

Definition setDefaultChain (chain : ChainType) (this : MultichainContractService)
  : MultichainContractService :=
  {| solanaService := solanaService this; ethereumService := ethereumService this;
     defaultChain := chain |}.

(** The constructor defaults to Solana. *)
Definition new_service (sol eth : ChainService) : MultichainContractService :=
  {| solanaService := sol; ethereumService := eth; defaultChain := "solana" |}.

(** *** The services as shipped *)

(** [SolanaContractService.getNFT] and [EthereumContractService.getNFT]
    answer every identifier with simulated data. [now] is what
    [new Date().toISOString()] gives at the call. *)
Definition SolanaContractService (now : string) : ChainService :=
  {| getNFT_of := fun id =>
       Resolved (Some
         {| tokenId := id;
            owner := "11111111111111111111111111111111";
            prompt := "Sample prompt"; output := "Sample output"; model := "gpt-4";
            verificationId := "sample-verification-id";
            metadataURI := Some ("https://api.veriai.app/metadata/" +:+ id);
            timestamp := now;
            chain := "solana" |}) |}.

Definition EthereumContractService (now : string) : ChainService :=
  {| getNFT_of := fun id =>
       Resolved (Some
         {| tokenId := id;
            owner := "0x0000000000000000000000000000000000000000";
            prompt := "Sample prompt"; output := "Sample output"; model := "gpt-4";
            verificationId := "sample-verification-id";
            metadataURI := Some ("https://api.veriai.app/metadata/" +:+ id);
            timestamp := now;
            chain := "ethereum" |}) |}.

(** [new MultichainContractService()] *)
Definition constructor (now : string) : MultichainContractService :=
  new_service (SolanaContractService now) (EthereumContractService now).

(** *** Listing the certificates of a user *)

(** A JavaScript number that is an integer, or one of the two values
    that a division by zero gives. The sign of a zero is not kept. *)
Inductive number : Type :=
| Int (z : Z)
| Infinity
| NaN.

(** [Math.ceil(a / b)] for a length [a] and an integer [b]. *)
Definition ceil_div (a : nat) (b : Z) : number :=
  if b =? 0 then (if Z.of_nat a =? 0 then NaN else Infinity)
  else Int (- ((- Z.of_nat a) / b)).

(** [Array.prototype.slice(start, end)] for integer indices. *)
Definition slice {A} (l : list A) (start end_ : Z) : list A :=
  let len := Z.of_nat (length l) in
  let k := if start <? 0 then Z.max (len + start) 0 else Z.min start len in
  let final := if end_ <? 0 then Z.max (len + end_) 0 else Z.min end_ len in
  take (Z.to_nat (final - k)) (drop (Z.to_nat k) l).

Record UserNFTs : Type := {
  nfts : list MultichainNFTData;
  total : Z;
  page : Z;
  totalPages : number;
  chainBreakdown : option (Z * Z)     (* ethereum, solana *)
}.

(** What [getUserNFTs] uses of a per-chain service. *)
Record ChainListing : Type := {
  getUserNFTs_of : string -> Z -> Z -> promise UserNFTs
}.

(** [page] and [limit] are integers: the route parses them with
    [parseInt]. An omitted or empty selector is falsy. A rejection of a
    service, and the error thrown for an unsupported selector, are caught
    and answered with the empty listing. *)
Definition getUserNFTs (solana ethereum : ChainListing)
    (userAddress : string) (page_ limit : Z) (chain_ : option ChainType) : UserNFTs :=
  let failed :=
    {| nfts := []; total := 0; page := page_; totalPages := Int 0;
       chainBreakdown := Some (0, 0) |} in
  let selected (c : ChainType) :=
    let attempt :=
      if String.eqb c "solana" then getUserNFTs_of solana userAddress page_ limit
      else if String.eqb c "ethereum" then getUserNFTs_of ethereum userAddress page_ limit
      else Rejected in
    match attempt with
    | Resolved r => r
    | Rejected => failed
    end in
  let combined :=
    (* Promise.all: fetch from all chains and combine *)
    match getUserNFTs_of solana userAddress 1 1000,
          getUserNFTs_of ethereum userAddress 1 1000 with
    | Resolved solanaResult, Resolved ethereumResult =>
        let allNFTs := (nfts solanaResult ++ nfts ethereumResult)%list in
        let total_ := Z.of_nat (length allNFTs) in
        let totalPages_ := ceil_div (length allNFTs) limit in
        let startIndex := (page_ - 1) * limit in
        let endIndex := startIndex + limit in
        {| nfts := slice allNFTs startIndex endIndex;
           total := total_;
           page := page_;
           totalPages := totalPages_;
           chainBreakdown := Some (total ethereumResult, total solanaResult) |}
    | _, _ => failed
    end in
  match chain_ with
  | Some c => if String.eqb c "" then combined else selected c
  | None => combined
  end.

End Multichain.

(* ===================================================================== *)
(** ** Closed forms and predicates used by the proofs *)
(* ===================================================================== *)

(** The same world with the pause flag set to [b]. *)
Definition with_paused (b : bool) (w : World) : World :=
  set_registry (Storage.set_paused b (registry w)) w.

Definition map_world {A} (f : World -> World) (r : result (A * World)) : result (A * World) :=
  match r with
  | Ok (a, w) => Ok (a, f w)
  | Err e => Err e
  end.

(** The certificate that [fulfillVerification] asks the certificate
    contract to mint. *)
Definition certificate_of `{EVMBuiltins}
    (s : Storage.State) (requestId : Z) (output proof : string)
  : NFT.VerificationMetadata :=
  let request := mapping_get Storage.zero_request (Storage._requests s) requestId in
  {| NFT.prompt := Storage.prompt request;
     NFT.model := Storage.model request;
     NFT.outputHash :=
       abi_encodePacked [ABytes32 (VerificationLibrary.calculateOutputHash output)];
     NFT.timestamp := Storage.timestamp request;
     NFT.proofHash := keccak256 proof;
     NFT.verified := true;
     NFT.verifier := VeriAISolana.msgSender s;
     NFT.requestId := requestId |}.

Definition fulfilled_request `{EVMBuiltins}
    (request : Storage.VerificationRequest) (output : string)
  : Storage.VerificationRequest :=
  Storage.with_nftMinted true
    (Storage.with_outputHash (VerificationLibrary.calculateOutputHash output)
       (Storage.with_status Storage.Verified request)).

(** The fee that [_calculateDynamicFee] returns, as a function of the
    price feed. *)
Definition requiredFee (e : Env) (w : World) : result Z :=
  let s := registry w in
  if Storage._oracleRelayer s =? relayer_address w then
    match pyth_getPrice e with
    | Some (solPrice, timestamp) =>
        match uint256_sub (block_timestamp e) timestamp with
        | Ok age =>
            if age >? 3600 then Ok (Storage._verificationFee s)
            else if solPrice <=? 0 then Err (CustomError "InvalidPriceData")
            else uint256_div (100 * 10 ^ 6 * 10 ^ 18) (to_uint64 solPrice * 10 ^ 10)
        | Err err => Err err
        end
    | None => Ok (Storage._verificationFee s)
    end
  else Err CallFailed.

(** The registry storage after an accepted submission. *)
Definition accepted_registry (s : Storage.State) (e : Env) (requester : Z)
    (prompt model : string)
    (requestId attestationId day count daily counter total : Z) : Storage.State :=
  Storage.set_status VeriAISolana._NOT_ENTERED
    (Storage.set_requests
       (<[requestId := Storage.with_attestationId attestationId
                         (VeriAISolana.new_request requester prompt model e)]>
          (Storage._requests s))
       (Storage.set_totalRequests total
          (Storage.set_requestCounter counter
             (Storage.set_dailyRequestCount
                (<[(requester, day) := daily]> (Storage._dailyRequestCount s))
                (Storage.set_lastRequestTime
                   (<[requester := block_timestamp e]> (Storage._lastRequestTime s))
                   (Storage.set_requestCount
                      (<[requester := count]> (Storage._requestCount s))
                      (Storage.set_userRequests
                         (<[requester :=
                              (mapping_get [] (Storage._userRequests s) requester
                               ++ [requestId])%list]>
                            (Storage._userRequests s)) s))))))).

(** The admission logic that the two entry points share, for the account
    [requester]: the tests in the order of the source, then the state the
    registry and the relayer are left in. *)
Definition admission `{EVMBuiltins}
    (e : Env) (requester : Z) (prompt model : string) (w : World) : result (Z * World) :=
  let s := registry w in
  match VerificationLibrary.validateVerificationInput prompt model with
  | Ok _ =>
    match requiredFee e w with
    | Ok fee =>
      if msg_value e >=? fee then
        match VerificationLibrary.checkRateLimit
                (mapping_get 0 (Storage._lastRequestTime s) requester)
                (block_timestamp e) with
        | Ok rate_ok =>
          if rate_ok then
            match VerificationLibrary.timestampToDay
                    (block_timestamp e) (Storage.DEPLOYMENT_TIME s) with
            | Ok day =>
              if VerificationLibrary.checkDailyLimit
                   (mapping_get 0 (Storage._dailyRequestCount s) (requester, day)) then
                let requestId :=
                  VerificationLibrary.generateRequestId
                    requester prompt model (block_timestamp e) (Storage._requestCounter s) in
                match uint256_add (mapping_get 0 (Storage._requestCount s) requester) 1 with
                | Ok count =>
                  match uint256_add
                          (mapping_get 0 (Storage._dailyRequestCount s) (requester, day)) 1 with
                  | Ok daily =>
                    match uint256_add (Storage._requestCounter s) 1 with
                    | Ok counter =>
                      match uint256_add (Storage._totalRequests s) 1 with
                      | Ok total =>
                        if Storage._oracleRelayer s =? relayer_address w then
                          match Relayer.requestAttestation (VeriAISolana.inner_env e w)
                                  requestId
                                  (abi_encode [AString prompt; AString model;
                                               AAddress requester;
                                               AUint256 (block_timestamp e)])
                                  (relayer w) with
                          | Ok (attestationId, r) =>
                            if accepts_value e (Storage._treasuryAddress s) then
                              Ok (requestId,
                                  set_relayer r
                                    (set_registry
                                       (accepted_registry s e requester prompt model
                                          requestId attestationId day count daily
                                          counter total) w))
                            else Err (Revert "Fee transfer failed")
                          | Err err => Err err
                          end
                        else Err CallFailed
                      | Err err => Err err
                      end
                    | Err err => Err err
                    end
                  | Err err => Err err
                  end
                | Err err => Err err
                end
              else Err (Revert "Daily limit exceeded")
            | Err err => Err err
            end
          else Err (Revert "Rate limit exceeded")
        | Err err => Err err
        end
      else Err (Revert "Insufficient fee")
    | Err err => Err err
    end
  | Err err => Err err
  end.

(** The account whose activity a submission is charged to. *)
Definition requester_of (c : System.call) (w : World) : option Z :=
  match c with
  | System.RequestVerification _ _ => Some (VeriAISolana.msgSender (registry w))
  | System.RequestVerificationFor r _ _ => Some r
  | _ => None
  end.

(** The tests that a submission meets before the rate limit. *)
Definition passes_checks_before_rate_limit `{EVMBuiltins}
    (e : Env) (c : System.call) (w : World) : bool :=
  let s := registry w in
  let fee_ok :=
    match requiredFee e w with
    | Ok fee => msg_value e >=? fee
    | Err _ => false
    end in
  negb (Storage._paused s) && negb (Storage._status s =? VeriAISolana._ENTERED) &&
  match c with
  | System.RequestVerification p m =>
      is_ok (VerificationLibrary.validateVerificationInput p m) && fee_ok
  | System.RequestVerificationFor r p m =>
      VeriAISolana.hasRole VeriAISolana.ORACLE_ROLE (VeriAISolana.msgSender s) s &&
      negb (r =? 0) &&
      is_ok (VerificationLibrary.validateVerificationInput p m) && fee_ok
  | _ => false
  end.

(** Every stored request was filed under an identifier generated from a
    counter value that has been used up. *)
Definition ids_issued `{EVMBuiltins} (w : World) : Prop :=
  let s := registry w in
  0 <= Storage._requestCounter s /\
  forall requestId, is_Some (Storage._requests s !! requestId) ->
    exists r p m t n,
      requestId = VerificationLibrary.generateRequestId r p m t n /\
      0 <= n < Storage._requestCounter s.

(** The request is on file and has left [Pending]. *)
Definition settled (requestId : Z) (w : World) : Prop :=
  let request := mapping_get Storage.zero_request (Storage._requests (registry w)) requestId in
  Storage.requester request <> 0 /\ Storage.status request <> Storage.Pending.

(** What a successful call can do to the request table and the counter:
    nothing, file a request under the next identifier, or settle a
    [Pending] request. *)
Inductive requests_change `{EVMBuiltins} (w w' : World) : Prop :=
| requests_same :
    Storage._requests (registry w') = Storage._requests (registry w) ->
    Storage._requestCounter (registry w') = Storage._requestCounter (registry w) ->
    requests_change w w'
| requests_filed r p m t request :
    Storage._requestCounter (registry w) + 1 < UINT256_MOD ->
    Storage._requests (registry w') =
      <[VerificationLibrary.generateRequestId r p m t
          (Storage._requestCounter (registry w)) := request]>
        (Storage._requests (registry w)) ->
    Storage._requestCounter (registry w') = Storage._requestCounter (registry w) + 1 ->
    requests_change w w'
| requests_settled requestId request :
    Storage.requester
      (mapping_get Storage.zero_request (Storage._requests (registry w)) requestId) <> 0 ->
    Storage.status
      (mapping_get Storage.zero_request (Storage._requests (registry w)) requestId)
      = Storage.Pending ->
    Storage._requests (registry w') = <[requestId := request]> (Storage._requests (registry w)) ->
    Storage.requester request <> 0 ->
    Storage.status request <> Storage.Pending ->
    Storage._requestCounter (registry w') = Storage._requestCounter (registry w) ->
    requests_change w w'.

(** The router consults one service only when the selector is a supported
    chain. *)
Definition service_of (this : Multichain.MultichainContractService)
    (chain : Multichain.ChainType) : option Multichain.ChainService :=
  if String.eqb chain "solana" then Some (Multichain.solanaService this)
  else if String.eqb chain "ethereum" then Some (Multichain.ethereumService this)
  else None.

Definition settle {A} (p : Multichain.promise (option A)) : option A :=
  match p with
  | Multichain.Resolved r => r
  | Multichain.Rejected => None
  end.

(** *** The lookup of a certificate as the specification words it *)






(* ===================================================================== *)
(** ** What a transaction can do to the three contracts *)
(* ===================================================================== *)

(** The registry storage that only submissions and settlements write. The
    stored admin is written by [initialize], once. *)
Definition same_ledger (s s' : Storage.State) : Prop :=
  Storage._status s' = Storage._status s /\
  Storage._requestCounter s' = Storage._requestCounter s /\
  Storage.DEPLOYMENT_TIME s' = Storage.DEPLOYMENT_TIME s /\
  Storage._requests s' = Storage._requests s /\
  Storage._userRequests s' = Storage._userRequests s /\
  Storage._requestCount s' = Storage._requestCount s /\
  Storage._lastRequestTime s' = Storage._lastRequestTime s /\
  Storage._dailyRequestCount s' = Storage._dailyRequestCount s /\
  Storage._processedAttestations s' = Storage._processedAttestations s /\
  Storage._totalRequests s' = Storage._totalRequests s /\
  Storage._totalVerified s' = Storage._totalVerified s /\
  Storage._totalFailed s' = Storage._totalFailed s /\
  (Storage._admin s <> 0 -> Storage._admin s' = Storage._admin s).

(** The certificate storage that only a mint writes. *)
Definition same_tokens (n n' : NFT.State) : Prop :=
  NFT._tokenIdCounter n' = NFT._tokenIdCounter n /\
  NFT._owners n' = NFT._owners n /\
  NFT._balances n' = NFT._balances n /\
  NFT._tokenMetadata n' = NFT._tokenMetadata n /\
  NFT._tokensByOwner n' = NFT._tokensByOwner n /\
  NFT._tokensByModel n' = NFT._tokensByModel n /\
  (NFT._admin n <> 0 -> NFT._admin n' = NFT._admin n).

Inductive nft_change `{EVMBuiltins} (n n' : NFT.State) : Prop :=
| nft_minted recipient metadata tokenId :
    NFT.mintVerificationNFT recipient metadata n = Ok (tokenId, n') ->
    nft_change n n'
| nft_kept :
    same_tokens n n' -> nft_change n n'.

Inductive relayer_change `{EVMBuiltins} (r r' : Relayer.State) : Prop :=
| relayer_requested e requestId verificationData attestationId :
    Relayer.requestAttestation e requestId verificationData r = Ok (attestationId, r') ->
    relayer_change r r'
| relayer_fulfilled e requestId result proof :
    Relayer.fulfillAttestation e requestId result proof r = Ok (tt, r') ->
    relayer_change r r'
| relayer_kept :
    Relayer.owner r' = Relayer.owner r ->
    Relayer.requests r' = Relayer.requests r ->
    Relayer.processedAttestations r' = Relayer.processedAttestations r ->
    relayer_change r r'.

(** The successful calls, by what they do. *)
Inductive effect `{EVMBuiltins} (w w' : World) : Prop :=
| effect_submitted e requester prompt model requestId :
    Storage._paused (registry w) = false ->
    (requester = Storage._admin (registry w) \/ requester <> 0) ->
    admission e requester prompt model w = Ok (requestId, w') ->
    effect w w'
| effect_fulfilled e requestId output attestationId proof :
    VeriAISolana.fulfillVerification e requestId output attestationId proof w = Ok (tt, w') ->
    effect w w'
| effect_failed e requestId reason :
    VeriAISolana.markVerificationFailed e requestId reason w = Ok (tt, w') ->
    effect w w'
| effect_registry :
    same_ledger (registry w) (registry w') ->
    nft w' = nft w -> relayer w' = relayer w ->
    effect w w'
| effect_nft :
    registry w' = registry w -> relayer w' = relayer w ->
    nft_change (nft w) (nft w') ->
    effect w w'
| effect_relayer :
    registry w' = registry w -> nft w' = nft w ->
    relayer_change (relayer w) (relayer w') ->
    effect w w'.

(** The bookkeeping of the registry: the guard is released, the admin is
    set, and the activity counters agree with what is on file. *)
Definition ledger_consistent (w : World) : Prop :=
  let s := registry w in
  Storage._admin s <> 0 /\
  Storage._status s = VeriAISolana._NOT_ENTERED /\
  Storage._totalRequests s = Storage._requestCounter s /\
  (forall user, Z.of_nat (length (VeriAISolana.getUserRequests user s)) =
                VeriAISolana.getUserRequestCount user s) /\
  (forall user day,
     0 <= mapping_get 0 (Storage._dailyRequestCount s) (user, day)
       <= VerificationLibrary.MAX_DAILY_REQUESTS) /\
  (forall attestationId, VeriAISolana.isAttestationProcessed attestationId s = false).

(** What holds of every request record, on file or not. *)
Definition request_wellformed (request : Storage.VerificationRequest) : Prop :=
  Storage.status request <> Storage.Expired /\
  (Storage.nftMinted request = true <-> Storage.status request = Storage.Verified) /\
  (Storage.status request <> Storage.Verified -> Storage.outputHash request = 0).

(** What holds of a request that has been filed. *)
Definition request_filed (request : Storage.VerificationRequest) : Prop :=
  Storage.requester request <> 0 /\
  0 < VerificationLibrary.bytes_length (Storage.prompt request)
    <= VerificationLibrary.MAX_PROMPT_LENGTH /\
  0 < VerificationLibrary.bytes_length (Storage.model request)
    <= VerificationLibrary.MAX_MODEL_LENGTH /\
  0 <= Storage.timestamp request < UINT64_MOD.

Definition requests_wellformed (w : World) : Prop :=
  forall requestId,
    request_wellformed
      (VeriAISolana.getVerificationRequest requestId (registry w)) /\
    (is_Some (Storage._requests (registry w) !! requestId) ->
     request_filed (VeriAISolana.getVerificationRequest requestId (registry w))).

(** The tokens of the certificate contract are numbered from 0 without a
    gap, each owner's list is as long as the balance, and no balance
    exceeds the supply. *)
Definition tokens_consistent (n : NFT.State) : Prop :=
  NFT._admin n <> 0 /\
  0 <= NFT.totalSupply n /\
  (forall tokenId, NFT._exists tokenId n = true <-> 0 <= tokenId < NFT.totalSupply n) /\
  (forall owner, Z.of_nat (length (NFT.getTokensByOwner owner n)) =
                 mapping_get 0 (NFT._balances n) owner) /\
  (forall owner, mapping_get 0 (NFT._balances n) owner <= NFT.totalSupply n).

(** The same transaction sent by another account. *)
Definition with_sender (sender : Z) (e : Env) : Env :=
  {| block_timestamp := block_timestamp e; block_number := block_number e;
     msg_sender := sender; msg_value := msg_value e;
     pyth_getPrice := pyth_getPrice e;
     switchboard_requestData := switchboard_requestData e;
     accepts_value := accepts_value e;
     this_balance := this_balance e |}.

(** The entry points of the relayer, the only ones that look at the
    caller. *)
Definition relayer_call (c : System.call) : bool :=
  match c with
  | System.RelayerRequestAttestation _ _ | System.RelayerFulfillAttestation _ _ _
  | System.RelayerAuthorizeOracleCaller _ | System.RelayerRevokeOracleCaller _ => true
  | _ => false
  end.

(** The request of the relayer is on file. *)
Definition attestation_requested (requestId : Z) (r : Relayer.State) : Prop :=
  Relayer.timestamp (Relayer.getAttestationRequest requestId r) <> 0.

(** The test of the modifier [onlyAuthorized]. *)
Definition authorized (e : Env) (r : Relayer.State) : bool :=
  mapping_get false (Relayer.authorizedCallers r) (msg_sender e)
  || (msg_sender e =? Relayer.owner r).

(** A request of the relayer that is on file keeps its requester, its
    data, its time and its attestation identifier; once fulfilled it
    stays fulfilled; and a processed attestation stays processed. *)
Definition attestation_kept (requestId : Z) (r r' : Relayer.State) : Prop :=
  let q := Relayer.getAttestationRequest requestId r in
  let q' := Relayer.getAttestationRequest requestId r' in
  Relayer.requester q' = Relayer.requester q /\
  Relayer.data q' = Relayer.data q /\
  Relayer.timestamp q' = Relayer.timestamp q /\
  Relayer.attestationId q' = Relayer.attestationId q /\
  (Relayer.fulfilled q = true -> Relayer.fulfilled q' = true).

(** Lower-case hexadecimal rendering of a byte string, two digits a
    byte. *)
Definition hex_digit (d : Z) : ascii :=
  nth (Z.to_nat d) (list_ascii_of_string "0123456789abcdef") zero.

Fixpoint hex_of_bytes (bytes : list ascii) : list ascii :=
  match bytes with
  | [] => []
  | b :: rest =>
      hex_digit (Z.of_N (N_of_ascii b) / 16) ::
      hex_digit (Z.of_N (N_of_ascii b) mod 16) :: hex_of_bytes rest
  end.

(** The number of requests on file with a given status. *)
Definition count_status (st : Storage.VerificationStatus)
    (m : gmap Z Storage.VerificationRequest) : Z :=
  Z.of_nat (size (filter (fun kv => Storage.status kv.2 = st) m)).

(** The statistics of the registry are exact. *)
Definition stats_exact (w : World) : Prop :=
  let s := registry w in
  Storage._totalRequests s = Z.of_nat (size (Storage._requests s)) /\
  Storage._totalVerified s = count_status Storage.Verified (Storage._requests s) /\
  Storage._totalFailed s = count_status Storage.Failed (Storage._requests s).

(* ===================================================================== *)
(** ** A concrete deployment *)
(* ===================================================================== *)

Module Scenario.
Import System.

(** An idealised, collision-free digest: the position of the bytes in an
    enumeration of all byte strings. *)
Definition ideal_builtins : EVMBuiltins :=
  {| keccak256 := fun s => Z.pos (encode s);
     abi_encode := abi_encodePacked |}.
#[local] Existing Instance ideal_builtins.

Definition admin : Z := 7.
Definition treasury : Z := 9.
Definition registryAddr : Z := 100.
Definition nftAddr : Z := 200.
Definition relayerAddr : Z := 300.

(** A transaction at time [t] carrying [value], with the given price
    feed answer. *)
Definition env_priced (t value : Z) (price : option (Z * Z)) : Env :=
  {| block_timestamp := t; block_number := 1; msg_sender := admin; msg_value := value;
     pyth_getPrice := price; switchboard_requestData := true;
     accepts_value := fun _ => true; this_balance := 0 |}.

(** The same while the price feed does not answer. *)
Definition env (t value : Z) : Env := env_priced t value None.

Definition params : DeployParams :=
  {| dp_registry_address := registryAddr; dp_nft_address := nftAddr;
     dp_relayer_address := relayerAddr; dp_relayer_deployer := admin;
     dp_nft_name := "VeriAI Certificate"; dp_nft_symbol := "VAI";
     dp_nft_baseTokenURI := "https://api.veriai.app/metadata/";
     dp_nft_admin := admin;
     dp_initialFee := VerificationLibrary.MIN_VERIFICATION_FEE;
     dp_treasury := treasury; dp_admin := admin; dp_oracleRelayer := relayerAddr |}.

Definition empty_world : World :=
  {| registry := Storage.zero_state; nft := NFT.zero_state;
     relayer := Relayer.constructor (env 0 0);
     registry_address := 0; nft_address := 0; relayer_address := 0 |}.

Definition deployed : World := ok_or empty_world (deploy (env 1000 0) params).

(** The registry knows the certificate contract, and the relayer accepts
    the registry as a caller. *)
Definition wiring : list (Env * call) :=
  [(env 1000 0, SetNFTContract nftAddr);
   (env 1000 0, RelayerAuthorizeOracleCaller registryAddr)].
Definition wired : World := run wiring deployed.

Definition the_prompt : string := "Explain PoS".
Definition the_model : string := "gpt-4".
Definition the_output : string := "Proof-of-Stake is...".
Definition the_proof : string := "proof".

(** A submission at the minimum fee, at time 2000. *)
Definition submission : Env * call :=
  (env 2000 VerificationLibrary.MIN_VERIFICATION_FEE,
   RequestVerification the_prompt the_model).
Definition submitted : World := run [submission] wired.

Definition the_requestId : Z :=
  VerificationLibrary.generateRequestId admin the_prompt the_model 2000 0.
Definition the_attestationId : Z :=
  Storage.attestationId
    (VeriAISolana.getVerificationRequest the_requestId (registry submitted)).

(** The oracle attests, at time 2100. *)
Definition attestation : Env * call :=
  (env 2100 0, RelayerFulfillAttestation the_requestId "verified" the_proof).
Definition attested : World := run [attestation] submitted.

(** The registry is told, at time 2200. *)
Definition fulfilment : Env * call :=
  (env 2200 0,
   FulfillVerification the_requestId the_output the_attestationId the_proof).
Definition verified : World := run [fulfilment] attested.

(** More than 24 hours after the submission. *)
Definition late : Z := 2000 + VerificationLibrary.REQUEST_TIMEOUT + 1.

(** The admin takes the pauser role and pauses the registry. *)
Definition pausing : list (Env * call) :=
  [(env 2300 0, GrantRole VeriAISolana.PAUSER_ROLE admin);
   (env 2300 0, Pause)].
Definition paused_world : World := run pausing attested.

(** A certificate minted directly, with its [verified] flag unset. *)
Definition unverified_metadata : NFT.VerificationMetadata :=
  {| NFT.prompt := the_prompt; NFT.model := the_model; NFT.outputHash := "hash";
     NFT.timestamp := 1000; NFT.proofHash := 1; NFT.verified := false;
     NFT.verifier := admin; NFT.requestId := 42 |}.
Definition with_unverified : World :=
  run [(env 1000 0, NftMintVerificationNFT treasury unverified_metadata)] deployed.

(** Two chain services: Solana knows no token, Ethereum knows ["12345"]. *)
Definition eth_token : Multichain.MultichainNFTData :=
  {| Multichain.tokenId := "12345";
     Multichain.owner := "0x0000000000000000000000000000000000000000";
     Multichain.prompt := "Sample prompt"; Multichain.output := "Sample output";
     Multichain.model := "gpt-4"; Multichain.verificationId := "sample-verification-id";
     Multichain.metadataURI := Some "https://api.veriai.app/metadata/12345";
     Multichain.timestamp := "2025-01-01T00:00:00.000Z";
     Multichain.chain := "ethereum" |}.
Definition solana_without : Multichain.ChainService :=
  {| Multichain.getNFT_of := fun _ => Multichain.Resolved None |}.
Definition ethereum_with : Multichain.ChainService :=
  {| Multichain.getNFT_of := fun t =>
       if String.eqb t "12345" then Multichain.Resolved (Some eth_token)
       else Multichain.Resolved None |}.
Definition router : Multichain.MultichainContractService :=
  Multichain.new_service solana_without ethereum_with.

(** The same transaction environment with a treasury that refuses the
    fee. *)
Definition env_refusing (t value : Z) : Env :=
  {| block_timestamp := t; block_number := 1; msg_sender := admin; msg_value := value;
     pyth_getPrice := None; switchboard_requestData := true;
     accepts_value := fun _ => false; this_balance := 0 |}.

(** Calls that aim at the certificates: a new URI for token 0, a second
    initialization, and a certificate minted directly. *)
Definition tampering : list (Env * call) :=
  [(env 2300 0, NftUpdateTokenMetadata 0 "ipfs://other");
   (env 2300 0, NftInitialize treasury);
   (env 2300 0, NftMintVerificationNFT treasury unverified_metadata)].

(** An attestation request that the owner of the relayer files itself. *)
Definition direct_request : Env * call :=
  (env 1000 0, RelayerRequestAttestation 5 "data").

(** The account 0xabcd00..00. *)
Definition an_address : Z := 171 * 2 ^ 152 + 205 * 2 ^ 144.

(** A chain service that lists the given certificates. *)
Definition listing_of (certificates : list Multichain.MultichainNFTData)
  : Multichain.ChainListing :=
  {| Multichain.getUserNFTs_of := fun _ p _ =>
       Multichain.Resolved
         {| Multichain.nfts := certificates;
            Multichain.total := Z.of_nat (length certificates);
            Multichain.page := p;
            Multichain.totalPages := Multichain.Int 1;
            Multichain.chainBreakdown := None |} |}.

Definition sol_token : Multichain.MultichainNFTData :=
  {| Multichain.tokenId := "sol_1";
     Multichain.owner := "9xQeWvG816bUx9EPjHmaT23yvVM2ZWbrrpZb9PusVFin";
     Multichain.prompt := "Sample prompt"; Multichain.output := "Sample output";
     Multichain.model := "gpt-4"; Multichain.verificationId := "sample-verification-id";
     Multichain.metadataURI := None;
     Multichain.timestamp := "2025-01-01T00:00:00.000Z";
     Multichain.chain := "solana" |}.

(** Calls that follow the submission of the scenario within its window:
    a role grant, and a submission charged to the treasury. *)
Definition within_window : list (Env * call) :=
  [(env 2010 0, GrantRole VeriAISolana.PAUSER_ROLE admin);
   (env 2030 VerificationLibrary.MIN_VERIFICATION_FEE,
    RequestVerificationFor treasury the_prompt the_model)].

(** The wiring without the authorization of the registry. *)
Definition half_wiring : list (Env * call) :=
  [(env 1000 0, SetNFTContract nftAddr)].

(** An output other than the issued one. *)
Definition altered_output : string := "Proof-of-Work is...".

End Scenario.

(* ===================================================================== *)
(** ** Reasoning about transactions *)
(* ===================================================================== *)

Ltac tx_unfold :=
  cbv beta iota zeta delta
    [mbind mret tx_mbind tx_mret result_mbind result_mret
     tx_bind tx_ret tx_fail tx_get tx_gets tx_modify tx_lift
     require revert_unless res_bind res_require
     VeriAISolana.reg_get VeriAISolana.reg_modify VeriAISolana.onlyRole
     VeriAISolana.whenNotPaused VeriAISolana.nonReentrant
     VeriAISolana.call_relayer VeriAISolana.call_nft
     System.on_nft System.on_relayer System.discard] in *.

Ltac st_simpl :=
  cbn [registry nft relayer registry_address nft_address relayer_address
       set_registry set_nft set_relayer
       Storage._roles Storage._admin Storage._paused Storage._status
       Storage._requestCounter Storage._verificationFee Storage._treasuryAddress
       Storage._nftContract Storage.DEPLOYMENT_TIME Storage._requests
       Storage._userRequests Storage._requestCount Storage._lastRequestTime
       Storage._dailyRequestCount Storage._oracles Storage._processedAttestations
       Storage._totalRequests Storage._totalVerified Storage._totalFailed
       Storage._oracleRelayer
       Storage.set_roles Storage.set_admin Storage.set_paused Storage.set_status
       Storage.set_requestCounter Storage.set_verificationFee
       Storage.set_treasuryAddress Storage.set_nftContract Storage.set_DEPLOYMENT_TIME
       Storage.set_requests Storage.set_userRequests Storage.set_requestCount
       Storage.set_lastRequestTime Storage.set_dailyRequestCount Storage.set_oracles
       Storage.set_processedAttestations Storage.set_totalRequests
       Storage.set_totalVerified Storage.set_totalFailed Storage.set_oracleRelayer
       Storage.requester Storage.prompt Storage.model Storage.timestamp Storage.status
       Storage.outputHash Storage.attestationId Storage.feePaid Storage.nftMinted
       Storage.with_status Storage.with_outputHash Storage.with_attestationId
       Storage.with_nftMinted
       NFT._roles NFT._admin NFT._tokenIdCounter NFT._name NFT._symbol
       NFT._baseTokenURI NFT._owners NFT._balances NFT._tokenURIs NFT._tokenMetadata
       NFT._tokensByOwner NFT._tokensByModel
       NFT.set_roles NFT.set_admin NFT.set_tokenIdCounter NFT.set_name NFT.set_symbol
       NFT.set_baseTokenURI NFT.set_owners NFT.set_balances NFT.set_tokenURIs
       NFT.set_tokenMetadata NFT.set_tokensByOwner NFT.set_tokensByModel
       NFT.prompt NFT.model NFT.outputHash NFT.timestamp NFT.proofHash NFT.verified
       NFT.verifier NFT.requestId
       Relayer.owner Relayer.authorizedCallers Relayer.requests
       Relayer.processedAttestations
       Relayer.set_owner Relayer.set_authorizedCallers Relayer.set_requests
       Relayer.set_processedAttestations
       Relayer.requester Relayer.data Relayer.timestamp Relayer.fulfilled
       Relayer.attestationId
       block_timestamp block_number msg_sender msg_value pyth_getPrice
       switchboard_requestData accepts_value this_balance
       fst snd] in *.

(** Split on the first test of a transaction that has no test inside. *)
Ltac tx_case_in H :=
  match type of H with
  | context [if ?b then _ else _] =>
      lazymatch b with
      | context [if _ then _ else _] => fail
      | context [match _ with _ => _ end] => fail
      | _ => destruct b eqn:?
      end
  | context [match ?x with Ok _ => _ | Err _ => _ end] =>
      lazymatch x with
      | context [if _ then _ else _] => fail
      | context [match _ with _ => _ end] => fail
      | _ => destruct x as [[? ?]|?] eqn:?
      end
  | context [match ?x with Ok _ => _ | Err _ => _ end] =>
      lazymatch x with
      | context [if _ then _ else _] => fail
      | context [match _ with _ => _ end] => fail
      | _ => destruct x as [?|?] eqn:?
      end
  end.

Lemma inner_env_set_registry e s w :
  VeriAISolana.inner_env e (set_registry s w) = VeriAISolana.inner_env e w.
Proof. reflexivity. Qed.

Lemma inner_env_set_nft e n w :
  VeriAISolana.inner_env e (set_nft n w) = VeriAISolana.inner_env e w.
Proof. reflexivity. Qed.

Lemma inner_env_set_relayer e r w :
  VeriAISolana.inner_env e (set_relayer r w) = VeriAISolana.inner_env e w.
Proof. reflexivity. Qed.

Ltac env_simpl :=
  rewrite ?inner_env_set_registry, ?inner_env_set_nft, ?inner_env_set_relayer in *.

Ltac tx_inv H :=
  repeat (tx_case_in H; cbv beta iota in H;
          unfold VeriAISolana.msgSender in *;
          st_simpl; env_simpl; try discriminate H).

Ltac tx_case :=
  match goal with
  | |- context [if ?b then _ else _] =>
      lazymatch b with
      | context [if _ then _ else _] => fail
      | context [match _ with _ => _ end] => fail
      | _ => destruct b eqn:?
      end
  | |- context [match ?x with Ok _ => _ | Err _ => _ end] =>
      lazymatch x with
      | context [if _ then _ else _] => fail
      | context [match _ with _ => _ end] => fail
      | _ => destruct x as [[? ?]|?] eqn:?
      end
  | |- context [match ?x with Ok _ => _ | Err _ => _ end] =>
      lazymatch x with
      | context [if _ then _ else _] => fail
      | context [match _ with _ => _ end] => fail
      | _ => destruct x as [?|?] eqn:?
      end
  end.

(** Two runs of the same call have the same result. *)
Ltac same_result :=
  repeat match goal with
  | H1 : ?x = Ok _, H2 : ?x = Ok _ |- _ =>
      rewrite H1 in H2; injection H2 as ?; subst
  | H1 : ?x = Ok _, H2 : ?x = Err _ |- _ =>
      rewrite H1 in H2; discriminate H2
  | H1 : ?x = Err _, H2 : ?x = Err _ |- _ =>
      rewrite H1 in H2; injection H2 as ?; subst
  end.

Section Arithmetic.

Lemma UINT256_MOD_pos : 0 < UINT256_MOD.
Proof. reflexivity. Qed.

Lemma uint256_add_ok a b c : uint256_add a b = Ok c <-> c = a + b /\ a + b < UINT256_MOD.
Proof.
  unfold uint256_add. destruct (a + b <? UINT256_MOD) eqn:E.
  - apply Z.ltb_lt in E. split; [intros [= <-]; auto | intros [-> _]; reflexivity].
  - apply Z.ltb_ge in E. split; [discriminate | intros [_ ?]; lia].
Qed.

Lemma uint256_add_lt a b : a + b < UINT256_MOD -> uint256_add a b = Ok (a + b).
Proof. intros; apply uint256_add_ok; auto. Qed.

Lemma uint256_sub_ok a b c : uint256_sub a b = Ok c <-> c = a - b /\ b <= a.
Proof.
  unfold uint256_sub. destruct (b <=? a) eqn:E.
  - apply Z.leb_le in E. split; [intros [= <-]; auto | intros [-> _]; reflexivity].
  - apply Z.leb_gt in E. split; [discriminate | intros [_ ?]; lia].
Qed.

End Arithmetic.

Section MarkFailed.
Context `{EVMBuiltins}.
Import Storage VeriAISolana.

(** Closed form of [markVerificationFailed]. *)
Lemma markVerificationFailed_eq e requestId reason w :
  let s := registry w in
  let request := mapping_get zero_request (_requests s) requestId in
  markVerificationFailed e requestId reason w =
    if hasRole ORACLE_ROLE (msgSender s) s then
      if negb (requester request =? 0) then
        if bool_decide (status request = Pending) then
          if _totalFailed s + 1 <? UINT256_MOD
          then Ok (tt, set_registry
                         (set_totalFailed (_totalFailed s + 1)
                            (set_requests (<[requestId := with_status Failed request]>
                                             (_requests s)) s)) w)
          else Err (Panic PANIC_OVERFLOW)
        else Err (Revert "Request already processed")
      else Err (Revert "Request not found")
    else Err (Revert "Access denied").
Proof.
  intros s request. subst request s.
  unfold markVerificationFailed, uint256_add.
  tx_unfold. st_simpl.
  repeat (tx_case; st_simpl; try discriminate; try reflexivity).
Qed.

End MarkFailed.

Section Bytes.

Lemma append_cons c (s t : string) : String c s +:+ t = String c (s +:+ t).
Proof. reflexivity. Qed.

Lemma append_empty_l (t : string) : "" +:+ t = t.
Proof. reflexivity. Qed.

Lemma append_nil_r s : s +:+ "" = s.
Proof. induction s as [|c s IH]; rewrite ?append_cons, ?append_empty_l; congruence. Qed.

Lemma length_append (a b : string) :
  String.length (a +:+ b) = (String.length a + String.length b)%nat.
Proof.
  induction a as [|c a IH]; rewrite ?append_cons, ?append_empty_l;
    cbn [String.length Nat.add]; congruence.
Qed.

Lemma append_assoc (a b c : string) : a +:+ (b +:+ c) = (a +:+ b) +:+ c.
Proof. induction a as [|x a IH]; rewrite ?append_cons, ?append_empty_l; congruence. Qed.

Lemma length_be_bytes n z : String.length (be_bytes n z) = n.
Proof.
  revert z. induction n as [|n IH]; intros z; cbn [be_bytes]; [reflexivity|].
  rewrite length_append, IH. cbn [String.length]. lia.
Qed.

(** Equal concatenations with right parts of equal length have equal parts. *)
Lemma append_inj_r (a b c d : string) :
  String.length b = String.length d -> a +:+ b = c +:+ d -> a = c /\ b = d.
Proof.
  revert c. induction a as [|x a IH]; intros c Hlen Heq.
  - destruct c as [|y c]; rewrite ?append_cons, ?append_empty_l in Heq; [auto|].
    apply (f_equal String.length) in Heq. cbn [String.length] in Heq.
    rewrite length_append in Heq. lia.
  - destruct c as [|y c]; rewrite ?append_cons, ?append_empty_l in Heq.
    + apply (f_equal String.length) in Heq. cbn [String.length] in Heq.
      rewrite length_append in Heq. lia.
    + injection Heq as -> Heq. destruct (IH c Hlen Heq) as [-> ->]. auto.
Qed.

Lemma be_bytes_inj n a b :
  0 <= a < 256 ^ Z.of_nat n -> 0 <= b < 256 ^ Z.of_nat n ->
  be_bytes n a = be_bytes n b -> a = b.
Proof.
  revert a b. induction n as [|n IH]; intros a b Ha Hb Heq.
  - change (256 ^ Z.of_nat 0) with 1 in *. lia.
  - rewrite Nat2Z.inj_succ, Z.pow_succ_r in Ha, Hb by lia.
    cbn [be_bytes] in Heq. apply append_inj_r in Heq as [Hhi Hlo]; [|reflexivity].
    injection Hlo as Hlo.
    apply (f_equal N_of_ascii) in Hlo.
    rewrite !N_ascii_embedding in Hlo.
    + apply IH in Hhi.
      * apply Z2N.inj in Hlo; try (apply Z.mod_pos_bound; lia).
        rewrite (Z.div_mod a 256), (Z.div_mod b 256) by lia. congruence.
      * split; [apply Z.div_pos; lia | apply Z.div_lt_upper_bound; lia].
      * split; [apply Z.div_pos; lia | apply Z.div_lt_upper_bound; lia].
    + pose proof (Z.mod_pos_bound b 256). lia.
    + pose proof (Z.mod_pos_bound a 256). lia.
Qed.

End Bytes.

Section Mappings.
Context `{Countable K} {V : Type}.

Lemma mapping_get_insert_eq (zero : V) (m : gmap K V) k v :
  mapping_get zero (<[k := v]> m) k = v.
Proof. unfold mapping_get. by rewrite lookup_insert_eq. Qed.

Lemma mapping_get_insert_ne (zero : V) (m : gmap K V) k k' v :
  k <> k' -> mapping_get zero (<[k := v]> m) k' = mapping_get zero m k'.
Proof. intros. unfold mapping_get. by rewrite lookup_insert_ne. Qed.

End Mappings.

Section Fulfill.
Context `{EVMBuiltins}.
Import Storage VeriAISolana.

(** Closed form of [fulfillVerification]: the tests in the order in which
    the contract makes them, and the state it leaves. *)
Lemma fulfillVerification_eq e requestId output attestationId proof w :
  let s := registry w in
  let request := mapping_get zero_request (_requests s) requestId in
  fulfillVerification e requestId output attestationId proof w =
    if hasRole ORACLE_ROLE (msgSender s) s then
    if negb (requester request =? 0) then
    if bool_decide (status request = Pending) then
    if _oracleRelayer s =? relayer_address w then
    if Relayer.verifyAttestation attestationId (relayer w) then
    if Storage.attestationId request =? attestationId then
      match VerificationLibrary.isRequestExpired (timestamp request) (block_timestamp e) with
      | Ok expired =>
        if negb expired then
          match uint256_add (_totalVerified s) 1 with
          | Ok verifiedCount =>
            if _nftContract s =? nft_address w then
              match NFT.mintVerificationNFT (requester request)
                      (certificate_of s requestId output proof) (nft w) with
              | Ok (tokenId, n) =>
                  Ok (tt, set_nft n
                            (set_registry
                               (set_totalVerified verifiedCount
                                  (set_requests
                                     (<[requestId := fulfilled_request request output]>
                                        (_requests s)) s)) w))
              | Err err => Err err
              end
            else Err CallFailed
          | Err err => Err err
          end
        else Err (Revert "Request expired")
      | Err err => Err err
      end
    else Err (Revert "Attestation mismatch")
    else Err (Revert "Invalid attestation")
    else Err CallFailed
    else Err (Revert "Request already fulfilled")
    else Err (Revert "Request not found")
    else Err (Revert "Access denied").
Proof.
  intros s request. subst request s.
  unfold fulfillVerification, _mintVerificationNFT, certificate_of, fulfilled_request.
  tx_unfold. unfold hasRole, msgSender. st_simpl.
  repeat (tx_case; st_simpl; try discriminate; try reflexivity);
    rewrite ?mapping_get_insert_eq, ?insert_insert_eq in *; st_simpl;
    same_result; try reflexivity.
Qed.

End Fulfill.

Section Pause.
Context `{EVMBuiltins}.
Import Storage VeriAISolana.

Lemma requestVerification_paused e prompt model w :
  _paused (registry w) = true ->
  requestVerification e prompt model w = Err (Revert "Contract paused").
Proof.
  intros Hp. unfold requestVerification. tx_unfold. rewrite Hp. reflexivity.
Qed.

Lemma requestVerificationFor_paused e requester prompt model w :
  _paused (registry w) = true ->
  requestVerificationFor e requester prompt model w = Err (Revert "Contract paused").
Proof.
  intros Hp. unfold requestVerificationFor. tx_unfold. rewrite Hp. reflexivity.
Qed.

Lemma markVerificationFailed_pause_independent b e requestId reason w :
  markVerificationFailed e requestId reason (with_paused b w) =
  map_world (with_paused b) (markVerificationFailed e requestId reason w).
Proof.
  rewrite !markVerificationFailed_eq. unfold with_paused, hasRole, msgSender, map_world.
  st_simpl.
  repeat (tx_case; st_simpl; try discriminate; try reflexivity).
Qed.

Lemma fulfillVerification_pause_independent b e requestId output attestationId proof w :
  fulfillVerification e requestId output attestationId proof (with_paused b w) =
  map_world (with_paused b) (fulfillVerification e requestId output attestationId proof w).
Proof.
  unfold fulfillVerification, _mintVerificationNFT, with_paused, map_world.
  tx_unfold. unfold hasRole, msgSender. st_simpl.
  repeat (tx_case; st_simpl; try discriminate; try reflexivity).
Qed.

End Pause.

Section Request.
Context `{EVMBuiltins}.
Import Storage VeriAISolana.

Lemma set_relayer_id w : set_relayer (relayer w) w = w.
Proof. by destruct w. Qed.

Lemma to_uint64_bound x : 0 <= to_uint64 x < UINT64_MOD.
Proof. unfold to_uint64. apply Z.mod_pos_bound. reflexivity. Qed.

(** The fee computation is a view: it leaves the state as it is. *)
Lemma _calculateDynamicFee_eq e w :
  _calculateDynamicFee e w =
  match requiredFee e w with
  | Ok fee => Ok (fee, w)
  | Err err => Err err
  end.
Proof.
  unfold _calculateDynamicFee, requiredFee, Relayer.calculateSOLFee, Relayer.getSOLUSDPrice.
  tx_unfold. unfold inner_env. cbn [pyth_getPrice]. st_simpl.
  destruct (_oracleRelayer (registry w) =? relayer_address w) eqn:Hrel; cbn [negb]; [|reflexivity].
  destruct (pyth_getPrice e) as [[solPrice timestamp]|]; [|reflexivity].
  destruct (uint256_sub (block_timestamp e) timestamp) as [age|]; [|reflexivity].
  destruct (age >? 3600); [reflexivity|].
  change (uint256_mul 100 (10 ^ 6)) with (Ok (100 * 10 ^ 6) : result Z). cbv beta iota.
  rewrite Hrel. st_simpl.
  destruct (solPrice <=? 0); [reflexivity|].
  change (uint256_mul (100 * 10 ^ 6) (10 ^ 18)) with (Ok (100 * 10 ^ 6 * 10 ^ 18) : result Z).
  cbv beta iota.
  assert (Hmul : uint256_mul (to_uint64 solPrice) (10 ^ 10) = Ok (to_uint64 solPrice * 10 ^ 10)).
  { unfold uint256_mul. pose proof (to_uint64_bound solPrice) as Hb.
    unfold UINT64_MOD, UINT256_MOD in *.
    destruct (to_uint64 solPrice * 10 ^ 10 <? 2 ^ 256) eqn:E; [reflexivity|].
    apply Z.ltb_ge in E. lia. }
  rewrite Hmul. cbv beta iota.
  destruct (uint256_div _ _); cbv beta iota; rewrite ?set_relayer_id; reflexivity.
Qed.

Lemma requiredFee_set_registry e w s :
  _oracleRelayer s = _oracleRelayer (registry w) ->
  _verificationFee s = _verificationFee (registry w) ->
  requiredFee e (set_registry s w) = requiredFee e w.
Proof. unfold requiredFee. st_simpl. intros -> ->. reflexivity. Qed.

Ltac tx_case_lhs :=
  match goal with
  | |- ?lhs = _ =>
    match lhs with
    | context [if ?b then _ else _] =>
        lazymatch b with
        | context [if _ then _ else _] => fail
        | context [match _ with _ => _ end] => fail
        | _ => destruct b eqn:?
        end
    | context [match ?x with Ok _ => _ | Err _ => _ end] =>
        lazymatch x with
        | context [if _ then _ else _] => fail
        | context [match _ with _ => _ end] => fail
        | _ => destruct x as [[? ?]|?] eqn:?
        end
    | context [match ?x with Ok _ => _ | Err _ => _ end] =>
        lazymatch x with
        | context [if _ then _ else _] => fail
        | context [match _ with _ => _ end] => fail
        | _ => destruct x as [?|?] eqn:?
        end
    end
  end.

Lemma requestVerification_eq e prompt model w :
  let s := registry w in
  requestVerification e prompt model w =
    if negb (_paused s) then
      if negb (_status s =? _ENTERED) then admission e (msgSender s) prompt model w
      else Err (Revert "ReentrancyGuard: reentrant call")
    else Err (Revert "Contract paused").
Proof.
  intros s; subst s.
  unfold requestVerification, admission, accepted_registry. tx_unfold.
  destruct (negb (_paused (registry w))); cbv beta iota; [|reflexivity].
  destruct (negb (_status (registry w) =? _ENTERED)); cbv beta iota; [|reflexivity].
  destruct (VerificationLibrary.validateVerificationInput prompt model);
    cbv beta iota; [|reflexivity].
  st_simpl. rewrite _calculateDynamicFee_eq, requiredFee_set_registry by reflexivity.
  unfold msgSender. st_simpl.
  repeat (tx_case_lhs; cbv beta iota; st_simpl; env_simpl;
          rewrite ?mapping_get_insert_eq, ?insert_insert_eq; try reflexivity).
Qed.

Lemma requestVerificationFor_eq e requester prompt model w :
  let s := registry w in
  requestVerificationFor e requester prompt model w =
    if negb (_paused s) then
      if negb (_status s =? _ENTERED) then
        if hasRole ORACLE_ROLE (msgSender s) s then
          if negb (requester =? 0) then admission e requester prompt model w
          else Err (Revert "Invalid requester")
        else Err (Revert "Access denied")
      else Err (Revert "ReentrancyGuard: reentrant call")
    else Err (Revert "Contract paused").
Proof.
  intros s; subst s.
  unfold requestVerificationFor, admission, accepted_registry,
    VerificationLibrary.encodeVerificationData.
  tx_unfold.
  destruct (negb (_paused (registry w))); cbv beta iota; [|reflexivity].
  destruct (negb (_status (registry w) =? _ENTERED)); cbv beta iota; [|reflexivity].
  unfold hasRole, msgSender. st_simpl.
  destruct (mapping_get false (_roles (registry w)) (ORACLE_ROLE, _admin (registry w)));
    cbv beta iota; [|reflexivity].
  destruct (negb (requester =? 0)); cbv beta iota; [|reflexivity].
  destruct (VerificationLibrary.validateVerificationInput prompt model);
    cbv beta iota; [|reflexivity].
  st_simpl. rewrite _calculateDynamicFee_eq, requiredFee_set_registry by reflexivity.
  st_simpl.
  repeat (tx_case_lhs; cbv beta iota; st_simpl; env_simpl;
          rewrite ?mapping_get_insert_eq, ?insert_insert_eq; try reflexivity).
Qed.

End Request.

Section Admission.
Context `{EVMBuiltins}.
Import Storage VeriAISolana.

(** What an accepted submission has checked and done. *)
Lemma admission_ok e requester prompt model w requestId w' :
  admission e requester prompt model w = Ok (requestId, w') ->
  let s := registry w in
  exists fee day attestationId r,
    VerificationLibrary.validateVerificationInput prompt model = Ok tt /\
    requiredFee e w = Ok fee /\ fee <= msg_value e /\
    VerificationLibrary.checkRateLimit
      (mapping_get 0 (_lastRequestTime s) requester) (block_timestamp e) = Ok true /\
    VerificationLibrary.timestampToDay (block_timestamp e) (DEPLOYMENT_TIME s) = Ok day /\
    mapping_get 0 (_dailyRequestCount s) (requester, day) < VerificationLibrary.MAX_DAILY_REQUESTS /\
    _requestCounter s + 1 < UINT256_MOD /\
    requestId = VerificationLibrary.generateRequestId
                  requester prompt model (block_timestamp e) (_requestCounter s) /\
    w' = set_relayer r
           (set_registry
              (accepted_registry s e requester prompt model requestId attestationId day
                 (mapping_get 0 (_requestCount s) requester + 1)
                 (mapping_get 0 (_dailyRequestCount s) (requester, day) + 1)
                 (_requestCounter s + 1) (_totalRequests s + 1)) w).
Proof.
  intros Hadm. cbv zeta. unfold admission in Hadm.
  tx_inv Hadm.
  repeat match goal with
         | Hadd : uint256_add _ _ = Ok _ |- _ => apply uint256_add_ok in Hadd as [-> ?]
         end.
  injection Hadm as <- <-.
  match goal with
  | Hv : VerificationLibrary.validateVerificationInput _ _ = Ok ?u |- _ => destruct u
  end.
  match goal with
  | Hd : VerificationLibrary.checkDailyLimit _ = true |- _ =>
      unfold VerificationLibrary.checkDailyLimit in Hd; apply Z.ltb_lt in Hd
  end.
  match goal with
  | Hf : (_ >=? _) = true |- _ => rewrite Z.geb_leb in Hf; apply Z.leb_le in Hf
  end.
  eexists _, _, _, _. repeat split; eauto.
Qed.

End Admission.

Section Certificates.
Context `{EVMBuiltins}.

(** What a successful mint does to the certificate contract: one fresh
    token, with the metadata and the owner given. *)
Lemma mintVerificationNFT_ok recipient metadata n tokenId n' :
  NFT.mintVerificationNFT recipient metadata n = Ok (tokenId, n') ->
  tokenId = NFT._tokenIdCounter n /\
  NFT._exists tokenId n = false /\
  NFT._tokenIdCounter n' = tokenId + 1 /\
  NFT._tokenMetadata n' = <[tokenId := metadata]> (NFT._tokenMetadata n) /\
  NFT._owners n' = <[tokenId := recipient]> (NFT._owners n) /\
  NFT._tokensByOwner n' =
    <[recipient := (NFT.getTokensByOwner recipient n ++ [tokenId])%list]> (NFT._tokensByOwner n).
Proof.
  unfold NFT.mintVerificationNFT, NFT.onlyRole, NFT._mint, NFT._setTokenURI,
    NFT.getTokensByOwner.
  tx_unfold. intros Hmint. tx_inv Hmint.
  injection Hmint as <- <-. st_simpl.
  match goal with
  | Hadd : uint256_add (NFT._tokenIdCounter n) 1 = Ok _ |- _ =>
      apply uint256_add_ok in Hadd as [-> _]
  end.
  match goal with
  | Hex : negb (NFT._exists (NFT._tokenIdCounter n) _) = true |- _ =>
      apply negb_true_iff in Hex; unfold NFT._exists in Hex |- *; st_simpl
  end.
  repeat split; auto.
Qed.

End Certificates.

Section RequestIds.
Context `{EVMBuiltins}.
Hypothesis keccak256_inj : forall a b : string, keccak256 a = keccak256 b -> a = b.

(** Request identifiers made with different counter values differ. *)
Lemma generateRequestId_nonce r p m t n r' p' m' t' n' :
  0 <= n < UINT256_MOD -> 0 <= n' < UINT256_MOD ->
  VerificationLibrary.generateRequestId r p m t n =
  VerificationLibrary.generateRequestId r' p' m' t' n' -> n = n'.
Proof.
  intros Hn Hn' Heq. unfold VerificationLibrary.generateRequestId in Heq.
  apply keccak256_inj in Heq. unfold abi_encodePacked in Heq.
  cbn [fold_right encodePacked1] in Heq.
  rewrite !append_nil_r, !append_assoc in Heq.
  apply append_inj_r in Heq as [_ Heq]; [|by rewrite !length_be_bytes].
  apply be_bytes_inj in Heq; auto.
Qed.

End RequestIds.

Section Invariants.
Context `{EVMBuiltins}.
Import Storage VeriAISolana System.

Lemma stored_request_is_some (s : State) requestId :
  requester (mapping_get zero_request (_requests s) requestId) <> 0 ->
  is_Some (_requests s !! requestId).
Proof.
  unfold mapping_get. destruct (_requests s !! requestId); [eauto|].
  cbn. intros []. reflexivity.
Qed.

Lemma admission_requests_change e r p m w requestId w' :
  admission e r p m w = Ok (requestId, w') -> requests_change w w'.
Proof.
  intros Hadm. apply admission_ok in Hadm as (fee & day & att & rel & Hok).
  destruct Hok as (_ & _ & _ & _ & _ & _ & Hcounter & -> & ->).
  eapply requests_filed; [exact Hcounter | reflexivity | reflexivity].
Qed.

Lemma exec_requests_change e c w w' :
  exec e c w = Ok (tt, w') -> requests_change w w'.
Proof.
  intros Hexec.
  destruct c as [p m|r p m|rid out att prf|rid reason|?|?|?|?|?|?|? ?|? ?| | |?|
                 |? ?|? ?|?|? ?|?|? ?|? ? ?|?|?];
    cbn [exec] in Hexec.
  5-25: unfold setOracleRelayer, setVerificationFee, setTreasuryAddress, setNFTContract,
         addOracle, removeOracle, grantRole, revokeRole, _grantRole, _revokeRole,
         pause, unpause, initialize, emergencyWithdraw, _transferFees in Hexec;
       tx_unfold; tx_inv Hexec; inversion Hexec; subst;
       apply requests_same; reflexivity.
  - (* requestVerification *)
    unfold discard in Hexec. tx_unfold.
    destruct (requestVerification e p m w) as [[rid w0]|] eqn:Hreq; [|discriminate].
    injection Hexec as <-. rewrite requestVerification_eq in Hreq.
    destruct (negb _); [|discriminate]. destruct (negb _); [|discriminate].
    eapply admission_requests_change; eauto.
  - (* requestVerificationFor *)
    unfold discard in Hexec. tx_unfold.
    destruct (requestVerificationFor e r p m w) as [[rid w0]|] eqn:Hreq; [|discriminate].
    injection Hexec as <-. rewrite requestVerificationFor_eq in Hreq.
    destruct (negb _); [|discriminate]. destruct (negb _); [|discriminate].
    destruct (hasRole _ _ _); [|discriminate].
    destruct (negb (r =? 0)); [|discriminate].
    eapply admission_requests_change; eauto.
  - (* fulfillVerification *)
    rewrite fulfillVerification_eq in Hexec. tx_inv Hexec. injection Hexec as <-.
    match goal with Hr : negb (_ =? 0) = true |- _ => apply negb_true_iff, Z.eqb_neq in Hr end.
    match goal with Hs : bool_decide _ = true |- _ => apply bool_decide_eq_true in Hs end.
    eapply requests_settled; eauto; unfold fulfilled_request; st_simpl; auto; discriminate.
  - (* markVerificationFailed *)
    rewrite markVerificationFailed_eq in Hexec. tx_inv Hexec. injection Hexec as <-.
    match goal with Hr : negb (_ =? 0) = true |- _ => apply negb_true_iff, Z.eqb_neq in Hr end.
    match goal with Hs : bool_decide _ = true |- _ => apply bool_decide_eq_true in Hs end.
    eapply requests_settled; eauto; st_simpl; auto; discriminate.
Qed.

Lemma step_requests_change e c w :
  step e c w = w \/ requests_change w (step e c w).
Proof.
  unfold step, commit. destruct (exec e c w) as [[[] w']|] eqn:Hexec; [|by left].
  right. eapply exec_requests_change; eauto.
Qed.

Lemma ids_issued_change w w' : requests_change w w' -> ids_issued w -> ids_issued w'.
Proof.
  intros Hchange [Hpos Hids]. unfold ids_issued.
  destruct Hchange as [Hreq Hcnt | r p m t request Hlt Hreq Hcnt
                      | requestId request Hstored _ Hreq _ _ Hcnt];
    rewrite Hreq, Hcnt.
  - auto.
  - split; [lia|]. intros requestId Hsome.
    destruct (decide (VerificationLibrary.generateRequestId r p m t
                        (_requestCounter (registry w)) = requestId)) as [<-|Hne].
    + exists r, p, m, t, (_requestCounter (registry w)). split; [reflexivity | lia].
    + rewrite lookup_insert_ne in Hsome by exact Hne.
      destruct (Hids _ Hsome) as (r0 & p0 & m0 & t0 & n & -> & Hn).
      exists r0, p0, m0, t0, n. split; [reflexivity | lia].
  - split; [lia|]. intros requestId' Hsome.
    destruct (decide (requestId = requestId')) as [<-|Hne].
    + apply Hids, stored_request_is_some, Hstored.
    + rewrite lookup_insert_ne in Hsome by exact Hne. auto.
Qed.

Section CollisionFree.
Hypothesis keccak256_inj : forall a b : string, keccak256 a = keccak256 b -> a = b.

(** A settled request stays settled: a new request never takes its
    identifier, and only [Pending] requests are fulfilled or failed. *)
Lemma settled_change requestId w w' :
  requests_change w w' -> ids_issued w -> settled requestId w -> settled requestId w'.
Proof.
  intros Hchange [Hpos Hids] [Hstored Hstatus]. unfold settled.
  destruct Hchange as [Hreq Hcnt | r p m t request Hlt Hreq Hcnt
                      | requestId' request _ Hpending Hreq _ _ Hcnt];
    rewrite Hreq.
  - auto.
  - rewrite mapping_get_insert_ne; [auto|]. intros <-.
    destruct (Hids _ (stored_request_is_some _ _ Hstored))
      as (r0 & p0 & m0 & t0 & n & Heq & Hn).
    apply (generateRequestId_nonce keccak256_inj) in Heq; lia.
  - rewrite mapping_get_insert_ne; [auto|]. intros <-. contradiction.
Qed.

Lemma settled_run txs requestId w :
  ids_issued w -> settled requestId w ->
  ids_issued (run txs w) /\ settled requestId (run txs w).
Proof.
  revert w. induction txs as [|[e c] txs IH]; intros w Hids Hsettled; cbn [run]; [auto|].
  destruct (step_requests_change e c w) as [-> | Hchange]; [auto|].
  apply IH; [eapply ids_issued_change | eapply settled_change]; eauto.
Qed.

End CollisionFree.

Lemma deploy_requests e p w :
  deploy e p = Ok w ->
  _requests (registry w) = ∅ /\ _requestCounter (registry w) = 0.
Proof.
  unfold deploy, constructor, initialize, _grantRole. tx_unfold. intros Hdeploy.
  tx_inv Hdeploy; injection Hdeploy as <-; st_simpl; auto.
Qed.

Lemma reachable_ids_issued w : reachable w -> ids_issued w.
Proof.
  induction 1 as [e p w Hdeploy | e c w _ IH].
  - apply deploy_requests in Hdeploy as [Hreq Hcnt]. unfold ids_issued.
    rewrite Hreq, Hcnt. split; [lia|]. intros requestId [x Hx].
    rewrite lookup_empty in Hx. discriminate.
  - destruct (step_requests_change e c w) as [-> | Hchange]; [auto|].
    eapply ids_issued_change; eauto.
Qed.

End Invariants.

(* ===================================================================== *)
(** ** Properties of the registry *)
(* ===================================================================== *)

Section MarkFailedClaim.
Context `{EVMBuiltins}.
Import Storage VeriAISolana.

(** C10. [markVerificationFailed] makes no expiry test. When the caller
    holds the oracle role (and the failure counter can still be
    incremented), the call succeeds exactly for the stored requests that
    are [Pending], and then leaves them [Failed]; it fails with "Request
    not found" for an unknown identifier and with "Request already
    processed" for a request that has left [Pending]. Its result is the
    same at every block time, so also after the 24 hours of the request
    have passed. *)
Theorem markVerificationFailed_ignores_expiry e requestId reason w :
  let s := registry w in
  let request := getVerificationRequest requestId s in
  hasRole ORACLE_ROLE (msgSender s) s = true ->
  _totalFailed s + 1 < UINT256_MOD ->
  (is_ok (markVerificationFailed e requestId reason w) = true <->
     requester request <> 0 /\ status request = Pending) /\
  (requester request <> 0 -> status request = Pending ->
     exists w', markVerificationFailed e requestId reason w = Ok (tt, w') /\
                status (getVerificationRequest requestId (registry w')) = Failed) /\
  (requester request = 0 ->
     markVerificationFailed e requestId reason w = Err (Revert "Request not found")) /\
  (requester request <> 0 -> status request <> Pending ->
     markVerificationFailed e requestId reason w = Err (Revert "Request already processed")) /\
  (forall e', markVerificationFailed e' requestId reason w =
              markVerificationFailed e requestId reason w).
Proof.
  intros s request Hrole Hcount. subst request s. unfold getVerificationRequest in *.
  assert (Hany : forall e0, markVerificationFailed e0 requestId reason w =
    if negb (requester (mapping_get zero_request (_requests (registry w)) requestId) =? 0)
    then if bool_decide
              (status (mapping_get zero_request (_requests (registry w)) requestId) = Pending)
         then Ok (tt, set_registry
                        (set_totalFailed (_totalFailed (registry w) + 1)
                           (set_requests
                              (<[requestId := with_status Failed
                                   (mapping_get zero_request (_requests (registry w)) requestId)]>
                                 (_requests (registry w))) (registry w))) w)
         else Err (Revert "Request already processed")
    else Err (Revert "Request not found")).
  { intros e0. rewrite markVerificationFailed_eq. cbv zeta. rewrite Hrole.
    apply Z.ltb_lt in Hcount. rewrite Hcount. reflexivity. }
  split; [|split; [|split; [|split]]]; intros; rewrite ?Hany;
    destruct (Z.eqb_spec
      (requester (mapping_get zero_request (_requests (registry w)) requestId)) 0)
      as [Hreq|Hreq];
    destruct (bool_decide_reflect
      (status (mapping_get zero_request (_requests (registry w)) requestId) = Pending))
      as [Hst|Hst];
    cbn [negb is_ok]; try tauto; try (split; [discriminate | tauto]).
  eexists. split; [reflexivity|]. st_simpl. rewrite mapping_get_insert_eq. reflexivity.
Qed.

End MarkFailedClaim.

Section PauseClaim.
Context `{EVMBuiltins}.
Import Storage VeriAISolana System.

Lemma with_paused_id w : with_paused (_paused (registry w)) w = w.
Proof. destruct w as [[] ? ? ? ? ?]. reflexivity. Qed.

(** C9. While the contract is paused, both [requestVerification] entry
    points revert with "Contract paused" and the transaction leaves the
    state as it was. [fulfillVerification] and [markVerificationFailed] do
    not read the pause flag: on the paused state they do exactly what they
    do on the same state unpaused, so a fulfilment that would succeed
    still succeeds, and a [Pending] request can still be marked failed. *)
Theorem pause_gates_submission_only e w :
  _paused (registry w) = true ->
  (forall p m, requestVerification e p m w = Err (Revert "Contract paused")) /\
  (forall r p m, requestVerificationFor e r p m w = Err (Revert "Contract paused")) /\
  (forall p m, step e (RequestVerification p m) w = w) /\
  (forall r p m, step e (RequestVerificationFor r p m) w = w) /\
  (forall requestId output attestationId proof,
     fulfillVerification e requestId output attestationId proof w =
     map_world (with_paused true)
       (fulfillVerification e requestId output attestationId proof (with_paused false w))) /\
  (forall requestId reason,
     markVerificationFailed e requestId reason w =
     map_world (with_paused true)
       (markVerificationFailed e requestId reason (with_paused false w))) /\
  (forall requestId reason,
     let s := registry w in
     let request := getVerificationRequest requestId s in
     hasRole ORACLE_ROLE (msgSender s) s = true ->
     _totalFailed s + 1 < UINT256_MOD ->
     requester request <> 0 -> status request = Pending ->
     exists w', markVerificationFailed e requestId reason w = Ok (tt, w') /\
                status (getVerificationRequest requestId (registry w')) = Failed /\
                _paused (registry w') = true).
Proof.
  intros Hpaused.
  assert (Hw : with_paused true (with_paused false w) = w).
  { rewrite <- (with_paused_id w) at 2. rewrite Hpaused. reflexivity. }
  split; [|split; [|split; [|split; [|split; [|split]]]]].
  - intros. by apply requestVerification_paused.
  - intros. by apply requestVerificationFor_paused.
  - intros. unfold step, commit. cbn [exec]. unfold discard. tx_unfold.
    by rewrite requestVerification_paused.
  - intros. unfold step, commit. cbn [exec]. unfold discard. tx_unfold.
    by rewrite requestVerificationFor_paused.
  - intros. rewrite <- fulfillVerification_pause_independent, Hw. reflexivity.
  - intros. rewrite <- markVerificationFailed_pause_independent, Hw. reflexivity.
  - intros requestId reason s request Hrole Hcount Hreq Hst. subst request s.
    unfold getVerificationRequest in *.
    rewrite markVerificationFailed_eq. cbv zeta. rewrite Hrole.
    apply Z.eqb_neq in Hreq. rewrite Hreq. cbn [negb].
    rewrite bool_decide_eq_true_2 by exact Hst.
    apply Z.ltb_lt in Hcount. rewrite Hcount.
    eexists. split; [reflexivity|]. st_simpl. rewrite mapping_get_insert_eq.
    split; [reflexivity | exact Hpaused].
Qed.

End PauseClaim.

Section VerifyOutputClaim.
Context `{EVMBuiltins}.
Import Storage VeriAISolana.

(** [verifyOutput] is a view: a function of the storage that returns a
    boolean and has nothing to write with. It answers [true] exactly
    when the stored request is [Verified] and the hash of the supplied
    output is the stored [outputHash]; it answers [false] for every other
    status and for every output whose hash differs. After a fulfilment
    with [issued] as output, it compares the hash of the supplied output
    with the hash of [issued]. *)
Lemma verifyOutput_view requestId output (s : State) :
  let request := getVerificationRequest requestId s in
  (verifyOutput requestId output s = true <->
     status request = Verified /\
     VerificationLibrary.calculateOutputHash output = outputHash request) /\
  (status request <> Verified -> verifyOutput requestId output s = false) /\
  (VerificationLibrary.calculateOutputHash output <> outputHash request ->
     verifyOutput requestId output s = false) /\
  (forall e w issued attestationId proof w',
     registry w = s ->
     fulfillVerification e requestId issued attestationId proof w = Ok (tt, w') ->
     verifyOutput requestId output (registry w') =
       (VerificationLibrary.calculateOutputHash output
        =? VerificationLibrary.calculateOutputHash issued)).
Proof.
  cbv zeta. unfold verifyOutput, getVerificationRequest.
  split; [|split; [|split]].
  - destruct (bool_decide_reflect
      (status (mapping_get zero_request (_requests s) requestId) = Verified)) as [Hst|Hst];
      cbn [negb].
    + rewrite Z.eqb_eq. tauto.
    + split; [discriminate | tauto].
  - intros Hst. by rewrite bool_decide_eq_false_2.
  - intros Hhash. destruct (negb _); [reflexivity|]. by apply Z.eqb_neq.
  - intros e w issued attestationId proof w' <- Hfulfill.
    rewrite fulfillVerification_eq in Hfulfill. tx_inv Hfulfill.
    injection Hfulfill as <-. st_simpl. rewrite mapping_get_insert_eq.
    unfold fulfilled_request. st_simpl. reflexivity.
Qed.

End VerifyOutputClaim.

Section ValidityClaim.

(** C7, as the contract has it. [isVerificationValid] answers [true]
    exactly when the token exists, its metadata carries the [verified]
    flag, and fewer than 30 days (2592000 seconds) lie between the
    timestamp of the metadata and the block time. It answers [false] for
    a token that does not exist and for one whose flag is unset, and it
    reverts when the flag is set and the timestamp lies after the block
    time. *)
Theorem isVerificationValid_spec e tokenId (s : NFT.State) :
  let metadata := mapping_get NFT.zero_metadata (NFT._tokenMetadata s) tokenId in
  (NFT.isVerificationValid e tokenId s = Ok true <->
     NFT._exists tokenId s = true /\
     NFT.verified metadata = true /\
     NFT.timestamp metadata <= block_timestamp e /\
     block_timestamp e - NFT.timestamp metadata < 2592000) /\
  (NFT._exists tokenId s = false -> NFT.isVerificationValid e tokenId s = Ok false) /\
  (NFT.verified metadata = false -> NFT.isVerificationValid e tokenId s = Ok false) /\
  (NFT._exists tokenId s = true -> NFT.verified metadata = true ->
   block_timestamp e < NFT.timestamp metadata ->
   NFT.isVerificationValid e tokenId s = Err (Panic PANIC_OVERFLOW)).
Proof.
  cbv zeta. unfold NFT.isVerificationValid, uint256_sub. tx_unfold.
  destruct (NFT._exists tokenId s); cbn [negb];
    destruct (NFT.verified (mapping_get NFT.zero_metadata (NFT._tokenMetadata s) tokenId));
    try (destruct (Z.leb_spec
           (NFT.timestamp (mapping_get NFT.zero_metadata (NFT._tokenMetadata s) tokenId))
           (block_timestamp e)));
    try (destruct (Z.ltb_spec
           (block_timestamp e
            - NFT.timestamp (mapping_get NFT.zero_metadata (NFT._tokenMetadata s) tokenId))
           2592000));
    repeat split; intros; try reflexivity; try discriminate; try lia;
    repeat match goal with
           | Hc : _ /\ _ |- _ => destruct Hc
           end; try discriminate; try lia.
Qed.

End ValidityClaim.

Section ExpiryClaim.
Context `{EVMBuiltins}.
Import Storage VeriAISolana System.

(** C3, as the contract has it. For a stored [Pending] request whose
    timestamp plus 24 hours lies strictly before the block time,
    [fulfillVerification] by an oracle-role caller never succeeds and the
    transaction leaves the state as it was. The attestation is examined
    before the expiry: the call reverts with "Invalid attestation" when the
    relayer does not report the supplied attestation as valid, with
    "Attestation mismatch" when it is valid but is not the one stored on
    the request, and with "Request expired" when it is valid and matches. *)
Theorem fulfillVerification_after_expiry e requestId output attestationId proof w :
  let s := registry w in
  let request := getVerificationRequest requestId s in
  hasRole ORACLE_ROLE (msgSender s) s = true ->
  _oracleRelayer s = relayer_address w ->
  requester request <> 0 ->
  status request = Pending ->
  block_timestamp e < UINT256_MOD ->
  timestamp request + VerificationLibrary.REQUEST_TIMEOUT < block_timestamp e ->
  fulfillVerification e requestId output attestationId proof w =
    (if Relayer.verifyAttestation attestationId (relayer w)
     then if Storage.attestationId request =? attestationId
          then Err (Revert "Request expired")
          else Err (Revert "Attestation mismatch")
     else Err (Revert "Invalid attestation")) /\
  step e (FulfillVerification requestId output attestationId proof) w = w.
Proof.
  intros s request Hrole Hrelayer Hreq Hst Hnow Hlate. subst request s.
  unfold getVerificationRequest in *.
  assert (Hfulfill :
    fulfillVerification e requestId output attestationId proof w =
      if Relayer.verifyAttestation attestationId (relayer w)
      then if Storage.attestationId
                (mapping_get zero_request (_requests (registry w)) requestId) =? attestationId
           then Err (Revert "Request expired")
           else Err (Revert "Attestation mismatch")
      else Err (Revert "Invalid attestation")).
  { rewrite fulfillVerification_eq. cbv zeta. rewrite Hrole.
    apply Z.eqb_neq in Hreq. rewrite Hreq. cbn [negb].
    rewrite bool_decide_eq_true_2 by exact Hst.
    rewrite Hrelayer, Z.eqb_refl.
    unfold VerificationLibrary.isRequestExpired. tx_unfold.
    rewrite uint256_add_lt by lia. cbv beta iota.
    rewrite Z.gtb_ltb. apply Z.ltb_lt in Hlate. rewrite Hlate. reflexivity. }
  split; [exact Hfulfill|].
  unfold step, commit. cbn [exec]. rewrite Hfulfill.
  destruct (Relayer.verifyAttestation _ _); [destruct (_ =? _)|]; reflexivity.
Qed.

End ExpiryClaim.

Section FeeClaims.
Context `{EVMBuiltins}.
Import Storage VeriAISolana System.

Lemma step_request_err e p m w err :
  requestVerification e p m w = Err err -> step e (RequestVerification p m) w = w.
Proof.
  intros Herr. unfold step, commit. cbn [exec]. unfold discard. tx_unfold.
  by rewrite Herr.
Qed.

Lemma step_requestFor_err e r p m w err :
  requestVerificationFor e r p m w = Err err ->
  step e (RequestVerificationFor r p m) w = w.
Proof.
  intros Herr. unfold step, commit. cbn [exec]. unfold discard. tx_unfold.
  by rewrite Herr.
Qed.

Lemma validateFee_ok fee :
  VerificationLibrary.validateFee fee = Ok tt <->
  VerificationLibrary.MIN_VERIFICATION_FEE <= fee <= VerificationLibrary.MAX_VERIFICATION_FEE.
Proof.
  unfold VerificationLibrary.validateFee, res_require.
  destruct (Z.leb_spec VerificationLibrary.MIN_VERIFICATION_FEE fee);
    destruct (Z.leb_spec fee VerificationLibrary.MAX_VERIFICATION_FEE);
    cbn [andb]; split; intros; try discriminate; try reflexivity; lia.
Qed.

(** C2, as the contract has it. A submission is tested against the
    required fee: the converted dynamic fee, or the configured static fee
    when the price feed does not answer or is stale. For every fee
    strictly below the required fee, a submission that has passed the
    pause, re-entrancy, role and input tests reverts with "Insufficient
    fee", and the transaction leaves the state as it was: no request is
    recorded. There is no upper bound at submission. The bounds of
    0.001 and 1 native unit are what [validateFee] tests, and
    [setVerificationFee] applies it to the static fee. *)
Theorem submission_fee_check e w fee :
  let s := registry w in
  _paused s = false ->
  _status s <> _ENTERED ->
  requiredFee e w = Ok fee ->
  msg_value e < fee ->
  (forall p m,
     VerificationLibrary.validateVerificationInput p m = Ok tt ->
     requestVerification e p m w = Err (Revert "Insufficient fee") /\
     step e (RequestVerification p m) w = w) /\
  (forall r p m,
     hasRole ORACLE_ROLE (msgSender s) s = true -> r <> 0 ->
     VerificationLibrary.validateVerificationInput p m = Ok tt ->
     requestVerificationFor e r p m w = Err (Revert "Insufficient fee") /\
     step e (RequestVerificationFor r p m) w = w) /\
  (forall f, VerificationLibrary.validateFee f = Ok tt <->
             VerificationLibrary.MIN_VERIFICATION_FEE <= f
             <= VerificationLibrary.MAX_VERIFICATION_FEE) /\
  (forall f w', setVerificationFee f w = Ok (tt, w') ->
             _verificationFee (registry w') = f /\
             VerificationLibrary.MIN_VERIFICATION_FEE <= f
             <= VerificationLibrary.MAX_VERIFICATION_FEE).
Proof.
  intros s Hpaused Hstatus Hfee Hlow. subst s.
  assert (Hadm : forall r p m,
            VerificationLibrary.validateVerificationInput p m = Ok tt ->
            admission e r p m w = Err (Revert "Insufficient fee")).
  { intros r p m Hvalid. unfold admission. rewrite Hvalid, Hfee.
    rewrite Z.geb_leb. apply Z.leb_gt in Hlow. rewrite Hlow. reflexivity. }
  apply Z.eqb_neq in Hstatus.
  split; [|split; [|split]].
  - intros p m Hvalid.
    assert (Herr : requestVerification e p m w = Err (Revert "Insufficient fee")).
    { rewrite requestVerification_eq. cbv zeta. rewrite Hpaused, Hstatus. cbn [negb].
      by apply Hadm. }
    split; [exact Herr | by eapply step_request_err].
  - intros r p m Hrole Hr Hvalid.
    assert (Herr : requestVerificationFor e r p m w = Err (Revert "Insufficient fee")).
    { rewrite requestVerificationFor_eq. cbv zeta. rewrite Hpaused, Hstatus, Hrole.
      apply Z.eqb_neq in Hr. rewrite Hr. cbn [negb]. by apply Hadm. }
    split; [exact Herr | by eapply step_requestFor_err].
  - apply validateFee_ok.
  - intros f w' Hset. unfold setVerificationFee in Hset. tx_unfold.
    tx_inv Hset. injection Hset as <-. st_simpl. split; [reflexivity|].
    apply validateFee_ok.
    match goal with Hv : VerificationLibrary.validateFee f = Ok ?u |- _ => by destruct u end.
Qed.

(** C4, where the contract departs from it. When the price feed answers
    with a price that is recent (not after the block time and at most one
    hour old) and not positive, the fee computation reverts with
    [InvalidPriceData] instead of falling back on the static fee, and a
    submission that is otherwise well formed is rejected whatever fee it
    carries. *)
Theorem fresh_nonpositive_price_rejects_submission e w solPrice timestamp p m :
  let s := registry w in
  _paused s = false ->
  _status s <> _ENTERED ->
  _oracleRelayer s = relayer_address w ->
  VerificationLibrary.validateVerificationInput p m = Ok tt ->
  pyth_getPrice e = Some (solPrice, timestamp) ->
  timestamp <= block_timestamp e <= timestamp + 3600 ->
  solPrice <= 0 ->
  _calculateDynamicFee e w = Err (CustomError "InvalidPriceData") /\
  requestVerification e p m w = Err (CustomError "InvalidPriceData").
Proof.
  intros s Hpaused Hstatus Hrelayer Hvalid Hprice Hfresh Hneg. subst s.
  assert (Hfee : requiredFee e w = Err (CustomError "InvalidPriceData")).
  { unfold requiredFee. rewrite Hrelayer, Z.eqb_refl, Hprice.
    unfold uint256_sub.
    destruct (Z.leb_spec timestamp (block_timestamp e)); [|lia].
    rewrite Z.gtb_ltb.
    destruct (Z.ltb_spec 3600 (block_timestamp e - timestamp)); [lia|].
    destruct (Z.leb_spec solPrice 0); [reflexivity | lia]. }
  split.
  - rewrite _calculateDynamicFee_eq, Hfee. reflexivity.
  - rewrite requestVerification_eq. cbv zeta. apply Z.eqb_neq in Hstatus.
    rewrite Hpaused, Hstatus. cbn [negb]. unfold admission. rewrite Hvalid, Hfee. reflexivity.
Qed.

(** The fallbacks that the contract does have: a price feed that does not
    answer, and a stale price. *)
Lemma static_fee_fallback e w :
  let s := registry w in
  _oracleRelayer s = relayer_address w ->
  (pyth_getPrice e = None -> requiredFee e w = Ok (_verificationFee s)) /\
  (forall solPrice timestamp,
     pyth_getPrice e = Some (solPrice, timestamp) ->
     timestamp + 3600 < block_timestamp e ->
     requiredFee e w = Ok (_verificationFee s)).
Proof.
  intros s Hrelayer. subst s. unfold requiredFee. rewrite Hrelayer, Z.eqb_refl. split.
  - intros ->. reflexivity.
  - intros solPrice timestamp -> Hstale. unfold uint256_sub.
    destruct (Z.leb_spec timestamp (block_timestamp e)); [|lia].
    rewrite Z.gtb_ltb.
    destruct (Z.ltb_spec 3600 (block_timestamp e - timestamp)); [reflexivity | lia].
Qed.

End FeeClaims.

Section RateLimitClaim.
Context `{EVMBuiltins}.
Import Storage VeriAISolana System.

Lemma checkRateLimit_spec lastRequestTime currentTime :
  currentTime < UINT256_MOD ->
  (VerificationLibrary.checkRateLimit lastRequestTime currentTime = Ok true <->
   lastRequestTime + VerificationLibrary.RATE_LIMIT_WINDOW <= currentTime).
Proof.
  intros Hnow. unfold VerificationLibrary.checkRateLimit, uint256_add. tx_unfold.
  destruct (Z.ltb_spec (lastRequestTime + VerificationLibrary.RATE_LIMIT_WINDOW) UINT256_MOD).
  - rewrite Z.geb_leb.
    destruct (Z.leb_spec (lastRequestTime + VerificationLibrary.RATE_LIMIT_WINDOW) currentTime);
      split; intros; try discriminate; try reflexivity; lia.
  - split; [discriminate | lia].
Qed.

(** Inside the window the admission logic never accepts. *)
Lemma admission_within_window e r p m w :
  block_timestamp e
    < mapping_get 0 (_lastRequestTime (registry w)) r + VerificationLibrary.RATE_LIMIT_WINDOW ->
  exists err, admission e r p m w = Err err /\
    (VerificationLibrary.validateVerificationInput p m = Ok tt ->
     (exists fee, requiredFee e w = Ok fee /\ fee <= msg_value e) ->
     mapping_get 0 (_lastRequestTime (registry w)) r + VerificationLibrary.RATE_LIMIT_WINDOW
       < UINT256_MOD ->
     err = Revert "Rate limit exceeded").
Proof.
  intros Hwindow. unfold admission.
  destruct (VerificationLibrary.validateVerificationInput p m) as [[]|err];
    [|exists err; split; [reflexivity | discriminate]].
  destruct (requiredFee e w) as [fee|err];
    [|exists err; split; [reflexivity | intros _ (fee & Hfee & _); discriminate]].
  rewrite Z.geb_leb. destruct (Z.leb_spec fee (msg_value e));
    [|eexists; split; [reflexivity | intros _ (fee' & [= <-] & ?); lia]].
  unfold VerificationLibrary.checkRateLimit, uint256_add. tx_unfold.
  destruct (Z.ltb_spec
    (mapping_get 0 (_lastRequestTime (registry w)) r + VerificationLibrary.RATE_LIMIT_WINDOW)
    UINT256_MOD); [|eexists; split; [reflexivity | intros; lia]].
  rewrite Z.geb_leb.
  destruct (Z.leb_spec
    (mapping_get 0 (_lastRequestTime (registry w)) r + VerificationLibrary.RATE_LIMIT_WINDOW)
    (block_timestamp e)); [lia|].
  eexists; split; reflexivity.
Qed.

(** An accepted submission of [r] stamps the activity of [r]. *)
Lemma exec_request_ok e c w w' r :
  requester_of c w = Some r ->
  exec e c w = Ok (tt, w') ->
  exists p m requestId, admission e r p m w = Ok (requestId, w').
Proof.
  intros Hr Hexec.
  destruct c as [p m|r0 p m|? ? ? ?|? ?|?|?|?|?|?|?|? ?|? ?| | |?|
                 |? ?|? ?|?|? ?|?|? ?|? ? ?|?|?];
    try discriminate Hr; cbn [requester_of] in Hr; injection Hr as <-;
    cbn [exec] in Hexec; unfold discard in Hexec; tx_unfold.
  - destruct (requestVerification e p m w) as [[rid w0]|] eqn:Hreq; [|discriminate].
    injection Hexec as <-. rewrite requestVerification_eq in Hreq.
    destruct (negb _); [|discriminate]. destruct (negb _); [|discriminate]. eauto.
  - destruct (requestVerificationFor e r0 p m w) as [[rid w0]|] eqn:Hreq; [|discriminate].
    injection Hexec as <-. rewrite requestVerificationFor_eq in Hreq.
    destruct (negb _); [|discriminate]. destruct (negb _); [|discriminate].
    destruct (hasRole _ _ _); [|discriminate].
    destruct (negb _); [|discriminate]. eauto.
Qed.

(** What an accepted submission leaves in the activity of [r]. *)
Lemma exec_request_activity e c w w' r :
  requester_of c w = Some r ->
  exec e c w = Ok (tt, w') ->
  getUserRequestCount r (registry w') = getUserRequestCount r (registry w) + 1 /\
  mapping_get 0 (_lastRequestTime (registry w')) r = block_timestamp e.
Proof.
  intros Hr Hexec.
  destruct (exec_request_ok _ _ _ _ _ Hr Hexec) as (p & m & rid & Hadm).
  apply admission_ok in Hadm as (fee & day & att & rel & Hok).
  destruct Hok as (_ & _ & _ & _ & _ & _ & _ & _ & ->).
  unfold getUserRequestCount, accepted_registry. st_simpl.
  split; apply mapping_get_insert_eq.
Qed.

(** Inside the window a submission charged to [r] reverts. *)
Lemma exec_request_within_window e c w r :
  requester_of c w = Some r ->
  block_timestamp e
    < mapping_get 0 (_lastRequestTime (registry w)) r + VerificationLibrary.RATE_LIMIT_WINDOW ->
  exists err, exec e c w = Err err /\
    (mapping_get 0 (_lastRequestTime (registry w)) r + VerificationLibrary.RATE_LIMIT_WINDOW
       < UINT256_MOD ->
     passes_checks_before_rate_limit e c w = true ->
     err = Revert "Rate limit exceeded").
Proof.
  intros Hr Hwindow.
  destruct c as [p m|r0 p m|? ? ? ?|? ?|?|?|?|?|?|?|? ?|? ?| | |?|
                 |? ?|? ?|?|? ?|?|? ?|? ? ?|?|?];
    try discriminate Hr; cbn [requester_of] in Hr; injection Hr as Hr;
    cbn [exec]; unfold discard, passes_checks_before_rate_limit; tx_unfold.
  - rewrite requestVerification_eq. cbv zeta. rewrite Hr.
    destruct (negb (_paused (registry w)));
      [|eexists; split; [reflexivity | cbn [andb]; discriminate]].
    destruct (negb (_status (registry w) =? _ENTERED));
      [|eexists; split; [reflexivity | cbn [andb]; discriminate]].
    destruct (admission_within_window e r p m w Hwindow) as (err & -> & Herr).
    exists err. split; [reflexivity|]. cbn [andb]. intros Hmod Hpass.
    apply andb_true_iff in Hpass as [Hvalid Hfee].
    apply Herr; [| |exact Hmod].
    + by destruct (VerificationLibrary.validateVerificationInput p m) as [[]|].
    + destruct (requiredFee e w) as [fee|]; [|discriminate].
      exists fee. split; [reflexivity|]. rewrite Z.geb_leb in Hfee. by apply Z.leb_le.
  - subst r0. rewrite requestVerificationFor_eq. cbv zeta.
    destruct (negb (_paused (registry w)));
      [|eexists; split; [reflexivity | cbn [andb]; discriminate]].
    destruct (negb (_status (registry w) =? _ENTERED));
      [|eexists; split; [reflexivity | cbn [andb]; discriminate]].
    destruct (hasRole ORACLE_ROLE (msgSender (registry w)) (registry w));
      [|eexists; split; [reflexivity | cbn [andb]; discriminate]].
    destruct (negb (r =? 0));
      [|eexists; split; [reflexivity | cbn [andb]; discriminate]].
    destruct (admission_within_window e r p m w Hwindow) as (err & -> & Herr).
    exists err. split; [reflexivity|]. cbn [andb]. intros Hmod Hpass.
    apply andb_true_iff in Hpass as [Hvalid Hfee].
    apply Herr; [| |exact Hmod].
    + by destruct (VerificationLibrary.validateVerificationInput p m) as [[]|].
    + destruct (requiredFee e w) as [fee|]; [|discriminate].
      exists fee. split; [reflexivity|]. rewrite Z.geb_leb in Hfee. by apply Z.leb_le.
Qed.

End RateLimitClaim.

Section RouterClaim.
Import Multichain.

Lemma detectChainFromTokenId_supported this tokenId :
  defaultChain this = "solana" \/ defaultChain this = "ethereum" ->
  detectChainFromTokenId this tokenId = "solana" \/
  detectChainFromTokenId this tokenId = "ethereum".
Proof.
  intros Hdefault. unfold detectChainFromTokenId.
  destruct (_ || _); [by left|]. destruct (_ || _); [by right | exact Hdefault].
Qed.

(** With the chain selector omitted (and the default chain one of the
    two supported chains), the inference from the token identifier
    always names a chain: the chain of the prefix, or the default chain
    when no prefix matches. [getNFT] then asks the service of that one
    chain only: the branch that tries both chains is never taken. For an
    identifier without a chain prefix it returns what the default chain
    has; were that chain not to have the token, it would return
    nothing, whatever the other chain has. *)
Lemma getNFT_asks_one_chain this tokenId :
  defaultChain this = "solana" \/ defaultChain this = "ethereum" ->
  (exists service,
     service_of this (detectChainFromTokenId this tokenId) = Some service /\
     getNFT this tokenId None = settle (getNFT_of service tokenId)) /\
  (startsWith tokenId "sol_" || startsWith tokenId "solana_" = false ->
   startsWith tokenId "eth_" || startsWith tokenId "ethereum_" = false ->
   detectChainFromTokenId this tokenId = defaultChain this /\
   (defaultChain this = "solana" ->
    getNFT_of (solanaService this) tokenId = Resolved None ->
    getNFT this tokenId None = None)).
Proof.
  intros Hdefault. split.
  - unfold getNFT, service_of, targetChain_of, settle.
    destruct (detectChainFromTokenId_supported this tokenId Hdefault) as [-> | ->];
      cbn [String.eqb Ascii.eqb Bool.eqb]; eauto.
  - intros Hsol Heth. unfold detectChainFromTokenId. rewrite Hsol, Heth.
    split; [reflexivity|]. intros Hsolana Hnone.
    unfold getNFT, targetChain_of, detectChainFromTokenId.
    rewrite Hsol, Heth, Hsolana. cbn [String.eqb Ascii.eqb Bool.eqb]. by rewrite Hnone.
Qed.

End RouterClaim.

Section ExactlyOnceClaim.
Context `{EVMBuiltins}.
Import Storage VeriAISolana System.

Lemma reachable_run txs w : reachable w -> reachable (run txs w).
Proof.
  revert w. induction txs as [|[e c] txs IH]; intros w Hreach; cbn [run]; [exact Hreach|].
  apply IH. by apply reachable_step.
Qed.

(** A fulfilment of a settled request reverts. *)
Lemma fulfillVerification_settled e requestId output attestationId proof w :
  settled requestId w ->
  exists err,
    fulfillVerification e requestId output attestationId proof w = Err err /\
    (hasRole ORACLE_ROLE (msgSender (registry w)) (registry w) = true ->
     err = Revert "Request already fulfilled").
Proof.
  intros [Hstored Hstatus]. rewrite fulfillVerification_eq. cbv zeta.
  destruct (hasRole _ _ _); [|eexists; split; [reflexivity | discriminate]].
  apply Z.eqb_neq in Hstored. rewrite Hstored. cbn [negb].
  rewrite bool_decide_eq_false_2 by exact Hstatus. eauto.
Qed.

(** C1. Fulfilment is exactly-once, the digest being collision-free.
    In a state that the deployed system can reach and in which the
    registry points to the relayer and to the certificate contract, a
    successful [fulfillVerification] of [requestId] finds the request
    [Pending] and leaves it [Verified], with its output hash and
    [nftMinted] set; it mints exactly one certificate in that contract:
    one token that did not exist before, the supply growing by one,
    owned by the requester and carrying [requestId] in its metadata.
    After that, whatever transactions follow,
    every [fulfillVerification] of the same [requestId] reverts (with
    "Request already fulfilled" when the caller holds the oracle role) and
    the transaction leaves the state, and with it the certificates, as
    they were. *)
Theorem fulfill_exactly_once
    (keccak256_inj : forall a b : string, keccak256 a = keccak256 b -> a = b)
    (w : World) (e : Env) (requestId : Z) (output : string) (attestationId : Z)
    (proof : string) (w1 : World) :
  reachable w ->
  _oracleRelayer (registry w) = relayer_address w ->
  _nftContract (registry w) = nft_address w ->
  fulfillVerification e requestId output attestationId proof w = Ok (tt, w1) ->
  let request := getVerificationRequest requestId (registry w) in
  let request1 := getVerificationRequest requestId (registry w1) in
  let certificate := certificate_of (registry w) requestId output proof in
  let tokenId := NFT.totalSupply (nft w) in
  (status request = Pending /\
   status request1 = Verified /\
   nftMinted request1 = true /\
   outputHash request1 = VerificationLibrary.calculateOutputHash output) /\
  (NFT._exists tokenId (nft w) = false /\
   NFT.totalSupply (nft w1) = NFT.totalSupply (nft w) + 1 /\
   NFT._tokenMetadata (nft w1) = <[tokenId := certificate]> (NFT._tokenMetadata (nft w)) /\
   NFT._owners (nft w1) = <[tokenId := requester request]> (NFT._owners (nft w)) /\
   NFT.requestId certificate = requestId) /\
  (forall txs e' output' attestationId' proof',
     let w2 := run txs w1 in
     (exists err,
        fulfillVerification e' requestId output' attestationId' proof' w2 = Err err /\
        (hasRole ORACLE_ROLE (msgSender (registry w2)) (registry w2) = true ->
         err = Revert "Request already fulfilled")) /\
     step e' (FulfillVerification requestId output' attestationId' proof') w2 = w2).
Proof.
  intros Hreach _ _ Hfulfill. cbv zeta. unfold getVerificationRequest, NFT.totalSupply.
  assert (Hexec : exec e (FulfillVerification requestId output attestationId proof) w
                  = Ok (tt, w1)) by exact Hfulfill.
  assert (Hids1 : ids_issued w1).
  { apply exec_requests_change in Hexec.
    eapply ids_issued_change; [exact Hexec | by apply reachable_ids_issued]. }
  rewrite fulfillVerification_eq in Hfulfill. cbv zeta in Hfulfill.
  tx_inv Hfulfill. injection Hfulfill as <-.
  match goal with Hr : negb (_ =? 0) = true |- _ => apply negb_true_iff, Z.eqb_neq in Hr end.
  match goal with Hs : bool_decide _ = true |- _ => apply bool_decide_eq_true in Hs end.
  match goal with
  | Hids : ids_issued ?w1 |- _ =>
      assert (Hsettled : settled requestId w1)
        by (unfold settled; st_simpl; rewrite mapping_get_insert_eq;
            unfold fulfilled_request; st_simpl; split; [assumption | discriminate])
  end.
  match goal with
  | Hmint : NFT.mintVerificationNFT _ _ _ = Ok _ |- _ =>
      apply mintVerificationNFT_ok in Hmint
        as (-> & Hfresh & Hsupply & Hmetadata & Howners & _)
  end.
  st_simpl. rewrite mapping_get_insert_eq. unfold fulfilled_request at 1 2 3. st_simpl.
  split; [auto|]. split; [auto|].
  intros txs e' output' attestationId' proof'.
  destruct (settled_run keccak256_inj txs requestId _ Hids1 Hsettled) as [_ Hsettled2].
  destruct (fulfillVerification_settled e' requestId output' attestationId' proof' _ Hsettled2)
    as (err & Herr & Hwhich).
  split; [eauto|].
  unfold step, commit. cbn [exec]. rewrite Herr. reflexivity.
Qed.

End ExactlyOnceClaim.

(* ===================================================================== *)
(** ** The properties on the concrete deployment *)
(* ===================================================================== *)

Section ScenarioChecks.
Import Storage VeriAISolana System Scenario.
#[local] Existing Instance ideal_builtins.

Lemma ideal_keccak256_inj (a b : string) : keccak256 a = keccak256 b -> a = b.
Proof. cbn. intros Heq. injection Heq as Heq. by apply (inj encode). Qed.

Lemma ok_or_ok {A} (d : A) (r : result A) : is_ok r = true -> r = Ok (ok_or d r).
Proof. destruct r; [reflexivity | discriminate]. Qed.

Lemma commit_ok {S} (m : Tx S unit) (s : S) : is_ok (m s) = true -> m s = Ok (tt, commit m s).
Proof. unfold commit. destruct (m s) as [[[] s']|]; [reflexivity | discriminate]. Qed.

Lemma commit_err {S A} (m : Tx S A) (s : S) : is_ok (m s) = false -> commit m s = s.
Proof. unfold commit. destruct (m s) as [[a s']|]; [discriminate | reflexivity]. Qed.

Lemma deployed_ok : deploy (env 1000 0) params = Ok deployed.
Proof. apply ok_or_ok. vm_compute. reflexivity. Qed.

Lemma attested_reachable : reachable attested.
Proof.
  unfold attested, submitted, wired. do 3 apply reachable_run.
  eapply reachable_deploy. exact deployed_ok.
Qed.

Lemma fulfilment_ok :
  fulfillVerification (env 2200 0) the_requestId the_output the_attestationId the_proof
    attested = Ok (tt, verified).
Proof.
  unfold verified, fulfilment. cbn [run]. unfold step. cbn [exec].
  apply commit_ok. vm_compute. reflexivity.
Qed.

(** The scenario of the specification: submission at the minimum fee,
    attestation, fulfilment, and the independent check of the output. *)
Example scenario_lifecycle :
  status (getVerificationRequest the_requestId (registry submitted)) = Pending /\
  status (getVerificationRequest the_requestId (registry verified)) = Verified /\
  NFT.getTokensByOwner admin (nft verified) = [0] /\
  verifyOutput the_requestId the_output (registry verified) = true /\
  verifyOutput the_requestId "Proof-of-Stake is not..." (registry verified) = false.
Proof. vm_compute. repeat split. Qed.

(** The certificate carries the time of the request, 2000, not the time
    of its own minting, 2200. *)
Example scenario_certificate_timestamp :
  NFT.timestamp (mapping_get NFT.zero_metadata (NFT._tokenMetadata (nft verified)) 0) = 2000.
Proof. vm_compute. reflexivity. Qed.

(** Witness of C1: the fulfilment of the scenario, then a second attempt
    after two more transactions. *)
Lemma fulfill_exactly_once_witness :
  status (getVerificationRequest the_requestId (registry verified)) = Verified /\
  NFT.totalSupply (nft verified) = NFT.totalSupply (nft attested) + 1 /\
  exists err,
    fulfillVerification (env 2400 0) the_requestId the_output the_attestationId the_proof
      (run pausing verified) = Err err.
Proof.
  assert (Hrelayer : _oracleRelayer (registry attested) = relayer_address attested)
    by (vm_compute; reflexivity).
  assert (Hnft : _nftContract (registry attested) = nft_address attested)
    by (vm_compute; reflexivity).
  destruct (fulfill_exactly_once ideal_keccak256_inj attested (env 2200 0) the_requestId
              the_output the_attestationId the_proof verified
              attested_reachable Hrelayer Hnft fulfilment_ok)
    as ((_ & Hstatus & _) & (_ & Hsupply & _) & Hlater).
  split; [exact Hstatus|]. split; [exact Hsupply|].
  destruct (Hlater pausing (env 2400 0) the_output the_attestationId the_proof)
    as [(err & Herr & _) _].
  exists err. exact Herr.
Defined.

(** Counterexample to C2 as stated: a fee of 2 native units, above the
    maximum, is accepted and a request is recorded; and with the price
    feed at 150 USD a fee of 666666, below the minimum, is accepted. *)
Lemma fee_out_of_range_accepted :
  (VerificationLibrary.MAX_VERIFICATION_FEE < 2 * 10 ^ 18 /\
   let after := step (env 2000 (2 * 10 ^ 18)) (RequestVerification the_prompt the_model) wired in
   is_ok (requestVerification (env 2000 (2 * 10 ^ 18)) the_prompt the_model wired) = true /\
   requester (getVerificationRequest the_requestId (registry after)) = admin /\
   feePaid (getVerificationRequest the_requestId (registry after)) = 2 * 10 ^ 18) /\
  (666666 < VerificationLibrary.MIN_VERIFICATION_FEE /\
   is_ok (requestVerification (env_priced 2000 666666 (Some (150 * 10 ^ 8, 2000)))
            the_prompt the_model wired) = true).
Proof. vm_compute. repeat split. Qed.

(** Witness of C2 as amended: a fee of 0.0001 native units against the
    static fee of 0.001. *)
Lemma submission_fee_check_witness :
  requestVerification (env 2000 (10 ^ 14)) the_prompt the_model wired
    = Err (Revert "Insufficient fee") /\
  step (env 2000 (10 ^ 14)) (RequestVerification the_prompt the_model) wired = wired.
Proof.
  refine (proj1 (submission_fee_check (env 2000 (10 ^ 14)) wired
                   VerificationLibrary.MIN_VERIFICATION_FEE _ _ _ _)
            the_prompt the_model _).
  - vm_compute. reflexivity.
  - vm_compute. discriminate.
  - vm_compute. reflexivity.
  - vm_compute. reflexivity.
  - vm_compute. reflexivity.
Defined.

(** Counterexample to C3 as stated: the request is [Pending] and expired,
    the attestation offered is unknown to the relayer, and the call
    reverts with "Invalid attestation", not with "Request expired". *)
Lemma expired_fulfilment_reports_attestation :
  status (getVerificationRequest the_requestId (registry submitted)) = Pending /\
  VerificationLibrary.isRequestExpired
    (timestamp (getVerificationRequest the_requestId (registry submitted))) late = Ok true /\
  fulfillVerification (env late 0) the_requestId the_output 12345 the_proof submitted
    = Err (Revert "Invalid attestation") /\
  Err (Revert "Invalid attestation") <> (Err (Revert "Request expired") : result (unit * World)).
Proof. vm_compute. repeat split. discriminate. Qed.

(** Witness of C3 as amended: the same request once attested, fulfilled
    too late with the right attestation. *)
Lemma fulfillVerification_after_expiry_witness :
  fulfillVerification (env late 0) the_requestId the_output the_attestationId the_proof attested
    = Err (Revert "Request expired").
Proof.
  unshelve epose proof
    (fulfillVerification_after_expiry (env late 0) the_requestId the_output
       the_attestationId the_proof attested _ _ _ _ _ _) as [Hfulfill _].
  - vm_compute. reflexivity.
  - vm_compute. reflexivity.
  - vm_compute. discriminate.
  - vm_compute. reflexivity.
  - vm_compute. reflexivity.
  - vm_compute. reflexivity.
  - rewrite Hfulfill. vm_compute. reflexivity.
Defined.

(** Witness of C4: a well-formed submission carrying one native unit,
    while the price feed answers with a fresh price of zero. *)
Lemma fresh_nonpositive_price_rejects_submission_witness :
  requestVerification (env_priced 2000 (10 ^ 18) (Some (0, 2000))) the_prompt the_model wired
    = Err (CustomError "InvalidPriceData").
Proof.
  refine (proj2 (fresh_nonpositive_price_rejects_submission
                   (env_priced 2000 (10 ^ 18) (Some (0, 2000))) wired 0 2000
                   the_prompt the_model _ _ _ _ _ _ _)).
  - vm_compute. reflexivity.
  - vm_compute. discriminate.
  - vm_compute. reflexivity.
  - vm_compute. reflexivity.
  - reflexivity.
  - cbn. lia.
  - lia.
Defined.

(** Two submissions of the same account 59 seconds apart: the second
    reverts; 60 seconds apart it is accepted. *)
Example scenario_rate_limit :
  requestVerification (env 2059 (10 ^ 18)) "Explain PoW" the_model submitted
    = Err (Revert "Rate limit exceeded") /\
  step (env 2059 (10 ^ 18)) (RequestVerification "Explain PoW" the_model) submitted
    = submitted /\
  is_ok (requestVerification (env 2060 (10 ^ 18)) "Explain PoW" the_model submitted) = true.
Proof.
  split; [vm_compute; reflexivity|]. split; [|vm_compute; reflexivity].
  unfold step. apply commit_err. vm_compute. reflexivity.
Qed.

(** Counterexample to C7 as stated: token 0 exists and was stamped one
    second before the block time, yet it is not valid, because its
    [verified] flag is not set. *)
Lemma unverified_certificate_not_valid :
  NFT._exists 0 (nft with_unverified) = true /\
  NFT.timestamp (mapping_get NFT.zero_metadata (NFT._tokenMetadata (nft with_unverified)) 0)
    = 1000 /\
  1001 - 1000 < 2592000 /\
  NFT.isVerificationValid (env 1001 0) 0 (nft with_unverified) = Ok false.
Proof. vm_compute. repeat split. Qed.

(** With services other than the shipped ones: the token ["12345"] is
    on Ethereum only; with the selector omitted the router asks Solana,
    the default, and finds nothing, while the explicit selector finds
    it. *)
Example getNFT_asks_one_chain_example :
  Multichain.getNFT_of (Multichain.ethereumService router) "12345"
    = Multichain.Resolved (Some eth_token) /\
  Multichain.getNFT router "12345" (Some "ethereum") = Some eth_token /\
  Multichain.getNFT router "12345" None = None.
Proof.
  split; [reflexivity|]. split; [reflexivity|].
  refine (proj2 (proj2 (getNFT_asks_one_chain router "12345" _) _ _) _ _).
  - left. reflexivity.
  - reflexivity.
  - reflexivity.
  - reflexivity.
  - reflexivity.
Qed.

(** Witness of C9: the paused registry of the scenario. *)
Lemma pause_gates_submission_only_witness :
  requestVerification (env 2400 (10 ^ 18)) the_prompt the_model paused_world
    = Err (Revert "Contract paused") /\
  is_ok (fulfillVerification (env 2400 0) the_requestId the_output the_attestationId
           the_proof paused_world) = true /\
  is_ok (markVerificationFailed (env 2400 0) the_requestId "timeout" paused_world) = true.
Proof.
  pose proof (pause_gates_submission_only (env 2400 (10 ^ 18)) paused_world) as Hpause.
  split; [|vm_compute; split; reflexivity].
  refine (proj1 (Hpause _) the_prompt the_model).
  vm_compute. reflexivity.
Defined.

(** Witness of C10: the [Pending] request of the scenario, marked failed
    after its 24 hours have passed. *)
Lemma markVerificationFailed_ignores_expiry_witness :
  VerificationLibrary.isRequestExpired
    (timestamp (getVerificationRequest the_requestId (registry attested))) late = Ok true /\
  exists w',
    markVerificationFailed (env late 0) the_requestId "timeout" attested = Ok (tt, w') /\
    status (getVerificationRequest the_requestId (registry w')) = Failed.
Proof.
  split; [vm_compute; reflexivity|].
  refine (proj1 (proj2 (markVerificationFailed_ignores_expiry (env late 0) the_requestId
                          "timeout" attested _ _)) _ _).
  - vm_compute. reflexivity.
  - vm_compute. reflexivity.
  - vm_compute. discriminate.
  - vm_compute. reflexivity.
Defined.

End ScenarioChecks.

(* ===================================================================== *)
(** ** Effects of a transaction *)
(* ===================================================================== *)

Section Effects.
Context `{EVMBuiltins}.
Import Storage VeriAISolana System.

Lemma same_ledger_refl s : same_ledger s s.
Proof. unfold same_ledger. repeat split; auto. Qed.

Lemma same_tokens_refl n : same_tokens n n.
Proof. unfold same_tokens. repeat split; auto. Qed.

(** Every successful call is a submission, a settlement, or leaves the
    ledger of the registry, the tokens and the attestations as they were. *)
Lemma exec_effect e c w w' : exec e c w = Ok (tt, w') -> effect w w'.
Proof.
  intros Hexec.
  destruct c as [p m|r p m|rid out att prf|rid reason|?|?|?|?|?|?|? ?|? ?| | |?|
                 |? ?|? ?|?|? ?|?|? ?|? ? ?|?|?];
    cbn [exec] in Hexec.
  5-16: unfold setOracleRelayer, setVerificationFee, setTreasuryAddress, setNFTContract,
         addOracle, removeOracle, grantRole, revokeRole, _grantRole, _revokeRole,
         pause, unpause, initialize, emergencyWithdraw, _transferFees in Hexec;
       tx_unfold; tx_inv Hexec; inversion Hexec; subst;
       (apply effect_registry; try reflexivity);
       unfold same_ledger; st_simpl; repeat split; auto;
       match goal with
       | Hz : (_ =? 0) = true |- _ => apply Z.eqb_eq in Hz; intros; congruence
       end.
  - (* requestVerification *)
    unfold discard in Hexec. tx_unfold.
    destruct (requestVerification e p m w) as [[rid w0]|] eqn:Hreq; [|discriminate].
    injection Hexec as <-. rewrite requestVerification_eq in Hreq.
    destruct (_paused (registry w)) eqn:Hp; [discriminate|]. cbn [negb] in Hreq.
    destruct (negb _); [|discriminate].
    eapply effect_submitted; [exact Hp | left; reflexivity | exact Hreq].
  - (* requestVerificationFor *)
    unfold discard in Hexec. tx_unfold.
    destruct (requestVerificationFor e r p m w) as [[rid w0]|] eqn:Hreq; [|discriminate].
    injection Hexec as <-. rewrite requestVerificationFor_eq in Hreq.
    destruct (_paused (registry w)) eqn:Hp; [discriminate|]. cbn [negb] in Hreq.
    destruct (negb _); [|discriminate].
    destruct (hasRole _ _ _); [|discriminate].
    destruct (r =? 0) eqn:Hr; [discriminate|]. apply Z.eqb_neq in Hr.
    eapply effect_submitted; [exact Hp | right; exact Hr | exact Hreq].
  - eapply effect_fulfilled; eauto.
  - eapply effect_failed; eauto.
  - (* NFT.mintVerificationNFT *)
    unfold discard in Hexec. tx_unfold.
    destruct (NFT.mintVerificationNFT _ _ _) as [[tokenId n']|] eqn:Hmint; [|discriminate].
    injection Hexec as <-. apply effect_nft; [reflexivity..|]. st_simpl.
    eapply nft_minted; eauto.
  - unfold NFT.updateTokenMetadata, NFT.onlyRole in Hexec. tx_unfold. tx_inv Hexec.
    injection Hexec as <-. apply effect_nft; [reflexivity..|]. st_simpl.
    apply nft_kept. unfold same_tokens. st_simpl. repeat split; auto.
  - unfold NFT.setBaseTokenURI, NFT.onlyRole in Hexec. tx_unfold. tx_inv Hexec.
    injection Hexec as <-. apply effect_nft; [reflexivity..|]. st_simpl.
    apply nft_kept. unfold same_tokens. st_simpl. repeat split; auto.
  - unfold NFT.grantRole, NFT._grantRole, NFT.onlyRole in Hexec. tx_unfold. tx_inv Hexec;
      injection Hexec as <-; (apply effect_nft; [reflexivity..|]); st_simpl;
      apply nft_kept; unfold same_tokens; st_simpl; repeat split; auto.
  - unfold NFT.initialize in Hexec. tx_unfold. tx_inv Hexec.
    injection Hexec as <-. apply effect_nft; [reflexivity..|]. st_simpl.
    apply nft_kept. unfold same_tokens. st_simpl. repeat split; auto.
    match goal with
    | Hz : (_ =? 0) = true |- _ => apply Z.eqb_eq in Hz; intros; congruence
    end.
  - unfold discard in Hexec. tx_unfold.
    destruct (Relayer.requestAttestation _ _ _ _) as [[att r']|] eqn:Hreq; [|discriminate].
    injection Hexec as <-. apply effect_relayer; [reflexivity..|]. st_simpl.
    eapply relayer_requested; eauto.
  - tx_unfold.
    destruct (Relayer.fulfillAttestation _ _ _ _ _) as [[[] r']|] eqn:Hreq; [|discriminate].
    injection Hexec as <-. apply effect_relayer; [reflexivity..|]. st_simpl.
    eapply relayer_fulfilled; eauto.
  - unfold Relayer.authorizeOracleCaller, Relayer.onlyOwner in Hexec. tx_unfold. tx_inv Hexec.
    injection Hexec as <-. apply effect_relayer; [reflexivity..|]. st_simpl.
    apply relayer_kept; reflexivity.
  - unfold Relayer.revokeOracleCaller, Relayer.onlyOwner in Hexec. tx_unfold. tx_inv Hexec.
    injection Hexec as <-. apply effect_relayer; [reflexivity..|]. st_simpl.
    apply relayer_kept; reflexivity.
Qed.

End Effects.

Section Settlements.
Context `{EVMBuiltins}.
Import Storage VeriAISolana System.

(** What a successful fulfilment has checked and done. *)
Lemma fulfillVerification_ok e requestId output attestationId proof w w' :
  fulfillVerification e requestId output attestationId proof w = Ok (tt, w') ->
  let s := registry w in
  let request := getVerificationRequest requestId s in
  requester request <> 0 /\ status request = Pending /\
  Relayer.verifyAttestation attestationId (relayer w) = true /\
  Storage.attestationId request = attestationId /\
  VerificationLibrary.isRequestExpired (timestamp request) (block_timestamp e) = Ok false /\
  exists tokenId n,
    NFT.mintVerificationNFT (requester request)
      (certificate_of s requestId output proof) (nft w) = Ok (tokenId, n) /\
    w' = set_nft n
           (set_registry
              (set_totalVerified (_totalVerified s + 1)
                 (set_requests (<[requestId := fulfilled_request request output]>
                                  (_requests s)) s)) w).
Proof.
  intros Hexec. cbv zeta. unfold getVerificationRequest.
  rewrite fulfillVerification_eq in Hexec. tx_inv Hexec. injection Hexec as <-.
  repeat match goal with
  | Hr : negb (_ =? 0) = true |- _ => apply negb_true_iff, Z.eqb_neq in Hr
  | Hs : bool_decide _ = true |- _ => apply bool_decide_eq_true in Hs
  | Hs : negb _ = true |- _ => apply negb_true_iff in Hs; subst
  | Hs : (_ =? _) = true |- _ => apply Z.eqb_eq in Hs
  | Hadd : uint256_add _ _ = Ok _ |- _ => apply uint256_add_ok in Hadd as [-> ?]
  end.
  repeat split; auto. eauto.
Qed.

(** What a successful failure report has checked and done. *)
Lemma markVerificationFailed_ok e requestId reason w w' :
  markVerificationFailed e requestId reason w = Ok (tt, w') ->
  let s := registry w in
  let request := getVerificationRequest requestId s in
  requester request <> 0 /\ status request = Pending /\
  w' = set_registry
         (set_totalFailed (_totalFailed s + 1)
            (set_requests (<[requestId := with_status Failed request]> (_requests s)) s)) w.
Proof.
  intros Hexec. cbv zeta. unfold getVerificationRequest.
  rewrite markVerificationFailed_eq in Hexec. tx_inv Hexec. injection Hexec as <-.
  repeat match goal with
  | Hr : negb (_ =? 0) = true |- _ => apply negb_true_iff, Z.eqb_neq in Hr
  | Hs : bool_decide _ = true |- _ => apply bool_decide_eq_true in Hs
  end.
  repeat split; auto.
Qed.

(** The state that the constructors leave. *)
Lemma deploy_initial e p w :
  deploy e p = Ok w ->
  let s := registry w in
  (_admin s = dp_admin p /\ dp_admin p <> 0 /\ _status s = _NOT_ENTERED /\
   _paused s = false /\
   _requestCounter s = 0 /\ _totalRequests s = 0 /\ _totalVerified s = 0 /\
   _totalFailed s = 0 /\ _requests s = ∅ /\ _userRequests s = ∅ /\
   _requestCount s = ∅ /\ _lastRequestTime s = ∅ /\ _dailyRequestCount s = ∅ /\
   _processedAttestations s = ∅ /\ _verificationFee s = dp_initialFee p /\
   _treasuryAddress s = dp_treasury p /\ _nftContract s = 0 /\
   _oracleRelayer s = dp_oracleRelayer p /\ DEPLOYMENT_TIME s = block_timestamp e) /\
  (NFT._admin (nft w) = dp_nft_admin p /\ dp_nft_admin p <> 0 /\
   NFT._tokenIdCounter (nft w) = 0 /\ NFT._owners (nft w) = ∅ /\
   NFT._balances (nft w) = ∅ /\ NFT._tokenMetadata (nft w) = ∅ /\
   NFT._tokensByOwner (nft w) = ∅ /\ NFT._tokensByModel (nft w) = ∅) /\
  (Relayer.owner (relayer w) = dp_relayer_deployer p /\
   Relayer.requests (relayer w) = ∅ /\ Relayer.processedAttestations (relayer w) = ∅).
Proof.
  unfold deploy, constructor, initialize, _grantRole, NFT.constructor, NFT.initialize,
    NFT._grantRole. tx_unfold. intros Hdeploy.
  tx_inv Hdeploy; injection Hdeploy as <-; st_simpl;
    repeat match goal with
    | Hr : negb (_ =? 0) = true |- _ => apply negb_true_iff, Z.eqb_neq in Hr
    end;
    repeat split; auto.
Qed.

End Settlements.

Section Ledger.
Context `{EVMBuiltins}.
Import Storage VeriAISolana System.

Lemma step_effect e c w : step e c w = w \/ effect w (step e c w).
Proof.
  unfold step, commit. destruct (exec e c w) as [[[] w']|] eqn:Hexec; [|by left].
  right. eapply exec_effect; eauto.
Qed.

Lemma ledger_consistent_effect w w' :
  effect w w' -> ledger_consistent w -> ledger_consistent w'.
Proof.
  intros Heffect (Hadmin & Hstatus & Htotal & Hlists & Hdaily & Hprocessed).
  unfold ledger_consistent, getUserRequests, getUserRequestCount,
    isAttestationProcessed in *.
  destruct Heffect as [e r p m rid _ _ Hadm | e rid out att prf Hful | e rid reason Hfail
                      | Hsame Hnft Hrel | Hreg _ _ | Hreg _ _].
  - apply admission_ok in Hadm as (fee & day & att & rel & Hok).
    destruct Hok as (_ & _ & _ & _ & _ & Hlimit & Hcounter & _ & ->).
    unfold accepted_registry. st_simpl.
    repeat split; auto.
    + lia.
    + intros user. destruct (decide (r = user)) as [<-|Hne].
      * rewrite !mapping_get_insert_eq, length_app, <- Hlists. cbn. lia.
      * rewrite !mapping_get_insert_ne by exact Hne. apply Hlists.
    + destruct (decide ((r, day) = (user, day0))) as [<-|Hne].
      * rewrite mapping_get_insert_eq. specialize (Hdaily r day). lia.
      * rewrite mapping_get_insert_ne by exact Hne. apply Hdaily.
    + destruct (decide ((r, day) = (user, day0))) as [<-|Hne].
      * rewrite mapping_get_insert_eq. lia.
      * rewrite mapping_get_insert_ne by exact Hne. apply Hdaily.
  - apply fulfillVerification_ok in Hful as (_ & _ & _ & _ & _ & tokenId & n & _ & ->).
    st_simpl. repeat split; auto; apply Hdaily.
  - apply markVerificationFailed_ok in Hfail as (_ & _ & ->).
    st_simpl. repeat split; auto; apply Hdaily.
  - destruct Hsame as (Hs1 & Hs2 & Hs3 & Hs4 & Hs5 & Hs6 & Hs7 & Hs8 & Hs9 & Hs10 & _ & _ & Hs13).
    rewrite Hs1, Hs2, Hs5, Hs6, Hs8, Hs9, Hs10, (Hs13 Hadmin).
    repeat split; auto; apply Hdaily.
  - rewrite Hreg. repeat split; auto; apply Hdaily.
  - rewrite Hreg. repeat split; auto; apply Hdaily.
Qed.

Lemma reachable_ledger_consistent w : reachable w -> ledger_consistent w.
Proof.
  induction 1 as [e p w Hdeploy | e c w _ IH].
  - apply deploy_initial in Hdeploy as (Hreg & _ & _). cbv zeta in Hreg.
    destruct Hreg as (Ha & Hne & Hst & _ & Hc & Ht & _ & _ & _ & Hu & Hn & _ & Hd & Hp & _).
    unfold ledger_consistent, getUserRequests, getUserRequestCount, isAttestationProcessed.
    rewrite Ha, Hst, Hc, Ht, Hu, Hn, Hd, Hp. unfold mapping_get.
    repeat split; auto; intros; rewrite ?lookup_empty; cbn;
      unfold VerificationLibrary.MAX_DAILY_REQUESTS; lia.
  - destruct (step_effect e c w) as [-> | Heffect]; [auto|].
    eapply ledger_consistent_effect; eauto.
Qed.

End Ledger.

(* ===================================================================== *)
(** ** Invariants of the registry *)
(* ===================================================================== *)

Section LedgerProperties.
Context `{EVMBuiltins}.
Import Storage VeriAISolana System.

(** X1. In every state that the deployed system can reach, the counters
    of the registry agree with what it has on file: the total of
    [getContractStats] is the request counter, the list that
    [getUserRequests] returns for a user is as long as
    [getUserRequestCount] says, and the reentrancy guard is released. *)
Theorem ledger_counters_agree (w : World) (user : Z) :
  reachable w ->
  let s := registry w in
  fst (fst (getContractStats s)) = _requestCounter s /\
  Z.of_nat (length (getUserRequests user s)) = getUserRequestCount user s /\
  _status s = _NOT_ENTERED.
Proof.
  intros Hreach. apply reachable_ledger_consistent in Hreach.
  destruct Hreach as (_ & Hstatus & Htotal & Hlists & _). cbv zeta.
  unfold getContractStats. cbn [fst]. auto.
Qed.

(** X2. No account is ever charged more than [MAX_DAILY_REQUESTS]
    submissions on one day of the registry's calendar: the count is at
    most 100 in every reachable state, an accepted submission adds one to
    the count of its requester for the current day, and when that count
    is 100 the submission reverts. *)
Theorem daily_request_cap (w : World) :
  reachable w ->
  (forall user day,
     0 <= mapping_get 0 (_dailyRequestCount (registry w)) (user, day)
       <= VerificationLibrary.MAX_DAILY_REQUESTS) /\
  (forall e c user day,
     requester_of c w = Some user ->
     VerificationLibrary.timestampToDay (block_timestamp e) (DEPLOYMENT_TIME (registry w))
       = Ok day ->
     (forall w', exec e c w = Ok (tt, w') ->
        mapping_get 0 (_dailyRequestCount (registry w')) (user, day) =
        mapping_get 0 (_dailyRequestCount (registry w)) (user, day) + 1) /\
     (mapping_get 0 (_dailyRequestCount (registry w)) (user, day)
        = VerificationLibrary.MAX_DAILY_REQUESTS ->
      exists err, exec e c w = Err err)).
Proof.
  intros Hreach. apply reachable_ledger_consistent in Hreach.
  destruct Hreach as (_ & _ & _ & _ & Hdaily & _). split; [exact Hdaily|].
  intros e c user day Hreq Hday.
  assert (Hok : forall w', exec e c w = Ok (tt, w') ->
            mapping_get 0 (_dailyRequestCount (registry w)) (user, day)
              < VerificationLibrary.MAX_DAILY_REQUESTS /\
            mapping_get 0 (_dailyRequestCount (registry w')) (user, day) =
            mapping_get 0 (_dailyRequestCount (registry w)) (user, day) + 1).
  { intros w' Hexec.
    destruct (exec_request_ok _ _ _ _ _ Hreq Hexec) as (p & m & rid & Hadm).
    apply admission_ok in Hadm as (fee & day' & att & rel & Hok).
    destruct Hok as (_ & _ & _ & _ & Hday' & Hlimit & _ & _ & ->).
    rewrite Hday in Hday'. injection Hday' as <-.
    split; [exact Hlimit|].
    unfold accepted_registry. st_simpl. apply mapping_get_insert_eq. }
  split.
  - intros w' Hexec. apply (Hok w' Hexec).
  - intros Hfull. destruct (exec e c w) as [[[] w']|err] eqn:Hexec; [|eauto].
    destruct (Hok w' eq_refl) as [Hlt _]. lia.
Qed.

(** X3. The registry never records an attestation as processed: in
    every reachable state [isAttestationProcessed] is false for every
    attestation, the fulfilled ones included. *)
Theorem registry_records_no_attestation (w : World) (attestationId : Z) :
  reachable w ->
  isAttestationProcessed attestationId (registry w) = false.
Proof.
  intros Hreach. apply reachable_ledger_consistent in Hreach.
  destruct Hreach as (_ & _ & _ & _ & _ & Hprocessed). apply Hprocessed.
Qed.

Lemma admin_effect w w' :
  effect w w' -> _admin (registry w) <> 0 -> _admin (registry w') = _admin (registry w).
Proof.
  intros Heffect Hadmin.
  destruct Heffect as [e r p m rid _ _ Hadm | e rid out att prf Hful | e rid reason Hfail
                      | Hsame Hnft Hrel | Hreg _ _ | Hreg _ _].
  - apply admission_ok in Hadm as (fee & day & att & rel & Hok).
    destruct Hok as (_ & _ & _ & _ & _ & _ & _ & _ & ->). reflexivity.
  - apply fulfillVerification_ok in Hful as (_ & _ & _ & _ & _ & tokenId & n & _ & ->).
    reflexivity.
  - apply markVerificationFailed_ok in Hfail as (_ & _ & ->). reflexivity.
  - apply Hsame, Hadmin.
  - by rewrite Hreg.
  - by rewrite Hreg.
Qed.

(** X4. The admin of the registry is set once, by the constructor: in a
    reachable state it is not the zero address, [initialize] reverts with
    "Already initialized" whatever its argument, and no sequence of
    transactions changes the admin against which every role is checked. *)
Theorem registry_admin_is_fixed (w : World) :
  reachable w ->
  _admin (registry w) <> 0 /\
  (forall admin, initialize admin w = Err (Revert "Already initialized")) /\
  (forall txs, msgSender (registry (run txs w)) = msgSender (registry w)).
Proof.
  intros Hreach. pose proof (reachable_ledger_consistent _ Hreach) as (Hadmin & _).
  split; [exact Hadmin|]. split.
  - intros admin. unfold initialize. tx_unfold.
    apply Z.eqb_neq in Hadmin. rewrite Hadmin. reflexivity.
  - intros txs. unfold msgSender. revert w Hreach Hadmin.
    induction txs as [|[e c] txs IH]; intros w Hreach Hadmin; cbn [run]; [reflexivity|].
    assert (Hstep : _admin (registry (step e c w)) = _admin (registry w)).
    { destruct (step_effect e c w) as [-> | Heffect]; [reflexivity|].
      by apply admin_effect. }
    rewrite IH; [exact Hstep | by apply reachable_step | by rewrite Hstep].
Qed.

End LedgerProperties.

(* ===================================================================== *)
(** ** Certificates and request records *)
(* ===================================================================== *)

Section Tokens.
Context `{EVMBuiltins}.
Import System.

(** Everything a successful mint has checked and written. *)
Lemma mintVerificationNFT_inv recipient metadata n tokenId n' :
  NFT.mintVerificationNFT recipient metadata n = Ok (tokenId, n') ->
  (NFT.hasRole NFT.MINTER_ROLE (NFT.msgSender n) n = true /\
   recipient <> 0 /\
   NFT._validateMetadata metadata = Ok tt /\
   NFT._exists tokenId n = false /\
   tokenId + 1 < UINT256_MOD /\
   mapping_get 0 (NFT._balances n) recipient + 1 < UINT256_MOD) /\
  tokenId = NFT._tokenIdCounter n /\
  NFT._tokenIdCounter n' = tokenId + 1 /\
  NFT._owners n' = <[tokenId := recipient]> (NFT._owners n) /\
  NFT._balances n' =
    <[recipient := mapping_get 0 (NFT._balances n) recipient + 1]> (NFT._balances n) /\
  NFT._tokenMetadata n' = <[tokenId := metadata]> (NFT._tokenMetadata n) /\
  NFT._tokenURIs n' =
    <[tokenId := NFT._generateTokenURI metadata n]> (NFT._tokenURIs n) /\
  NFT._tokensByOwner n' =
    <[recipient := (NFT.getTokensByOwner recipient n ++ [tokenId])%list]>
      (NFT._tokensByOwner n) /\
  NFT._tokensByModel n' =
    <[NFT.model metadata :=
        (NFT.getTokensByModel (NFT.model metadata) n ++ [tokenId])%list]>
      (NFT._tokensByModel n) /\
  NFT._roles n' = NFT._roles n /\ NFT._admin n' = NFT._admin n /\
  NFT._baseTokenURI n' = NFT._baseTokenURI n /\
  NFT._name n' = NFT._name n /\ NFT._symbol n' = NFT._symbol n.
Proof.
  unfold NFT.mintVerificationNFT, NFT.onlyRole, NFT._mint, NFT._setTokenURI,
    NFT.getTokensByOwner, NFT.getTokensByModel.
  tx_unfold. intros Hmint. tx_inv Hmint.
  injection Hmint as <- <-. st_simpl.
  repeat match goal with
  | Hadd : uint256_add _ 1 = Ok _ |- _ => apply uint256_add_ok in Hadd as [-> ?]
  | Hex : negb (NFT._exists (NFT._tokenIdCounter n) _) = true |- _ =>
      apply negb_true_iff in Hex; unfold NFT._exists in Hex |- *; st_simpl
  | Hr : negb (recipient =? 0) = true |- _ => apply negb_true_iff, Z.eqb_neq in Hr
  | Hv : NFT._validateMetadata _ = Ok ?u |- _ => is_var u; destruct u
  end.
  unfold NFT._generateTokenURI. st_simpl.
  repeat split; auto.
Qed.

Lemma exists_owner tokenId n :
  NFT._exists tokenId n = true <-> mapping_get 0 (NFT._owners n) tokenId <> 0.
Proof.
  unfold NFT._exists. rewrite negb_true_iff, Z.eqb_neq. reflexivity.
Qed.

(** A mint leaves the tokens that exist as they are. *)
Lemma mint_keeps_tokens recipient metadata n tokenId n' t :
  NFT.mintVerificationNFT recipient metadata n = Ok (tokenId, n') ->
  NFT._exists t n = true ->
  t <> tokenId /\
  mapping_get 0 (NFT._owners n') t = mapping_get 0 (NFT._owners n) t /\
  mapping_get NFT.zero_metadata (NFT._tokenMetadata n') t =
    mapping_get NFT.zero_metadata (NFT._tokenMetadata n) t /\
  mapping_get "" (NFT._tokenURIs n') t = mapping_get "" (NFT._tokenURIs n) t.
Proof.
  intros Hmint Hex. apply mintVerificationNFT_inv in Hmint.
  destruct Hmint as ((_ & _ & _ & Hfresh & _) & _ & _ & Ho & _ & Hm & Hu & _).
  assert (Hne : tokenId <> t) by (intros ->; congruence).
  rewrite Ho, Hm, Hu, !mapping_get_insert_ne by exact Hne. auto.
Qed.

Lemma tokens_consistent_mint recipient metadata n tokenId n' :
  NFT.mintVerificationNFT recipient metadata n = Ok (tokenId, n') ->
  tokens_consistent n -> tokens_consistent n'.
Proof.
  intros Hmint (Hadmin & Hpos & Hdense & Hlists & Hbound). apply mintVerificationNFT_inv in Hmint.
  destruct Hmint as ((_ & Hrec & _ & Hfresh & _) & -> & Hc & Ho & Hb & _ & _ & Ht & _ & _ & Ha & _).
  unfold tokens_consistent, NFT.totalSupply, NFT.getTokensByOwner in *.
  rewrite Hc, Ha, Hb, Ht.
  split; [exact Hadmin|]. split; [lia|]. split; [|split].
  - intros t. rewrite exists_owner, Ho.
    destruct (decide (NFT._tokenIdCounter n = t)) as [<-|Hne].
    + rewrite mapping_get_insert_eq. split; [lia | auto].
    + rewrite mapping_get_insert_ne by exact Hne.
      rewrite <- exists_owner, Hdense. lia.
  - intros owner. destruct (decide (recipient = owner)) as [<-|Hne].
    + rewrite !mapping_get_insert_eq, length_app, <- Hlists. cbn. lia.
    + rewrite !mapping_get_insert_ne by exact Hne. apply Hlists.
  - intros owner. destruct (decide (recipient = owner)) as [<-|Hne].
    + rewrite mapping_get_insert_eq. specialize (Hbound recipient). lia.
    + rewrite mapping_get_insert_ne by exact Hne. specialize (Hbound owner). lia.
Qed.

Lemma tokens_consistent_kept n n' :
  same_tokens n n' -> tokens_consistent n -> tokens_consistent n'.
Proof.
  intros (Hc & Ho & Hb & _ & Ht & _ & Ha) (Hadmin & Hpos & Hdense & Hlists & Hbound).
  unfold tokens_consistent, NFT.totalSupply, NFT.getTokensByOwner, NFT._exists in *.
  rewrite Hc, Ho, Hb, Ht, (Ha Hadmin). auto.
Qed.

Lemma nft_effect w w' :
  effect w w' -> nft_change (nft w) (nft w').
Proof.
  intros Heffect.
  destruct Heffect as [e r p m rid _ _ Hadm | e rid out att prf Hful | e rid reason Hfail
                      | Hsame Hnft Hrel | Hreg _ Hchange | Hreg Hnft _].
  - apply admission_ok in Hadm as (fee & day & att & rel & Hok).
    destruct Hok as (_ & _ & _ & _ & _ & _ & _ & _ & ->).
    apply nft_kept, same_tokens_refl.
  - apply fulfillVerification_ok in Hful as (_ & _ & _ & _ & _ & tokenId & n & Hmint & ->).
    eapply nft_minted. exact Hmint.
  - apply markVerificationFailed_ok in Hfail as (_ & _ & ->).
    apply nft_kept, same_tokens_refl.
  - rewrite Hnft. apply nft_kept, same_tokens_refl.
  - exact Hchange.
  - rewrite Hnft. apply nft_kept, same_tokens_refl.
Qed.

Lemma tokens_consistent_change n n' :
  nft_change n n' -> tokens_consistent n -> tokens_consistent n'.
Proof.
  intros [recipient metadata tokenId Hmint | Hsame].
  - eapply tokens_consistent_mint; eauto.
  - by apply tokens_consistent_kept.
Qed.

Lemma reachable_tokens_consistent w : reachable w -> tokens_consistent (nft w).
Proof.
  induction 1 as [e p w Hdeploy | e c w _ IH].
  - apply deploy_initial in Hdeploy as (_ & Hnft & _).
    destruct Hnft as (Ha & Hne & Hc & Ho & Hb & _ & Ht & _).
    unfold tokens_consistent, NFT.totalSupply, NFT.getTokensByOwner, NFT._exists.
    rewrite Ha, Hc, Ho, Hb, Ht. unfold mapping_get.
    split; [exact Hne|]. split; [lia|]. split; [|split].
    + intros t. rewrite lookup_empty. cbn. split; [discriminate | lia].
    + intros owner. rewrite !lookup_empty. reflexivity.
    + intros owner. rewrite lookup_empty. cbn. lia.
  - destruct (step_effect e c w) as [-> | Heffect]; [auto|].
    eapply tokens_consistent_change; eauto using nft_effect.
Qed.

(** What a call can do to a token that exists: nothing, but to its URI. *)
Lemma token_kept_change n n' t :
  nft_change n n' -> NFT._exists t n = true ->
  mapping_get 0 (NFT._owners n') t = mapping_get 0 (NFT._owners n) t /\
  mapping_get NFT.zero_metadata (NFT._tokenMetadata n') t =
    mapping_get NFT.zero_metadata (NFT._tokenMetadata n) t.
Proof.
  intros [recipient metadata tokenId Hmint | Hsame] Hex.
  - destruct (mint_keeps_tokens _ _ _ _ _ _ Hmint Hex) as (_ & Ho & Hm & _). auto.
  - destruct Hsame as (_ & Ho & _ & Hm & _). rewrite Ho, Hm. auto.
Qed.

End Tokens.

Section Records.
Context `{EVMBuiltins}.
Import Storage VeriAISolana System.

Lemma validateVerificationInput_ok prompt model :
  VerificationLibrary.validateVerificationInput prompt model = Ok tt <->
  0 < VerificationLibrary.bytes_length prompt <= VerificationLibrary.MAX_PROMPT_LENGTH /\
  0 < VerificationLibrary.bytes_length model <= VerificationLibrary.MAX_MODEL_LENGTH.
Proof.
  unfold VerificationLibrary.validateVerificationInput. tx_unfold.
  destruct (0 <? VerificationLibrary.bytes_length prompt) eqn:E1;
  destruct (VerificationLibrary.bytes_length prompt <=? VerificationLibrary.MAX_PROMPT_LENGTH) eqn:E2;
  destruct (0 <? VerificationLibrary.bytes_length model) eqn:E3;
  destruct (VerificationLibrary.bytes_length model <=? VerificationLibrary.MAX_MODEL_LENGTH) eqn:E4;
  cbn [andb];
  rewrite ?Z.ltb_lt, ?Z.ltb_ge, ?Z.leb_le, ?Z.leb_gt in *;
  (split; [try discriminate; intros; lia | intros; try reflexivity; lia]).
Qed.

Lemma zero_request_wellformed : request_wellformed zero_request.
Proof.
  unfold request_wellformed. cbn. repeat split; auto; discriminate.
Qed.

Lemma requests_wellformed_effect w w' :
  effect w w' -> _admin (registry w) <> 0 -> requests_wellformed w -> requests_wellformed w'.
Proof.
  intros Heffect Hadmin Hwf requestId. unfold getVerificationRequest.
  destruct Heffect as [e r p m rid _ Hr Hadm | e rid out att prf Hful | e rid reason Hfail
                      | Hsame Hnft Hrel | Hreg _ _ | Hreg _ _].
  - assert (Hne0 : r <> 0) by (destruct Hr; congruence).
    apply admission_ok in Hadm as (fee & day & att & rel & Hok).
    destruct Hok as (Hvalid & _ & _ & _ & _ & _ & _ & _ & ->).
    apply validateVerificationInput_ok in Hvalid as [Hp Hm].
    unfold accepted_registry. st_simpl.
    destruct (decide (rid = requestId)) as [<-|Hne].
    + rewrite mapping_get_insert_eq. unfold request_wellformed, request_filed, new_request.
      st_simpl. pose proof (to_uint64_bound (block_timestamp e)).
      repeat split; auto; try discriminate; lia.
    + rewrite mapping_get_insert_ne, lookup_insert_ne by exact Hne. apply Hwf.
  - apply fulfillVerification_ok in Hful as (Hreq & Hpending & _ & _ & _ & tokenId & n & _ & ->).
    st_simpl. destruct (decide (rid = requestId)) as [<-|Hne].
    + rewrite mapping_get_insert_eq.
      destruct (Hwf rid) as [_ Hfiled].
      specialize (Hfiled (stored_request_is_some _ _ Hreq)).
      unfold request_wellformed, request_filed, fulfilled_request in *. st_simpl.
      split; [|intros _; exact Hfiled].
      repeat split; auto; try discriminate. intros []. reflexivity.
    + rewrite mapping_get_insert_ne, lookup_insert_ne by exact Hne. apply Hwf.
  - apply markVerificationFailed_ok in Hfail as (Hreq & Hpending & ->).
    st_simpl. destruct (decide (rid = requestId)) as [<-|Hne].
    + rewrite mapping_get_insert_eq.
      destruct (Hwf rid) as [(_ & Hminted & Hhash) Hfiled].
      specialize (Hfiled (stored_request_is_some _ _ Hreq)).
      unfold getVerificationRequest in *.
      unfold request_wellformed, request_filed in *. st_simpl.
      split; [|intros _; exact Hfiled].
      split; [discriminate|]. split.
      * split; [|discriminate]. intros Hm. apply Hminted in Hm. congruence.
      * intros _. apply Hhash. congruence.
    + rewrite mapping_get_insert_ne, lookup_insert_ne by exact Hne. apply Hwf.
  - destruct Hsame as (_ & _ & _ & -> & _). apply Hwf.
  - rewrite Hreg. apply Hwf.
  - rewrite Hreg. apply Hwf.
Qed.

Lemma reachable_requests_wellformed w : reachable w -> requests_wellformed w.
Proof.
  induction 1 as [e p w Hdeploy | e c w Hreach IH].
  - apply deploy_initial in Hdeploy as (Hreg & _ & _). cbv zeta in Hreg.
    destruct Hreg as (_ & _ & _ & _ & _ & _ & _ & _ & Hr & _).
    intros requestId. unfold getVerificationRequest, mapping_get.
    rewrite Hr, lookup_empty. cbn [default]. split; [apply zero_request_wellformed|].
    intros [x Hx]. discriminate.
  - destruct (step_effect e c w) as [-> | Heffect]; [auto|].
    eapply requests_wellformed_effect; eauto.
    apply reachable_ledger_consistent in Hreach. apply Hreach.
Qed.

End Records.

Section RecordProperties.
Context `{EVMBuiltins}.
Import Storage VeriAISolana System.

(** X5. The request records of a reachable registry are well formed. No
    request is ever [Expired]; [nftMinted] is set exactly on the
    [Verified] requests; the output hash of a request that is not
    [Verified] is zero; and a record is on file exactly when its
    requester is not the zero address, in which case its prompt has 1 to
    2000 bytes, its model 1 to 50, and its timestamp fits 64 bits. *)
Theorem request_records_wellformed (w : World) (requestId : Z) :
  reachable w ->
  let request := getVerificationRequest requestId (registry w) in
  status request <> Expired /\
  (nftMinted request = true <-> status request = Verified) /\
  (status request <> Verified -> outputHash request = 0) /\
  (is_Some (_requests (registry w) !! requestId) <-> requester request <> 0) /\
  (requester request <> 0 ->
   0 < VerificationLibrary.bytes_length (prompt request)
     <= VerificationLibrary.MAX_PROMPT_LENGTH /\
   0 < VerificationLibrary.bytes_length (model request)
     <= VerificationLibrary.MAX_MODEL_LENGTH /\
   0 <= timestamp request < UINT64_MOD).
Proof.
  intros Hreach. apply reachable_requests_wellformed in Hreach.
  destruct (Hreach requestId) as [(Hexp & Hminted & Hhash) Hfiled]. cbv zeta.
  repeat split; try tauto.
  - intros Hsome. apply Hfiled, Hsome.
  - apply stored_request_is_some.
  - apply Hfiled, stored_request_is_some; assumption.
  - apply Hfiled, stored_request_is_some; assumption.
  - apply Hfiled, stored_request_is_some; assumption.
  - apply Hfiled, stored_request_is_some; assumption.
  - apply Hfiled, stored_request_is_some; assumption.
  - apply Hfiled, stored_request_is_some; assumption.
Qed.

Section CollisionFree.
Hypothesis keccak256_inj : forall a b : string, keccak256 a = keccak256 b -> a = b.

Lemma settled_record_change requestId w w' :
  requests_change w w' -> ids_issued w -> settled requestId w ->
  getVerificationRequest requestId (registry w') =
  getVerificationRequest requestId (registry w).
Proof.
  intros Hchange [Hpos Hids] [Hstored Hstatus]. unfold getVerificationRequest.
  destruct Hchange as [Hreq Hcnt | r p m t request Hlt Hreq Hcnt
                      | requestId' request _ Hpending Hreq _ _ Hcnt];
    rewrite Hreq.
  - reflexivity.
  - rewrite mapping_get_insert_ne; [reflexivity|]. intros <-.
    destruct (Hids _ (stored_request_is_some _ _ Hstored))
      as (r0 & p0 & m0 & t0 & n & Heq & Hn).
    apply (generateRequestId_nonce keccak256_inj) in Heq; lia.
  - rewrite mapping_get_insert_ne; [reflexivity|]. intros <-. contradiction.
Qed.

Lemma settled_record_run txs requestId w :
  ids_issued w -> settled requestId w ->
  getVerificationRequest requestId (registry (run txs w)) =
  getVerificationRequest requestId (registry w).
Proof.
  revert w.
  induction txs as [|[e c] txs IH]; intros w Hids Hsettled; cbn [run]; [reflexivity|].
  destruct (step_requests_change e c w) as [-> | Hchange]; [auto|].
  rewrite IH.
  - eapply settled_record_change; eauto.
  - eapply ids_issued_change; eauto.
  - eapply (settled_change keccak256_inj); eauto.
Qed.

(** X7. A request that has left [Pending] is final, the digest being
    collision-free: whatever transactions follow in a reachable state,
    [getVerificationRequest] returns the same record, so neither a later
    submission nor a later settlement touches its status, its output
    hash or its attestation. *)
Theorem settled_request_is_final (w : World) (requestId : Z) (txs : list (Env * call)) :
  reachable w ->
  requester (getVerificationRequest requestId (registry w)) <> 0 ->
  status (getVerificationRequest requestId (registry w)) <> Pending ->
  getVerificationRequest requestId (registry (run txs w)) =
  getVerificationRequest requestId (registry w).
Proof.
  intros Hreach Hstored Hstatus.
  apply settled_record_run; [by apply reachable_ids_issued | split; assumption].
Qed.

(** X8. An accepted submission never takes the place of a request on
    file, the digest being collision-free: in a reachable state the
    identifier that [requestVerification] returns is the one generated
    from the stored admin, the prompt, the model, the block time and the
    request counter, it was unused before, and afterwards the record
    under it is on file with the prompt and the model as submitted. *)
Theorem submission_files_a_new_request
    (w : World) (e : Env) (prompt model : string) (requestId : Z) (w' : World) :
  reachable w ->
  requestVerification e prompt model w = Ok (requestId, w') ->
  requestId = VerificationLibrary.generateRequestId (msgSender (registry w)) prompt model
                (block_timestamp e) (_requestCounter (registry w)) /\
  _requests (registry w) !! requestId = None /\
  is_Some (_requests (registry w') !! requestId) /\
  Storage.prompt (getVerificationRequest requestId (registry w')) = prompt /\
  Storage.model (getVerificationRequest requestId (registry w')) = model.
Proof.
  intros Hreach Hreq. rewrite requestVerification_eq in Hreq. cbv zeta in Hreq.
  destruct (negb _); [|discriminate]. destruct (negb _); [|discriminate].
  apply admission_ok in Hreq as (fee & day & att & rel & Hok).
  destruct Hok as (_ & _ & _ & _ & _ & _ & Hcounter & -> & ->).
  apply reachable_ids_issued in Hreach as [Hpos Hids].
  unfold getVerificationRequest, accepted_registry. st_simpl.
  split; [reflexivity|]. split; [|split; [|split]].
  - destruct (_requests (registry w) !! _) eqn:Hlookup; [|reflexivity].
    destruct (Hids _ (mk_is_Some _ _ Hlookup)) as (r0 & p0 & m0 & t0 & n & Heq & Hn).
    apply (generateRequestId_nonce keccak256_inj) in Heq; lia.
  - rewrite lookup_insert_eq. eauto.
  - rewrite mapping_get_insert_eq. reflexivity.
  - rewrite mapping_get_insert_eq. reflexivity.
Qed.

End CollisionFree.

End RecordProperties.

Section TokenProperties.
Context `{EVMBuiltins}.
Import System.

(** X9. What was minted can be read back. A successful
    [mintVerificationNFT] takes the next token number, which no token
    had; afterwards [ownerOf] gives the recipient, [getVerificationMetadata]
    the metadata as given, [tokenURI] the generated URI, the supply and
    the balance of the recipient have grown by one, and the token is the
    last of the recipient's list and of the list of its model. *)
Theorem mint_read_back
    (recipient : Z) (metadata : NFT.VerificationMetadata) (n : NFT.State)
    (tokenId : Z) (n' : NFT.State) :
  NFT.mintVerificationNFT recipient metadata n = Ok (tokenId, n') ->
  tokenId = NFT.totalSupply n /\
  NFT.ownerOf tokenId n = Err (CustomError "TokenNotFound") /\
  NFT.totalSupply n' = NFT.totalSupply n + 1 /\
  NFT.ownerOf tokenId n' = Ok recipient /\
  NFT.getVerificationMetadata tokenId n' = Ok metadata /\
  NFT.tokenURI tokenId n' = Ok (NFT._generateTokenURI metadata n) /\
  (forall b, NFT.balanceOf recipient n = Ok b -> NFT.balanceOf recipient n' = Ok (b + 1)) /\
  NFT.getTokensByOwner recipient n' = (NFT.getTokensByOwner recipient n ++ [tokenId])%list /\
  NFT.getTokensByModel (NFT.model metadata) n' =
    (NFT.getTokensByModel (NFT.model metadata) n ++ [tokenId])%list.
Proof.
  intros Hmint. apply mintVerificationNFT_inv in Hmint.
  destruct Hmint as ((_ & Hrec & _ & Hfresh & _) & Hid & Hc & Ho & Hb & Hm & Hu & Ht & Hmod & _).
  unfold NFT.totalSupply, NFT.ownerOf, NFT.getVerificationMetadata, NFT.tokenURI,
    NFT.balanceOf, NFT.getTokensByOwner, NFT.getTokensByModel, NFT._exists in *.
  rewrite Hc, Ho, Hb, Hm, Hu, Ht, Hmod, !mapping_get_insert_eq.
  apply negb_false_iff in Hfresh. rewrite Hfresh.
  apply Z.eqb_neq in Hrec. rewrite Hrec. cbn [negb].
  repeat split; auto; try lia.
  tx_unfold. cbn [negb]. intros b [= <-]. reflexivity.
Qed.

Lemma token_kept_run txs w t :
  NFT._exists t (nft w) = true ->
  mapping_get 0 (NFT._owners (nft (run txs w))) t = mapping_get 0 (NFT._owners (nft w)) t /\
  mapping_get NFT.zero_metadata (NFT._tokenMetadata (nft (run txs w))) t =
    mapping_get NFT.zero_metadata (NFT._tokenMetadata (nft w)) t.
Proof.
  revert w. induction txs as [|[e c] txs IH]; intros w Hex; cbn [run]; [auto|].
  assert (Hstep : mapping_get 0 (NFT._owners (nft (step e c w))) t =
                    mapping_get 0 (NFT._owners (nft w)) t /\
                  mapping_get NFT.zero_metadata (NFT._tokenMetadata (nft (step e c w))) t =
                    mapping_get NFT.zero_metadata (NFT._tokenMetadata (nft w)) t).
  { destruct (step_effect e c w) as [-> | Heffect]; [auto|].
    apply token_kept_change; [by apply nft_effect | exact Hex]. }
  destruct Hstep as [Ho Hm].
  destruct (IH (step e c w)) as [Ho' Hm'].
  - apply exists_owner. rewrite Ho. by apply exists_owner.
  - rewrite Ho', Hm'. auto.
Qed.

(** X10. Certificates are soulbound and permanent. Whatever
    transactions are sent to the three contracts, a token that exists
    keeps its owner and its verification metadata: no entry point
    transfers, burns or rewrites a certificate. *)
Theorem certificates_are_soulbound (w : World) (tokenId : Z) (txs : list (Env * call)) :
  NFT._exists tokenId (nft w) = true ->
  NFT.ownerOf tokenId (nft (run txs w)) = NFT.ownerOf tokenId (nft w) /\
  NFT.getVerificationMetadata tokenId (nft (run txs w)) =
    NFT.getVerificationMetadata tokenId (nft w).
Proof.
  intros Hex. destruct (token_kept_run txs w tokenId Hex) as [Ho Hm].
  unfold NFT.ownerOf, NFT.getVerificationMetadata, NFT._exists. rewrite Ho, Hm. auto.
Qed.

(** X6. A fulfilment issues a certificate that lasts. Let the registry
    point to the relayer and to the certificate contract, and let
    [fulfillVerification] succeed. Then the request is [Verified] and,
    whatever transactions follow, the certificate contract holds the
    token numbered by the supply at the fulfilment: [ownerOf] gives it
    to the requester, and its metadata carries the request identifier,
    the prompt, the model and the timestamp of the request, the 32 bytes
    of its output hash, and the [verified] flag. *)
Theorem fulfilment_issues_a_lasting_certificate
    (w : World) (e : Env) (requestId : Z) (output : string) (attestationId : Z)
    (proof : string) (w1 : World) (txs : list (Env * call)) :
  Storage._oracleRelayer (registry w) = relayer_address w ->
  Storage._nftContract (registry w) = nft_address w ->
  VeriAISolana.fulfillVerification e requestId output attestationId proof w = Ok (tt, w1) ->
  let request := VeriAISolana.getVerificationRequest requestId (registry w1) in
  let tokenId := NFT.totalSupply (nft w) in
  Storage.status request = Storage.Verified /\
  NFT.ownerOf tokenId (nft (run txs w1)) = Ok (Storage.requester request) /\
  exists metadata,
    NFT.getVerificationMetadata tokenId (nft (run txs w1)) = Ok metadata /\
    NFT.requestId metadata = requestId /\
    NFT.prompt metadata = Storage.prompt request /\
    NFT.model metadata = Storage.model request /\
    NFT.outputHash metadata = abi_encodePacked [ABytes32 (Storage.outputHash request)] /\
    NFT.timestamp metadata = Storage.timestamp request /\
    NFT.verified metadata = true.
Proof.
  intros _ _ Hful. cbv zeta.
  apply fulfillVerification_ok in Hful
    as (Hreq & _ & _ & _ & _ & tokenId & n & Hmint & ->).
  apply mintVerificationNFT_inv in Hmint.
  destruct Hmint as (_ & -> & _ & Ho & _ & Hm & _).
  unfold VeriAISolana.getVerificationRequest in *. st_simpl.
  rewrite mapping_get_insert_eq. unfold NFT.totalSupply.
  set (w1 := set_nft n _).
  assert (Howner : mapping_get 0 (NFT._owners (nft w1)) (NFT._tokenIdCounter (nft w)) =
                   Storage.requester
                     (mapping_get Storage.zero_request (Storage._requests (registry w))
                        requestId)).
  { subst w1. st_simpl. rewrite Ho. apply mapping_get_insert_eq. }
  assert (Hmeta : mapping_get NFT.zero_metadata (NFT._tokenMetadata (nft w1))
                    (NFT._tokenIdCounter (nft w)) =
                  certificate_of (registry w) requestId output proof).
  { subst w1. st_simpl. rewrite Hm. apply mapping_get_insert_eq. }
  assert (Hex : NFT._exists (NFT._tokenIdCounter (nft w)) (nft w1) = true).
  { apply exists_owner. rewrite Howner. exact Hreq. }
  destruct (token_kept_run txs w1 _ Hex) as [Ho' Hm'].
  assert (Hex' : NFT._exists (NFT._tokenIdCounter (nft w)) (nft (run txs w1)) = true).
  { apply exists_owner. rewrite Ho', Howner. exact Hreq. }
  unfold NFT.ownerOf, NFT.getVerificationMetadata. rewrite Hex', Ho', Hm', Howner, Hmeta.
  pose proof Hreq as Hreqb. apply Z.eqb_neq in Hreqb. rewrite Hreqb.
  unfold certificate_of, fulfilled_request. st_simpl.
  split; [reflexivity|]. split; [reflexivity|].
  eexists. split; [reflexivity|]. st_simpl.
  split; [reflexivity|]. split; [reflexivity|]. split; [reflexivity|].
  split; [reflexivity|]. split; reflexivity.
Qed.

(** X11. The tokens of a reachable certificate contract are numbered
    from 0 to [totalSupply] - 1 without a gap: [ownerOf] answers exactly
    for these numbers; and the list that [getTokensByOwner] keeps for an
    owner is as long as [balanceOf] says. *)
Theorem token_ids_are_dense (w : World) (tokenId owner : Z) :
  reachable w ->
  (is_ok (NFT.ownerOf tokenId (nft w)) = true <->
   0 <= tokenId < NFT.totalSupply (nft w)) /\
  (owner <> 0 ->
   NFT.balanceOf owner (nft w) =
   Ok (Z.of_nat (length (NFT.getTokensByOwner owner (nft w))))).
Proof.
  intros Hreach. apply reachable_tokens_consistent in Hreach.
  destruct Hreach as (_ & _ & Hdense & Hlists & _). split.
  - rewrite <- Hdense. unfold NFT.ownerOf, NFT._exists.
    destruct (mapping_get 0 (NFT._owners (nft w)) tokenId =? 0); cbn; split; congruence.
  - intros Hne. unfold NFT.balanceOf. tx_unfold. apply Z.eqb_neq in Hne. rewrite Hne.
    cbn [negb]. rewrite Hlists. reflexivity.
Qed.

End TokenProperties.

(* ===================================================================== *)
(** ** The oracle relayer *)
(* ===================================================================== *)

Section Attestations.
Context `{EVMBuiltins}.
Import System.

Lemma Ok_pair_inj {A B} (a a' : A) (b b' : B) :
  @Ok (A * B) (a, b) = Ok (a', b') -> a = a' /\ b = b'.
Proof. intros [= -> ->]. auto. Qed.

Lemma onlyAuthorized_eq e r :
  Relayer.onlyAuthorized e r =
  if authorized e r then Ok (tt, r) else Err (CustomError "UnauthorizedCaller").
Proof.
  unfold Relayer.onlyAuthorized, authorized. tx_unfold.
  destruct (mapping_get false _ _), (msg_sender e =? Relayer.owner r); reflexivity.
Qed.

(** Closed form of [requestAttestation]. *)
Lemma requestAttestation_eq e requestId verificationData r :
  Relayer.requestAttestation e requestId verificationData r =
  let attestationId :=
    keccak256 (abi_encodePacked
      [ABytes32 requestId; AAddress (msg_sender e); ABytes verificationData;
       AUint256 (block_timestamp e); AUint256 (block_number e)]) in
  if authorized e r then
    if Relayer.timestamp (Relayer.getAttestationRequest requestId r) =? 0 then
      if switchboard_requestData e then
        Ok (attestationId,
            Relayer.set_requests
              (<[requestId := {| Relayer.requester := msg_sender e;
                                 Relayer.data := verificationData;
                                 Relayer.timestamp := block_timestamp e;
                                 Relayer.fulfilled := false;
                                 Relayer.attestationId := attestationId |}]>
                 (Relayer.requests r)) r)
      else Err CallFailed
    else Err (CustomError "RequestAlreadyProcessed")
  else Err (CustomError "UnauthorizedCaller").
Proof.
  unfold Relayer.requestAttestation, Relayer.getAttestationRequest.
  change (Relayer.onlyAuthorized e) with (fun s => Relayer.onlyAuthorized e s).
  tx_unfold. rewrite onlyAuthorized_eq. cbv zeta.
  destruct (authorized e r); [|reflexivity]. st_simpl.
  destruct (_ =? 0); [|reflexivity].
  destruct (switchboard_requestData e); reflexivity.
Qed.

(** Closed form of [fulfillAttestation]. *)
Lemma fulfillAttestation_eq e requestId result proof r :
  Relayer.fulfillAttestation e requestId result proof r =
  let request := Relayer.getAttestationRequest requestId r in
  if authorized e r then
    if negb (Relayer.timestamp request =? 0) then
      if negb (Relayer.fulfilled request) then
        if 0 <? VerificationLibrary.bytes_length proof then
          Ok (tt,
              Relayer.set_processedAttestations
                (<[Relayer.attestationId request := true]> (Relayer.processedAttestations r))
                (Relayer.set_requests
                   (<[requestId := {| Relayer.requester := Relayer.requester request;
                                      Relayer.data := Relayer.data request;
                                      Relayer.timestamp := Relayer.timestamp request;
                                      Relayer.fulfilled := true;
                                      Relayer.attestationId :=
                                        Relayer.attestationId request |}]>
                      (Relayer.requests r)) r))
        else Err (Revert "Invalid proof")
      else Err (CustomError "RequestAlreadyProcessed")
    else Err (CustomError "InvalidRequest")
  else Err (CustomError "UnauthorizedCaller").
Proof.
  unfold Relayer.fulfillAttestation, Relayer.getAttestationRequest.
  change (Relayer.onlyAuthorized e) with (fun s => Relayer.onlyAuthorized e s).
  tx_unfold. rewrite onlyAuthorized_eq. cbv zeta.
  destruct (authorized e r); [|reflexivity]. st_simpl.
  destruct (negb (_ =? 0)); [|reflexivity].
  destruct (negb (Relayer.fulfilled _)); [|reflexivity].
  destruct (0 <? _); reflexivity.
Qed.

Lemma attestation_kept_change r r' requestId :
  relayer_change r r' ->
  Relayer.owner r' = Relayer.owner r /\
  (attestation_requested requestId r -> attestation_kept requestId r r') /\
  (forall attestationId,
     Relayer.verifyAttestation attestationId r = true ->
     Relayer.verifyAttestation attestationId r' = true).
Proof.
  unfold attestation_requested, attestation_kept, Relayer.verifyAttestation.
  intros [e rid data att Hreq | e rid res proof Hful | Ho Hr Hp].
  - rewrite requestAttestation_eq in Hreq. cbv zeta in Hreq.
    destruct (authorized e r); [|discriminate].
    destruct (_ =? 0) eqn:Hfresh; [|discriminate]. apply Z.eqb_eq in Hfresh.
    destruct (switchboard_requestData e); [|discriminate].
    apply Ok_pair_inj in Hreq as [_ <-]. st_simpl. unfold Relayer.getAttestationRequest in *. st_simpl.
    split; [reflexivity|]. split; [|auto].
    intros Hts. rewrite mapping_get_insert_ne; [auto|]. intros ->. contradiction.
  - rewrite fulfillAttestation_eq in Hful. cbv zeta in Hful.
    destruct (authorized e r); [|discriminate].
    destruct (negb (_ =? 0)); [|discriminate].
    destruct (negb (Relayer.fulfilled _)); [|discriminate].
    destruct (0 <? _); [|discriminate].
    injection Hful as <-. unfold Relayer.getAttestationRequest in *. st_simpl.
    split; [reflexivity|]. split.
    + intros Hts. destruct (decide (rid = requestId)) as [<-|Hne].
      * rewrite mapping_get_insert_eq. st_simpl. auto.
      * rewrite mapping_get_insert_ne by exact Hne. auto.
    + intros attestationId Hv.
      destruct (decide (Relayer.attestationId
                          (mapping_get Relayer.zero_request (Relayer.requests r) rid)
                        = attestationId)) as [<-|Hne].
      * by rewrite mapping_get_insert_eq.
      * by rewrite mapping_get_insert_ne.
  - unfold Relayer.getAttestationRequest. rewrite Ho, Hr, Hp. repeat split; auto.
Qed.

Lemma admission_relayer e requester prompt model w requestId w' :
  admission e requester prompt model w = Ok (requestId, w') ->
  exists verificationData attestationId,
    Relayer.requestAttestation (VeriAISolana.inner_env e w) requestId verificationData
      (relayer w) = Ok (attestationId, relayer w').
Proof.
  intros Hadm. unfold admission in Hadm. tx_inv Hadm.
  injection Hadm as <- <-. st_simpl. eauto.
Qed.

Lemma relayer_effect w w' : effect w w' -> relayer_change (relayer w) (relayer w').
Proof.
  intros Heffect.
  destruct Heffect as [e r p m rid _ _ Hadm | e rid out att prf Hful | e rid reason Hfail
                      | Hsame Hnft Hrel | Hreg Hrel _ | Hreg Hnft Hchange].
  - apply admission_relayer in Hadm as (data & att & Hreq).
    eapply relayer_requested. exact Hreq.
  - apply fulfillVerification_ok in Hful as (_ & _ & _ & _ & _ & tokenId & n & _ & ->).
    apply relayer_kept; reflexivity.
  - apply markVerificationFailed_ok in Hfail as (_ & _ & ->).
    apply relayer_kept; reflexivity.
  - rewrite Hrel. apply relayer_kept; reflexivity.
  - rewrite Hrel. apply relayer_kept; reflexivity.
  - exact Hchange.
Qed.

Lemma attestation_kept_refl requestId r : attestation_kept requestId r r.
Proof. unfold attestation_kept. cbv zeta. auto. Qed.

Lemma attestation_kept_run txs w requestId :
  Relayer.owner (relayer (run txs w)) = Relayer.owner (relayer w) /\
  (attestation_requested requestId (relayer w) ->
   attestation_kept requestId (relayer w) (relayer (run txs w))) /\
  (forall attestationId,
     Relayer.verifyAttestation attestationId (relayer w) = true ->
     Relayer.verifyAttestation attestationId (relayer (run txs w)) = true).
Proof.
  revert w. induction txs as [|[e c] txs IH]; intros w; cbn [run].
  { split; [reflexivity|]. split; [intros; apply attestation_kept_refl | auto]. }
  assert (Hstep : Relayer.owner (relayer (step e c w)) = Relayer.owner (relayer w) /\
                  (attestation_requested requestId (relayer w) ->
                   attestation_kept requestId (relayer w) (relayer (step e c w))) /\
                  (forall attestationId,
                     Relayer.verifyAttestation attestationId (relayer w) = true ->
                     Relayer.verifyAttestation attestationId (relayer (step e c w)) = true)).
  { destruct (step_effect e c w) as [-> | Heffect].
    - split; [reflexivity|]. split; [intros; apply attestation_kept_refl | auto].
    - apply attestation_kept_change, relayer_effect, Heffect. }
  destruct Hstep as (Ho & Hk & Hv). destruct (IH (step e c w)) as (Ho' & Hk' & Hv').
  split; [congruence|]. split; [|auto].
  intros Hts. specialize (Hk Hts). unfold attestation_kept in Hk. cbv zeta in Hk.
  destruct Hk as (K1 & K2 & K3 & K4 & K5).
  assert (Hts' : attestation_requested requestId (relayer (step e c w))).
  { unfold attestation_requested in *. congruence. }
  specialize (Hk' Hts'). unfold attestation_kept in Hk' |- *. cbv zeta in Hk' |- *.
  destruct Hk' as (K1' & K2' & K3' & K4' & K5').
  repeat split; try congruence. auto.
Qed.

End Attestations.

Section AttestationProperties.
Context `{EVMBuiltins}.
Import System.

(** X12. An attestation is fulfilled once and stays valid. After a
    successful [fulfillAttestation] of a request, and whatever
    transactions follow, [verifyAttestation] holds of the attestation of
    that request, the request stays fulfilled, and a further
    [fulfillAttestation] of it reverts: with [RequestAlreadyProcessed]
    for an authorized caller, with [UnauthorizedCaller] for any other. *)
Theorem attestation_is_fulfilled_once
    (w : World) (e : Env) (requestId : Z) (result proof : string) (w1 : World)
    (txs : list (Env * call)) :
  exec e (RelayerFulfillAttestation requestId result proof) w = Ok (tt, w1) ->
  let attestationId :=
    Relayer.attestationId (Relayer.getAttestationRequest requestId (relayer w)) in
  let r2 := relayer (run txs w1) in
  Relayer.verifyAttestation attestationId r2 = true /\
  Relayer.fulfilled (Relayer.getAttestationRequest requestId r2) = true /\
  Relayer.attestationId (Relayer.getAttestationRequest requestId r2) = attestationId /\
  forall e' result' proof',
    Relayer.fulfillAttestation e' requestId result' proof' r2 =
    Err (CustomError (if authorized e' r2 then "RequestAlreadyProcessed"
                      else "UnauthorizedCaller")).
Proof.
  intros Hexec. cbn [exec] in Hexec. tx_unfold.
  destruct (Relayer.fulfillAttestation e requestId result proof (relayer w))
    as [[[] r1]|] eqn:Hful; [|discriminate].
  injection Hexec as <-. rewrite fulfillAttestation_eq in Hful. cbv zeta in Hful.
  destruct (authorized e (relayer w)); [|discriminate].
  destruct (Relayer.timestamp _ =? 0) eqn:Hts; [discriminate|]. cbn [negb] in Hful.
  destruct (negb (Relayer.fulfilled _)); [|discriminate].
  destruct (0 <? _); [|discriminate].
  injection Hful as <-. apply Z.eqb_neq in Hts.
  match goal with |- context [run txs ?w0] => set (w1 := w0) end.
  destruct (attestation_kept_run txs w1 requestId) as (_ & Hkept & Hvalid).
  assert (Hts1 : attestation_requested requestId (relayer w1)).
  { unfold attestation_requested, w1, Relayer.getAttestationRequest. st_simpl.
    rewrite mapping_get_insert_eq. exact Hts. }
  specialize (Hkept Hts1). unfold attestation_kept in Hkept. cbv zeta in Hkept.
  destruct Hkept as (_ & _ & Hts2 & Hatt & Hfulfilled).
  assert (Hrec1 : Relayer.getAttestationRequest requestId (relayer w1) =
                  {| Relayer.requester := Relayer.requester
                                            (Relayer.getAttestationRequest requestId (relayer w));
                     Relayer.data := Relayer.data
                                       (Relayer.getAttestationRequest requestId (relayer w));
                     Relayer.timestamp := Relayer.timestamp
                                            (Relayer.getAttestationRequest requestId (relayer w));
                     Relayer.fulfilled := true;
                     Relayer.attestationId :=
                       Relayer.attestationId
                         (Relayer.getAttestationRequest requestId (relayer w)) |}).
  { unfold w1, Relayer.getAttestationRequest. st_simpl. apply mapping_get_insert_eq. }
  rewrite Hrec1 in Hts2, Hatt, Hfulfilled. st_simpl.
  split; [|split; [|split]].
  - apply Hvalid. unfold w1, Relayer.verifyAttestation. st_simpl.
    apply mapping_get_insert_eq.
  - apply Hfulfilled. reflexivity.
  - exact Hatt.
  - intros e' result' proof'. rewrite fulfillAttestation_eq. cbv zeta.
    destruct (authorized e' _); [|reflexivity].
    rewrite Hts2. apply Z.eqb_neq in Hts. rewrite Hts. cbn [negb].
    rewrite (Hfulfilled eq_refl). reflexivity.
Qed.

(** X13. An attestation request is filed once. After a successful
    [requestAttestation] at a block time other than zero, and whatever
    transactions follow, the relayer keeps the requester, the data, the
    time and the attestation identifier it recorded, and a further
    [requestAttestation] under the same identifier reverts. *)
Theorem attestation_request_is_filed_once
    (w : World) (e : Env) (requestId : Z) (verificationData : string) (w1 : World)
    (txs : list (Env * call)) :
  exec e (RelayerRequestAttestation requestId verificationData) w = Ok (tt, w1) ->
  block_timestamp e <> 0 ->
  let r2 := relayer (run txs w1) in
  let request := Relayer.getAttestationRequest requestId r2 in
  Relayer.requester request = msg_sender e /\
  Relayer.data request = verificationData /\
  Relayer.timestamp request = block_timestamp e /\
  Relayer.attestationId request =
    keccak256 (abi_encodePacked
      [ABytes32 requestId; AAddress (msg_sender e); ABytes verificationData;
       AUint256 (block_timestamp e); AUint256 (block_number e)]) /\
  forall e' verificationData',
    Relayer.requestAttestation e' requestId verificationData' r2 =
    Err (CustomError (if authorized e' r2 then "RequestAlreadyProcessed"
                      else "UnauthorizedCaller")).
Proof.
  intros Hexec Htime. cbn [exec] in Hexec. unfold discard in Hexec. tx_unfold.
  destruct (Relayer.requestAttestation e requestId verificationData (relayer w))
    as [[att r1]|] eqn:Hreq; [|discriminate].
  injection Hexec as <-. rewrite requestAttestation_eq in Hreq. cbv zeta in Hreq.
  destruct (authorized e (relayer w)); [|discriminate].
  destruct (Relayer.timestamp _ =? 0); [|discriminate].
  destruct (switchboard_requestData e); [|discriminate].
  apply Ok_pair_inj in Hreq as [_ <-].
  match goal with |- context [run txs ?w0] => set (w1 := w0) end.
  destruct (attestation_kept_run txs w1 requestId) as (_ & Hkept & _).
  assert (Hrec1 : Relayer.getAttestationRequest requestId (relayer w1) =
                  {| Relayer.requester := msg_sender e;
                     Relayer.data := verificationData;
                     Relayer.timestamp := block_timestamp e;
                     Relayer.fulfilled := false;
                     Relayer.attestationId :=
                       keccak256 (abi_encodePacked
                         [ABytes32 requestId; AAddress (msg_sender e);
                          ABytes verificationData;
                          AUint256 (block_timestamp e); AUint256 (block_number e)]) |}).
  { unfold w1, Relayer.getAttestationRequest. st_simpl. apply mapping_get_insert_eq. }
  assert (Hts1 : attestation_requested requestId (relayer w1)).
  { unfold attestation_requested. rewrite Hrec1. exact Htime. }
  specialize (Hkept Hts1). unfold attestation_kept in Hkept. cbv zeta in Hkept.
  rewrite Hrec1 in Hkept. st_simpl. destruct Hkept as (Hr & Hd & Hts2 & Hatt & _).
  repeat split; auto.
  intros e' verificationData'. rewrite requestAttestation_eq. cbv zeta.
  destruct (authorized e' _); [|reflexivity].
  rewrite Hts2. apply Z.eqb_neq in Htime. rewrite Htime. reflexivity.
Qed.

(** X14. The owner of the relayer is fixed and cannot be locked out.
    No sequence of transactions changes the owner; the owner passes
    [onlyAuthorized] in every later state, also after
    [revokeOracleCaller] was called on the owner; and every account
    other than the owner is refused by [authorizeOracleCaller] and
    [revokeOracleCaller] with "Not owner". *)
Theorem relayer_owner_is_never_locked_out
    (w : World) (txs : list (Env * call)) (e : Env) (caller : Z) :
  let r := relayer (run txs w) in
  Relayer.owner r = Relayer.owner (relayer w) /\
  (msg_sender e = Relayer.owner (relayer w) -> Relayer.onlyAuthorized e r = Ok (tt, r)) /\
  (msg_sender e <> Relayer.owner (relayer w) ->
   Relayer.authorizeOracleCaller e caller r = Err (Revert "Not owner") /\
   Relayer.revokeOracleCaller e caller r = Err (Revert "Not owner")).
Proof.
  cbv zeta. destruct (attestation_kept_run txs w 0) as (Howner & _ & _).
  split; [exact Howner|]. split.
  - intros Hsender. rewrite onlyAuthorized_eq. unfold authorized.
    rewrite Howner, <- Hsender, Z.eqb_refl, orb_true_r. reflexivity.
  - intros Hsender. unfold Relayer.authorizeOracleCaller, Relayer.revokeOracleCaller,
      Relayer.onlyOwner. tx_unfold. rewrite Howner.
    apply Z.eqb_neq in Hsender. rewrite Hsender. auto.
Qed.

(** X15. [calculateSOLFee] is the floor of the quotient. For a positive
    price of the feed that fits [int64], and a fee whose product with
    10^18 fits 256 bits, the result is [usdFee * 10^8 / solPrice] rounded
    down; a price that is zero or negative is refused with
    [InvalidPriceData]. *)
Theorem calculateSOLFee_floor (e : Env) (usdFee solPrice publishTime : Z) :
  pyth_getPrice e = Some (solPrice, publishTime) ->
  0 <= usdFee -> usdFee * 10 ^ 18 < UINT256_MOD -> solPrice < 2 ^ 63 ->
  (solPrice <= 0 ->
   Relayer.calculateSOLFee e usdFee = Err (CustomError "InvalidPriceData")) /\
  (0 < solPrice ->
   exists solFee,
     Relayer.calculateSOLFee e usdFee = Ok solFee /\
     solFee = usdFee * 10 ^ 8 / solPrice /\
     solFee * solPrice <= usdFee * 10 ^ 8 < (solFee + 1) * solPrice).
Proof.
  intros Hfeed Hfee Hfit Hprice.
  unfold Relayer.calculateSOLFee, Relayer.getSOLUSDPrice. rewrite Hfeed.
  tx_unfold. cbn [fst]. split.
  - intros Hneg. apply Z.leb_le in Hneg. rewrite Hneg. reflexivity.
  - intros Hpos. assert (Hle : (solPrice <=? 0) = false) by (apply Z.leb_gt; lia).
    rewrite Hle. unfold uint256_mul, uint256_div.
    apply Z.ltb_lt in Hfit. rewrite Hfit. cbv beta iota.
    assert (Hu : to_uint64 solPrice = solPrice).
    { unfold to_uint64, UINT64_MOD. apply Z.mod_small. lia. }
    rewrite Hu.
    assert (Hden : (solPrice * 10 ^ 10 <? UINT256_MOD) = true).
    { apply Z.ltb_lt. unfold UINT256_MOD. lia. }
    rewrite Hden. cbv beta iota.
    assert (Hnz : (solPrice * 10 ^ 10 =? 0) = false) by (apply Z.eqb_neq; lia).
    rewrite Hnz. eexists. split; [reflexivity|].
    assert (Heq : usdFee * 10 ^ 18 / (solPrice * 10 ^ 10) = usdFee * 10 ^ 8 / solPrice).
    { replace (usdFee * 10 ^ 18) with (usdFee * 10 ^ 8 * 10 ^ 10) by lia.
      apply Z.div_mul_cancel_r; lia. }
    rewrite Heq. split; [reflexivity|].
    pose proof (Z.mul_div_le (usdFee * 10 ^ 8) solPrice Hpos).
    pose proof (Z.mul_succ_div_gt (usdFee * 10 ^ 8) solPrice Hpos).
    lia.
Qed.

End AttestationProperties.

(* ===================================================================== *)
(** ** Callers, fees and deployment *)
(* ===================================================================== *)

Section Callers.
Context `{EVMBuiltins}.
Import Storage VeriAISolana System.

(** X16. The registry and the certificate contract do not look at the
    caller. Every role check is made against the stored admin
    ([msgSender()] returns it), so each of their entry points has the
    same outcome whoever sends the transaction; only the entry points of
    the relayer depend on [msg.sender]. *)
Theorem role_checks_ignore_the_caller (e : Env) (sender : Z) (c : call) (w : World) :
  relayer_call c = false ->
  exec (with_sender sender e) c w = exec e c w.
Proof.
  intros Hc. destruct c; try discriminate Hc; reflexivity.
Qed.

(** X17. A submission whose fee the treasury does not accept is undone
    as a whole: the call reverts, so neither the request nor the
    attestation request that the relayer had already recorded remains. *)
Theorem rejected_fee_transfer_undoes_submission (e : Env) (c : call) (w : World) (user : Z) :
  requester_of c w = Some user ->
  accepts_value e (_treasuryAddress (registry w)) = false ->
  (exists err, exec e c w = Err err) /\ step e c w = w.
Proof.
  intros Hreq Hrefuse.
  assert (Herr : exists err, exec e c w = Err err).
  { destruct (exec e c w) as [[[] w']|err] eqn:Hexec; [|eauto].
    destruct (exec_request_ok _ _ _ _ _ Hreq Hexec) as (p & m & rid & Hadm).
    unfold admission in Hadm. tx_inv Hadm. congruence. }
  split; [exact Herr|]. destruct Herr as [err Herr].
  unfold step, commit. rewrite Herr. reflexivity.
Qed.

(** What the calls do to the callers that the relayer authorizes: a
    caller is authorized after a call only if it was before, or the call
    is the [authorizeOracleCaller] that names it. The owner of the
    relayer and the addresses of the contracts stay. *)
Lemma exec_authorization e c w w' :
  exec e c w = Ok (tt, w') ->
  registry_address w' = registry_address w /\
  Relayer.owner (relayer w') = Relayer.owner (relayer w) /\
  forall a, mapping_get false (Relayer.authorizedCallers (relayer w')) a = true ->
            mapping_get false (Relayer.authorizedCallers (relayer w)) a = true \/
            c = RelayerAuthorizeOracleCaller a.
Proof.
  intros Hexec.
  destruct c as [p m|r p m|rid out att prf|rid reason|?|?|?|?|?|?|? ?|? ?| | |?|
                 |? ?|? ?|?|? ?|?|? ?|? ? ?|a0|a0];
    cbn [exec] in Hexec.
  5-16: unfold setOracleRelayer, setVerificationFee, setTreasuryAddress, setNFTContract,
         addOracle, removeOracle, grantRole, revokeRole, _grantRole, _revokeRole,
         pause, unpause, initialize, emergencyWithdraw, _transferFees in Hexec;
       tx_unfold; tx_inv Hexec; inversion Hexec; subst; st_simpl; auto.
  - destruct (exec_request_ok e (RequestVerification p m) w w' _ eq_refl Hexec)
      as (p' & m' & rid & Hadm).
    pose proof (admission_ok _ _ _ _ _ _ _ Hadm) as (fee & day & att & rel & Hok).
    destruct Hok as (_ & _ & _ & _ & _ & _ & _ & _ & Hw).
    apply admission_relayer in Hadm as (data & att' & Hatt).
    rewrite requestAttestation_eq in Hatt. cbv zeta in Hatt.
    destruct (authorized _ _); [|discriminate].
    destruct (_ =? 0); [|discriminate].
    destruct (switchboard_requestData _); [|discriminate].
    apply Ok_pair_inj in Hatt as [_ <-]. rewrite Hw. st_simpl. auto.
  - destruct (exec_request_ok e (RequestVerificationFor r p m) w w' _ eq_refl Hexec)
      as (p' & m' & rid & Hadm).
    pose proof (admission_ok _ _ _ _ _ _ _ Hadm) as (fee & day & att & rel & Hok).
    destruct Hok as (_ & _ & _ & _ & _ & _ & _ & _ & Hw).
    apply admission_relayer in Hadm as (data & att' & Hatt).
    rewrite requestAttestation_eq in Hatt. cbv zeta in Hatt.
    destruct (authorized _ _); [|discriminate].
    destruct (_ =? 0); [|discriminate].
    destruct (switchboard_requestData _); [|discriminate].
    apply Ok_pair_inj in Hatt as [_ <-]. rewrite Hw. st_simpl. auto.
  - apply fulfillVerification_ok in Hexec as (_ & _ & _ & _ & _ & tokenId & n & _ & ->).
    st_simpl. auto.
  - apply markVerificationFailed_ok in Hexec as (_ & _ & ->). st_simpl. auto.
  - unfold discard in Hexec. tx_unfold.
    destruct (NFT.mintVerificationNFT _ _ _) as [[tokenId n']|]; [|discriminate].
    injection Hexec as <-. st_simpl. auto.
  - tx_unfold. destruct (NFT.updateTokenMetadata _ _ _) as [[[] n']|]; [|discriminate].
    injection Hexec as <-. st_simpl. auto.
  - tx_unfold. destruct (NFT.setBaseTokenURI _ _) as [[[] n']|]; [|discriminate].
    injection Hexec as <-. st_simpl. auto.
  - tx_unfold. destruct (NFT.grantRole _ _ _) as [[[] n']|]; [|discriminate].
    injection Hexec as <-. st_simpl. auto.
  - tx_unfold. destruct (NFT.initialize _ _) as [[[] n']|]; [|discriminate].
    injection Hexec as <-. st_simpl. auto.
  - unfold discard in Hexec. tx_unfold.
    destruct (Relayer.requestAttestation _ _ _ _) as [[att r']|] eqn:Hatt; [|discriminate].
    injection Hexec as <-. rewrite requestAttestation_eq in Hatt. cbv zeta in Hatt.
    destruct (authorized _ _); [|discriminate].
    destruct (_ =? 0); [|discriminate].
    destruct (switchboard_requestData _); [|discriminate].
    apply Ok_pair_inj in Hatt as [_ <-]. st_simpl. auto.
  - tx_unfold.
    destruct (Relayer.fulfillAttestation _ _ _ _ _) as [[[] r']|] eqn:Hful; [|discriminate].
    injection Hexec as <-. rewrite fulfillAttestation_eq in Hful. cbv zeta in Hful.
    destruct (authorized _ _); [|discriminate].
    destruct (negb (_ =? 0)); [|discriminate].
    destruct (negb (Relayer.fulfilled _)); [|discriminate].
    destruct (0 <? _); [|discriminate].
    injection Hful as <-. st_simpl. auto.
  - unfold Relayer.authorizeOracleCaller, Relayer.onlyOwner in Hexec. tx_unfold.
    tx_inv Hexec. injection Hexec as <-. st_simpl.
    split; [reflexivity|]. split; [reflexivity|]. intros a Ha.
    destruct (decide (a0 = a)) as [->|Hne]; [by right|].
    left. by rewrite mapping_get_insert_ne in Ha.
  - unfold Relayer.revokeOracleCaller, Relayer.onlyOwner in Hexec. tx_unfold.
    tx_inv Hexec. injection Hexec as <-. st_simpl.
    split; [reflexivity|]. split; [reflexivity|]. intros a Ha.
    destruct (decide (a0 = a)) as [->|Hne].
    + rewrite mapping_get_insert_eq in Ha. discriminate.
    + left. by rewrite mapping_get_insert_ne in Ha.
Qed.

(** A caller that is neither the owner nor authorized stays so until an
    [authorizeOracleCaller] names it. *)
Lemma unauthorized_run a txs w :
  (forall e, ~ In (e, RelayerAuthorizeOracleCaller a) txs) ->
  mapping_get false (Relayer.authorizedCallers (relayer w)) a = false ->
  registry_address (run txs w) = registry_address w /\
  Relayer.owner (relayer (run txs w)) = Relayer.owner (relayer w) /\
  mapping_get false (Relayer.authorizedCallers (relayer (run txs w))) a = false.
Proof.
  revert w. induction txs as [|[e c] txs IH]; intros w Hno Hnot; cbn [run]; [auto|].
  assert (Hstep : registry_address (step e c w) = registry_address w /\
                  Relayer.owner (relayer (step e c w)) = Relayer.owner (relayer w) /\
                  mapping_get false (Relayer.authorizedCallers (relayer (step e c w))) a
                    = false).
  { unfold step, commit. destruct (exec e c w) as [[[] w']|] eqn:Hexec; [|auto].
    destruct (exec_authorization _ _ _ _ Hexec) as (Haddr & Howner & Hauth).
    split; [exact Haddr|]. split; [exact Howner|].
    destruct (mapping_get false (Relayer.authorizedCallers (relayer w')) a) eqn:Ha;
      [|reflexivity].
    destruct (Hauth a Ha) as [Hbefore | ->]; [congruence|].
    exfalso. apply (Hno e). left. reflexivity. }
  destruct Hstep as (Haddr & Howner & Ha).
  destruct (IH (step e c w)) as (Haddr' & Howner' & Ha').
  - intros e' Hin. apply (Hno e'). right. exact Hin.
  - exact Ha.
  - rewrite Haddr', Howner', Haddr, Howner. auto.
Qed.

(** What the constructors leave of the callers of the relayer. *)
Lemma deploy_authorization e p w :
  deploy e p = Ok w ->
  registry_address w = dp_registry_address p /\
  Relayer.owner (relayer w) = dp_relayer_deployer p /\
  forall a, a <> dp_relayer_deployer p ->
            mapping_get false (Relayer.authorizedCallers (relayer w)) a = false.
Proof.
  intros Hdeploy.
  unfold deploy, constructor, initialize, _grantRole, NFT.constructor, NFT.initialize,
    NFT._grantRole in Hdeploy. tx_unfold.
  tx_inv Hdeploy; injection Hdeploy as <-; unfold Relayer.constructor; st_simpl;
    (split; [reflexivity|]); (split; [reflexivity|]);
    intros a Ha; unfold mapping_get; rewrite lookup_singleton_ne by congruence;
    reflexivity.
Qed.

(** X18. A registry that the relayer has not authorized accepts no
    submission. The registry is not among the callers that the relayer
    authorizes at construction. Whatever transactions follow the
    deployment, as long as none of them is an [authorizeOracleCaller]
    for the registry, every submission to a registry that points to the
    relayer reverts and leaves the state as it was. *)
Theorem unauthorized_registry_accepts_no_submission
    (e0 : Env) (p : DeployParams) (w0 : World) (txs : list (Env * call))
    (e : Env) (c : call) (user : Z) :
  deploy e0 p = Ok w0 ->
  dp_registry_address p <> dp_relayer_deployer p ->
  (forall e', ~ In (e', RelayerAuthorizeOracleCaller (dp_registry_address p)) txs) ->
  let w := run txs w0 in
  _oracleRelayer (registry w) = relayer_address w ->
  requester_of c w = Some user ->
  authorized (inner_env e w) (relayer w) = false /\
  (exists err, exec e c w = Err err) /\
  step e c w = w.
Proof.
  intros Hdeploy Hne Hno w _ Hreq.
  destruct (deploy_authorization _ _ _ Hdeploy) as (Haddr & Howner & Hnot).
  destruct (unauthorized_run (dp_registry_address p) txs w0 Hno (Hnot _ Hne))
    as (Haddr' & Howner' & Hnot').
  fold w in Haddr', Howner', Hnot'.
  assert (Hauth : authorized (inner_env e w) (relayer w) = false).
  { unfold authorized, inner_env. st_simpl.
    rewrite Haddr', Haddr, Hnot', Howner', Howner. cbn [orb].
    apply Z.eqb_neq. exact Hne. }
  split; [exact Hauth|].
  assert (Herr : exists err, exec e c w = Err err).
  { destruct (exec e c w) as [[[] w']|err] eqn:Hexec; [|eauto]. exfalso.
    destruct (exec_request_ok _ _ _ _ _ Hreq Hexec) as (pr & m & rid & Hadm).
    apply admission_relayer in Hadm as (data & att & Hatt).
    rewrite requestAttestation_eq in Hatt. cbv zeta in Hatt.
    rewrite Hauth in Hatt. discriminate. }
  split; [exact Herr|]. destruct Herr as [err Herr].
  unfold step, commit. rewrite Herr. reflexivity.
Qed.

End Callers.

Section StaticFee.
Context `{EVMBuiltins}.
Import Storage VeriAISolana System.

Lemma validateFee_bounds fee :
  VerificationLibrary.validateFee fee = Ok tt <->
  VerificationLibrary.MIN_VERIFICATION_FEE <= fee <= VerificationLibrary.MAX_VERIFICATION_FEE.
Proof.
  unfold VerificationLibrary.validateFee. tx_unfold.
  destruct (VerificationLibrary.MIN_VERIFICATION_FEE <=? fee) eqn:E1;
  destruct (fee <=? VerificationLibrary.MAX_VERIFICATION_FEE) eqn:E2; cbn [andb];
  rewrite ?Z.leb_le, ?Z.leb_gt in *;
  (split; [try discriminate; intros; lia | intros; try reflexivity; lia]).
Qed.

(** The only call that writes the static fee is [setVerificationFee],
    which validates it. *)
Lemma exec_static_fee e c w w' :
  exec e c w = Ok (tt, w') ->
  _verificationFee (registry w') = _verificationFee (registry w) \/
  VerificationLibrary.MIN_VERIFICATION_FEE <= _verificationFee (registry w')
    <= VerificationLibrary.MAX_VERIFICATION_FEE.
Proof.
  intros Hexec.
  destruct c as [p m|r p m|rid out att prf|rid reason|?|fee|?|?|?|?|? ?|? ?| | |?|
                 |? ?|? ?|?|? ?|?|? ?|? ? ?|?|?].
  6: { cbn [exec] in Hexec. unfold setVerificationFee in Hexec. tx_unfold. tx_inv Hexec.
       injection Hexec as <-. st_simpl. right.
       match goal with
       | Hv : VerificationLibrary.validateFee _ = Ok ?u |- _ =>
           destruct u; apply validateFee_bounds in Hv; exact Hv
       end. }
  5-24: cbn [exec] in Hexec;
        unfold setOracleRelayer, setTreasuryAddress, setNFTContract,
          addOracle, removeOracle, grantRole, revokeRole, _grantRole, _revokeRole,
          pause, unpause, initialize, emergencyWithdraw, _transferFees in Hexec;
        tx_unfold; tx_inv Hexec; inversion Hexec; subst; left; reflexivity.
  - destruct (exec_request_ok e (RequestVerification p m) w w' _ eq_refl Hexec)
      as (p' & m' & rid & Hadm).
    apply admission_ok in Hadm as (fee & day & att & rel & Hok).
    destruct Hok as (_ & _ & _ & _ & _ & _ & _ & _ & ->). left. reflexivity.
  - destruct (exec_request_ok e (RequestVerificationFor r p m) w w' _ eq_refl Hexec)
      as (p' & m' & rid & Hadm).
    apply admission_ok in Hadm as (fee & day & att & rel & Hok).
    destruct Hok as (_ & _ & _ & _ & _ & _ & _ & _ & ->). left. reflexivity.
  - cbn [exec] in Hexec.
    apply fulfillVerification_ok in Hexec as (_ & _ & _ & _ & _ & tokenId & n & _ & ->).
    left. reflexivity.
  - cbn [exec] in Hexec. apply markVerificationFailed_ok in Hexec as (_ & _ & ->).
    left. reflexivity.
Qed.

(** X24. The static fee stays within its bounds once it has been set.
    The constructor stores the initial fee without validating it;
    afterwards only [setVerificationFee] writes the fee, and it accepts
    no value outside [MIN_VERIFICATION_FEE, MAX_VERIFICATION_FEE]. So
    after any sequence of transactions [getVerificationFee] is the
    initial fee of the deployment or a value within the bounds. *)
Theorem static_fee_within_bounds
    (e0 : Env) (p : DeployParams) (w0 : World) (txs : list (Env * call)) :
  deploy e0 p = Ok w0 ->
  let fee := getVerificationFee (registry (run txs w0)) in
  fee = dp_initialFee p \/
  VerificationLibrary.MIN_VERIFICATION_FEE <= fee <= VerificationLibrary.MAX_VERIFICATION_FEE.
Proof.
  intros Hdeploy. cbv zeta. unfold getVerificationFee.
  apply deploy_initial in Hdeploy as (Hreg & _ & _). cbv zeta in Hreg.
  destruct Hreg as (_ & _ & _ & _ & _ & _ & _ & _ & _ & _ & _ & _ & _ & _ & Hfee & _).
  assert (Hinit : _verificationFee (registry w0) = dp_initialFee p \/
                  VerificationLibrary.MIN_VERIFICATION_FEE <= _verificationFee (registry w0)
                    <= VerificationLibrary.MAX_VERIFICATION_FEE) by (left; exact Hfee).
  clear Hfee. revert w0 Hinit.
  induction txs as [|[e c] txs IH]; intros w Hinit; cbn [run]; [exact Hinit|].
  apply IH. unfold step, commit.
  destruct (exec e c w) as [[[] w']|] eqn:Hexec; [|exact Hinit].
  destruct (exec_static_fee _ _ _ _ Hexec) as [Hsame | Hbounds]; [|right; exact Hbounds].
  rewrite Hsame. exact Hinit.
Qed.

End StaticFee.

(* ===================================================================== *)
(** ** The library *)
(* ===================================================================== *)

Section Library.
Context `{EVMBuiltins}.

(** X19. The packed encoding under [generateRequestId] does not delimit
    the prompt from the model: moving bytes from the end of the prompt
    to the front of the model gives the same identifier, whatever the
    digest. The requests differ by their counter value only. *)
Theorem generateRequestId_ignores_the_boundary
    (requester : Z) (prompt shifted model : string) (timestamp nonce : Z) :
  VerificationLibrary.generateRequestId requester (prompt +:+ shifted) model timestamp nonce =
  VerificationLibrary.generateRequestId requester prompt (shifted +:+ model) timestamp nonce.
Proof.
  unfold VerificationLibrary.generateRequestId, abi_encodePacked.
  cbn [fold_right encodePacked1]. f_equal. f_equal.
  rewrite !append_assoc. reflexivity.
Qed.

(** X20. [timestampToDay] numbers the days of 86400 seconds from the
    deployment: a time before the deployment is refused with "Invalid
    timestamp", and any other time falls in the window of the day that
    is returned. *)
Theorem timestampToDay_window (timestamp deploymentTime : Z) :
  (timestamp < deploymentTime ->
   VerificationLibrary.timestampToDay timestamp deploymentTime =
   Err (Revert "Invalid timestamp")) /\
  (deploymentTime <= timestamp ->
   exists day,
     VerificationLibrary.timestampToDay timestamp deploymentTime = Ok day /\
     0 <= day /\
     deploymentTime + 86400 * day <= timestamp < deploymentTime + 86400 * (day + 1)).
Proof.
  unfold VerificationLibrary.timestampToDay, uint256_sub, uint256_div. tx_unfold. split.
  - intros Hlt. apply Z.leb_gt in Hlt. rewrite Hlt. reflexivity.
  - intros Hle. pose proof Hle as Hb. apply Z.leb_le in Hb. rewrite Hb. cbv beta iota.
    change (86400 =? 0) with false. cbv iota.
    eexists. split; [reflexivity|].
    pose proof (Z.mul_div_le (timestamp - deploymentTime) 86400 eq_refl).
    pose proof (Z.mul_succ_div_gt (timestamp - deploymentTime) 86400 eq_refl).
    assert (0 <= (timestamp - deploymentTime) / 86400) by (apply Z.div_pos; lia).
    lia.
Qed.

End Library.

Section FormatAddress.
Import VerificationLibrary.

Lemma _char_hex d : 0 <= d < 16 -> _char d = Ok (hex_digit d).
Proof.
  intros Hd.
  assert (Hcases : d = 0 \/ d = 1 \/ d = 2 \/ d = 3 \/ d = 4 \/ d = 5 \/ d = 6 \/ d = 7 \/
                   d = 8 \/ d = 9 \/ d = 10 \/ d = 11 \/ d = 12 \/ d = 13 \/ d = 14 \/ d = 15)
    by lia.
  repeat (destruct Hcases as [-> | Hcases]; [reflexivity|]). subst. reflexivity.
Qed.

Lemma byte_bound (b : ascii) : 0 <= Z.of_N (N_of_ascii b) < 256.
Proof. pose proof (N_ascii_bounded b). lia. Qed.

Lemma hex_of_bytes_app l1 l2 :
  hex_of_bytes (l1 ++ l2) = (hex_of_bytes l1 ++ hex_of_bytes l2)%list.
Proof. induction l1 as [|b l1 IH]; cbn [hex_of_bytes app]; [reflexivity|]. by rewrite IH. Qed.

Lemma length_hex_of_bytes l : length (hex_of_bytes l) = (2 * length l)%nat.
Proof. induction l as [|b l IH]; cbn [hex_of_bytes length]; lia. Qed.

(** The loop, started after [k] rounds, completes the rendering. *)
Lemma formatAddress_loop_spec fuel k chars (addrBytes : list ascii) :
  length addrBytes = 20%nat ->
  (k <= Z.to_nat chars)%nat -> (k <= 20)%nat -> (20 <= fuel + k)%nat ->
  formatAddress_loop fuel (Z.of_nat k) chars addrBytes
    (hex_of_bytes (take k addrBytes)
     ++ replicate (2 * Z.to_nat chars - 2 * k) zero)%list =
  Ok (hex_of_bytes (take (Z.to_nat chars) addrBytes)
      ++ replicate (2 * (Z.to_nat chars - 20)) zero)%list.
Proof.
  intros Hlen. revert k. induction fuel as [|fuel IH]; intros k Hk Hk20 Hfuel.
  - cbn [formatAddress_loop]. assert (k = 20%nat) by lia. subst k.
    rewrite (take_ge addrBytes (Z.to_nat chars)) by lia.
    rewrite (take_ge addrBytes 20) by lia.
    do 3 f_equal. lia.
  - cbn [formatAddress_loop].
    destruct ((Z.of_nat k <? chars) && (Z.of_nat k <? 20)) eqn:Hguard.
    + apply andb_true_iff in Hguard as [Hlt1 Hlt2].
      apply Z.ltb_lt in Hlt1, Hlt2.
      assert (Hkn : (k < Z.to_nat chars)%nat) by lia.
      assert (Hk19 : (k < 20)%nat) by lia.
      rewrite Nat2Z.id.
      destruct (lookup_lt_is_Some_2 addrBytes k) as [b Hb]; [lia|].
      rewrite (nth_lookup_Some _ _ _ _ Hb).
      pose proof (byte_bound b) as Hbyte.
      tx_unfold.
      rewrite (_char_hex (Z.of_N (N_of_ascii b) / 16))
        by (split; [apply Z.div_pos; lia | apply Z.div_lt_upper_bound; lia]).
      cbv beta iota.
      rewrite (_char_hex (Z.of_N (N_of_ascii b) mod 16)) by (apply Z.mod_pos_bound; lia).
      cbv beta iota.
      replace (Z.of_nat k + 1) with (Z.of_nat (S k)) by lia.
      replace (Z.to_nat (Z.of_nat k * 2)) with (length (hex_of_bytes (take k addrBytes)) + 0)%nat
        by (rewrite length_hex_of_bytes, length_take; lia).
      rewrite insert_app_r.
      replace (Z.to_nat (Z.of_nat k * 2 + 1))
        with (length (hex_of_bytes (take k addrBytes)) + 1)%nat
        by (rewrite length_hex_of_bytes, length_take; lia).
      rewrite insert_app_r.
      etransitivity; [|apply (IH (S k)); lia].
      f_equal.
      rewrite (take_S_r _ _ _ Hb), hex_of_bytes_app. cbn [hex_of_bytes].
      rewrite <- app_assoc. f_equal.
      replace (2 * Z.to_nat chars - 2 * k)%nat with (S (S (2 * Z.to_nat chars - 2 * S k)))
        by lia.
      reflexivity.
    + assert (Hdone : k = Z.to_nat chars \/ k = 20%nat).
      { apply andb_false_iff in Hguard as [Hge | Hge]; apply Z.ltb_ge in Hge; lia. }
      destruct Hdone as [-> | ->].
      * replace (2 * Z.to_nat chars - 2 * Z.to_nat chars)%nat with 0%nat by lia.
        replace (2 * (Z.to_nat chars - 20))%nat with 0%nat by lia. reflexivity.
      * rewrite (take_ge addrBytes (Z.to_nat chars)) by lia.
        rewrite (take_ge addrBytes 20) by lia.
        do 3 f_equal. lia.
Qed.

Lemma length_list_ascii_of_string s :
  length (list_ascii_of_string s) = String.length s.
Proof. induction s as [|c s IH]; cbn; congruence. Qed.

(** X21. For up to 65535 characters, a result that memory holds,
    [formatAddress] renders the first [chars] bytes of the address in
    lower-case hexadecimal, two digits a byte. The result has
    [2 * chars] bytes; an address has 20 bytes, so beyond 40 digits the
    result is filled with zero bytes, not cut. A result of more than
    [2^64 - 1] bytes is not allocated: the call fails with Panic(0x41),
    and with Panic(0x11) when [2 * chars] does not fit 256 bits. *)
Theorem formatAddress_hex (addr chars : Z) :
  0 <= chars ->
  let addrBytes := list_ascii_of_string (be_bytes 20 addr) in
  (chars < 2 ^ 16 ->
   formatAddress addr chars =
   Ok (string_of_list_ascii
         (hex_of_bytes (take (Z.to_nat chars) addrBytes)
          ++ replicate (2 * (Z.to_nat chars - 20)) zero)%list)) /\
  (UINT64_MOD <= chars * 2 < UINT256_MOD ->
   formatAddress addr chars = Err (Panic PANIC_ALLOCATION)) /\
  (UINT256_MOD <= chars * 2 ->
   formatAddress addr chars = Err (Panic PANIC_OVERFLOW)).
Proof.
  intros Hchars addrBytes. unfold formatAddress, uint256_mul. tx_unfold.
  split; [|split].
  - intros Hfit.
    assert (Hmul : (chars * 2 <? UINT256_MOD) = true)
      by (apply Z.ltb_lt; unfold UINT256_MOD; lia).
    assert (Halloc : (chars * 2 >? UINT64_MOD - 1) = false)
      by (rewrite Z.gtb_ltb; apply Z.ltb_ge; unfold UINT64_MOD; lia).
    rewrite Hmul. cbv beta iota. rewrite Halloc.
    unfold abi_encodePacked. cbn [fold_right encodePacked1]. rewrite append_nil_r.
    fold addrBytes.
    assert (Hlen : length addrBytes = 20%nat).
    { unfold addrBytes. rewrite length_list_ascii_of_string. apply length_be_bytes. }
    assert (Hloop : formatAddress_loop 20 0 chars addrBytes
                      (replicate (Z.to_nat (chars * 2)) zero) =
                    Ok (hex_of_bytes (take (Z.to_nat chars) addrBytes)
                        ++ replicate (2 * (Z.to_nat chars - 20)) zero)%list).
    { replace (Z.to_nat (chars * 2)) with (2 * Z.to_nat chars - 2 * 0)%nat by lia.
      apply (formatAddress_loop_spec 20 0 chars addrBytes Hlen); lia. }
    rewrite Hloop. reflexivity.
  - intros [Hbig Hfit].
    assert (Hmul : (chars * 2 <? UINT256_MOD) = true) by (apply Z.ltb_lt; exact Hfit).
    assert (Halloc : (chars * 2 >? UINT64_MOD - 1) = true)
      by (rewrite Z.gtb_ltb; apply Z.ltb_lt; lia).
    rewrite Hmul. cbv beta iota. rewrite Halloc. reflexivity.
  - intros Hover.
    assert (Hmul : (chars * 2 <? UINT256_MOD) = false) by (apply Z.ltb_ge; exact Hover).
    rewrite Hmul. reflexivity.
Qed.

End FormatAddress.

(* ===================================================================== *)
(** ** Listing certificates across chains *)
(* ===================================================================== *)

Section Listing.
Import Multichain.

Lemma slice_page {A} (l : list A) (k : nat) (limit : Z) :
  1 <= limit ->
  slice l ((Z.of_nat (S k) - 1) * limit) ((Z.of_nat (S k) - 1) * limit + limit) =
  take (Z.to_nat limit) (drop (k * Z.to_nat limit) l).
Proof.
  intros Hlimit. unfold slice.
  replace ((Z.of_nat (S k) - 1) * limit) with (Z.of_nat (k * Z.to_nat limit))
    by (rewrite Nat2Z.inj_mul; rewrite Z2Nat.id; [f_equal; lia | lia]).
  generalize (k * Z.to_nat limit)%nat. intros start.
  assert (Hs : (Z.of_nat start <? 0) = false) by (apply Z.ltb_ge; lia).
  assert (He : (Z.of_nat start + limit <? 0) = false) by (apply Z.ltb_ge; lia).
  rewrite Hs, He.
  destruct (decide (start <= length l)%nat) as [Hin | Hout].
  - rewrite (Z.min_l (Z.of_nat start)) by lia. rewrite Nat2Z.id.
    destruct (decide (Z.of_nat start + limit <= Z.of_nat (length l))) as [Hfull | Hpart].
    + rewrite Z.min_l by lia. f_equal. lia.
    + rewrite Z.min_r by lia.
      rewrite (take_ge (drop start l) (Z.to_nat limit)) by (rewrite length_drop; lia).
      apply take_ge. rewrite length_drop. lia.
  - rewrite !Z.min_r by lia. rewrite Nat2Z.id, Z.sub_diag.
    rewrite !drop_ge by lia. by rewrite !take_nil.
Qed.

Lemma pages_concat {A} (l : list A) (size n : nat) :
  concat (map (fun k => take size (drop (k * size) l)) (seq 0 n)) = take (n * size) l.
Proof.
  induction n as [|n IH]; [reflexivity|].
  rewrite seq_S, map_app, concat_app, IH. cbn [map concat Nat.add].
  rewrite app_nil_r, take_take_drop. f_equal. lia.
Qed.

(** X22. Without a chain selector [getUserNFTs] pages through the
    certificates of both chains, Solana's first. For a limit of at least
    one and services that answer: [total] is the number of certificates
    fetched and [totalPages] the least number of pages that holds them;
    every page has at most [limit] certificates; the pages 1 to
    [totalPages], one after the other, are exactly the fetched
    certificates in their order; and a page after the last is empty. *)
Theorem getUserNFTs_pages_partition
    (solana ethereum : ChainListing) (userAddress : string) (limit : Z)
    (solanaResult ethereumResult : UserNFTs) :
  1 <= limit ->
  getUserNFTs_of solana userAddress 1 1000 = Resolved solanaResult ->
  getUserNFTs_of ethereum userAddress 1 1000 = Resolved ethereumResult ->
  let allNFTs := (nfts solanaResult ++ nfts ethereumResult)%list in
  let listing p := getUserNFTs solana ethereum userAddress p limit None in
  exists pages : nat,
    (forall p, total (listing p) = Z.of_nat (length allNFTs) /\
               totalPages (listing p) = Int (Z.of_nat pages) /\
               page (listing p) = p) /\
    (Z.of_nat pages - 1) * limit < Z.of_nat (length allNFTs) <= Z.of_nat pages * limit /\
    (forall p, 1 <= p -> Z.of_nat (length (nfts (listing p))) <= limit) /\
    concat (map (fun k => nfts (listing (Z.of_nat (S k)))) (seq 0 pages)) = allNFTs /\
    (forall p, Z.of_nat pages < p -> nfts (listing p) = []).
Proof.
  intros Hlimit Hsol Heth allNFTs listing.
  set (len := Z.of_nat (length allNFTs)).
  assert (Hceil : exists pages : nat,
            - ((- len) / limit) = Z.of_nat pages /\
            (Z.of_nat pages - 1) * limit < len <= Z.of_nat pages * limit).
  { exists (Z.to_nat (- ((- len) / limit))).
    pose proof (Z.mul_div_le (- len) limit ltac:(lia)).
    pose proof (Z.mul_succ_div_gt (- len) limit ltac:(lia)).
    assert (0 <= - ((- len) / limit)).
    { assert ((- len) / limit <= 0); [|lia].
      apply Z.div_le_upper_bound; lia. }
    rewrite Z2Nat.id by lia. split; [reflexivity | nia]. }
  destruct Hceil as (pages & Hpages & Hlow & Hhigh). exists pages.
  assert (Hlisting : forall p,
            listing p =
            {| nfts := slice allNFTs ((p - 1) * limit) ((p - 1) * limit + limit);
               total := len; page := p; totalPages := Int (Z.of_nat pages);
               chainBreakdown := Some (total ethereumResult, total solanaResult) |}).
  { intros p. unfold listing, getUserNFTs. rewrite Hsol, Heth. cbv zeta.
    fold allNFTs. fold len. f_equal. unfold ceil_div.
    assert (Hnz : (limit =? 0) = false) by (apply Z.eqb_neq; lia).
    rewrite Hnz. fold len. by rewrite Hpages. }
  split; [|split; [|split; [|split]]].
  - intros p. rewrite Hlisting. cbn. auto.
  - lia.
  - intros p Hp. rewrite Hlisting. cbn [nfts]. unfold slice. fold len.
    assert (Hs : ((p - 1) * limit <? 0) = false) by (apply Z.ltb_ge; nia).
    assert (He : ((p - 1) * limit + limit <? 0) = false) by (apply Z.ltb_ge; nia).
    rewrite Hs, He, length_take, length_drop. lia.
  - erewrite map_ext; [|intros k; rewrite Hlisting; cbn [nfts]; apply slice_page; exact Hlimit].
    rewrite pages_concat. apply take_ge. unfold len in *. nia.
  - intros p Hp. rewrite Hlisting. cbn [nfts]. unfold slice. fold len.
    assert (Hs : ((p - 1) * limit <? 0) = false) by (apply Z.ltb_ge; nia).
    assert (He : ((p - 1) * limit + limit <? 0) = false) by (apply Z.ltb_ge; nia).
    rewrite Hs, He, !Z.min_r by nia. rewrite Z.sub_diag. apply take_0.
Qed.

End Listing.

(* ===================================================================== *)
(** ** Statistics *)
(* ===================================================================== *)

Section Statistics.
Context `{EVMBuiltins}.
Import Storage VeriAISolana System.

Lemma count_status_insert_fresh st m (k : Z) request :
  m !! k = None ->
  count_status st (<[k := request]> m) =
  count_status st m + (if bool_decide (status request = st) then 1 else 0).
Proof.
  intros Hfresh. unfold count_status.
  destruct (bool_decide (status request = st)) eqn:Hst.
  - apply bool_decide_eq_true in Hst.
    rewrite map_filter_insert_True by exact Hst.
    rewrite map_size_insert_None; [lia|].
    apply map_lookup_filter_None. left. exact Hfresh.
  - apply bool_decide_eq_false in Hst.
    rewrite map_filter_insert_False by exact Hst.
    rewrite delete_id by exact Hfresh. lia.
Qed.

Lemma count_status_update st m (k : Z) old request :
  m !! k = Some old ->
  count_status st (<[k := request]> m) =
  count_status st m
  - (if bool_decide (status old = st) then 1 else 0)
  + (if bool_decide (status request = st) then 1 else 0).
Proof.
  intros Hold.
  rewrite <- (insert_delete_eq m k request).
  rewrite count_status_insert_fresh by apply lookup_delete_eq.
  rewrite <- (insert_delete_id m k old Hold) at 2.
  rewrite count_status_insert_fresh by apply lookup_delete_eq. lia.
Qed.

Lemma stored_request_lookup (s : State) requestId :
  requester (mapping_get zero_request (_requests s) requestId) <> 0 ->
  _requests s !! requestId = Some (mapping_get zero_request (_requests s) requestId).
Proof.
  unfold mapping_get. destruct (_requests s !! requestId); [reflexivity|].
  cbn. intros []. reflexivity.
Qed.

Section CollisionFree.
Hypothesis keccak256_inj : forall a b : string, keccak256 a = keccak256 b -> a = b.

Lemma stats_exact_effect w w' :
  effect w w' -> ids_issued w -> stats_exact w -> stats_exact w'.
Proof.
  intros Heffect [Hpos Hids] Hstats. unfold stats_exact in *. cbv zeta in Hstats.
  destruct Hstats as (Htotal & Hverified & Hfailed).
  destruct Heffect as [e r p m rid _ _ Hadm | e rid out att prf Hful | e rid reason Hfail
                      | Hsame Hnft Hrel | Hreg _ _ | Hreg _ _].
  - apply admission_ok in Hadm as (fee & day & att & rel & Hok).
    destruct Hok as (_ & _ & _ & _ & _ & _ & Hcounter & -> & ->).
    unfold accepted_registry. st_simpl.
    assert (Hfresh : _requests (registry w) !!
                       VerificationLibrary.generateRequestId r p m (block_timestamp e)
                         (_requestCounter (registry w)) = None).
    { destruct (_requests (registry w) !! _) eqn:Hlookup; [|reflexivity].
      destruct (Hids _ (mk_is_Some _ _ Hlookup)) as (r0 & p0 & m0 & t0 & n & Heq & Hn).
      apply (generateRequestId_nonce keccak256_inj) in Heq; lia. }
    rewrite !count_status_insert_fresh by exact Hfresh.
    rewrite map_size_insert_None by exact Hfresh. st_simpl.
    rewrite !bool_decide_eq_false_2 by discriminate. (split; [|split]); lia.
  - apply fulfillVerification_ok in Hful as (Hreq & Hpending & _ & _ & _ & tokenId & n & _ & ->).
    st_simpl. unfold getVerificationRequest in *.
    pose proof (stored_request_lookup _ _ Hreq) as Hold.
    rewrite !(count_status_update _ _ _ _ _ Hold).
    rewrite map_size_insert_Some by eauto.
    unfold fulfilled_request. st_simpl. rewrite Hpending.
    repeat case_bool_decide; try congruence; (split; [|split]); lia.
  - apply markVerificationFailed_ok in Hfail as (Hreq & Hpending & ->).
    st_simpl. unfold getVerificationRequest in *.
    pose proof (stored_request_lookup _ _ Hreq) as Hold.
    rewrite !(count_status_update _ _ _ _ _ Hold).
    rewrite map_size_insert_Some by eauto.
    st_simpl. rewrite Hpending.
    repeat case_bool_decide; try congruence; (split; [|split]); lia.
  - destruct Hsame as (_ & _ & _ & Hs4 & _ & _ & _ & _ & _ & Hs10 & Hs11 & Hs12 & _).
    rewrite Hs4, Hs10, Hs11, Hs12. auto.
  - rewrite Hreg. auto.
  - rewrite Hreg. auto.
Qed.

Lemma reachable_stats_exact w : reachable w -> stats_exact w.
Proof.
  induction 1 as [e p w Hdeploy | e c w Hreach IH].
  - apply deploy_initial in Hdeploy as (Hreg & _ & _). cbv zeta in Hreg.
    destruct Hreg as (_ & _ & _ & _ & _ & Ht & Hv & Hf & Hr & _).
    unfold stats_exact, count_status. rewrite Ht, Hv, Hf, Hr.
    rewrite map_filter_empty, map_size_empty. auto.
  - destruct (step_effect e c w) as [-> | Heffect]; [auto|].
    eapply stats_exact_effect; eauto using reachable_ids_issued.
Qed.

(** X23. The statistics of the registry are exact, the digest being
    collision-free: in every reachable state [getContractStats] returns
    the number of requests on file, the number of them that are
    [Verified] and the number that are [Failed]; the rest are [Pending]. *)
Theorem contract_stats_are_exact (w : World) :
  reachable w ->
  let requests := _requests (registry w) in
  getContractStats (registry w) =
    (Z.of_nat (size requests), count_status Verified requests, count_status Failed requests) /\
  count_status Pending requests =
    Z.of_nat (size requests) - count_status Verified requests - count_status Failed requests.
Proof.
  intros Hreach. pose proof (reachable_stats_exact _ Hreach) as (Ht & Hv & Hf).
  cbv zeta. unfold getContractStats. rewrite Ht, Hv, Hf. split; [reflexivity|].
  assert (Hexp : forall k r, _requests (registry w) !! k = Some r -> status r <> Expired).
  { intros k r Hk. destruct (reachable_requests_wellformed _ Hreach k) as [(Hne & _) _].
    unfold getVerificationRequest, mapping_get in Hne. rewrite Hk in Hne. exact Hne. }
  revert Hexp. clear. generalize (_requests (registry w)). intros m.
  induction m as [|k request m Hfresh IH] using map_ind; intros Hexp.
  - unfold count_status. rewrite !map_filter_empty, map_size_empty. lia.
  - rewrite !count_status_insert_fresh by exact Hfresh.
    rewrite map_size_insert_None by exact Hfresh.
    assert (Hm : forall k' r', m !! k' = Some r' -> status r' <> Expired).
    { intros k' r' Hk'. apply (Hexp k'). rewrite lookup_insert_ne; [exact Hk'|].
      intros ->. congruence. }
    specialize (IH Hm).
    assert (Hst : status request <> Expired).
    { apply (Hexp k). apply lookup_insert_eq. }
    destruct (status request); try contradiction;
      repeat case_bool_decide; try congruence; lia.
Qed.

End CollisionFree.

End Statistics.

(* ===================================================================== *)
(** ** Sufficient conditions *)
(* ===================================================================== *)

Section Success.
Context `{EVMBuiltins}.
Import Storage VeriAISolana System.

(** The conditions under which a mint succeeds. *)
Lemma mintVerificationNFT_succeeds recipient metadata n :
  NFT.hasRole NFT.MINTER_ROLE (NFT.msgSender n) n = true ->
  recipient <> 0 ->
  NFT._validateMetadata metadata = Ok tt ->
  NFT._exists (NFT._tokenIdCounter n) n = false ->
  NFT._tokenIdCounter n + 1 < UINT256_MOD ->
  mapping_get 0 (NFT._balances n) recipient + 1 < UINT256_MOD ->
  exists n', NFT.mintVerificationNFT recipient metadata n = Ok (NFT._tokenIdCounter n, n').
Proof.
  intros Hrole Hrec Hvalid Hfresh Hcounter Hbalance.
  apply Z.eqb_neq in Hrec. apply uint256_add_lt in Hcounter, Hbalance.
  unfold NFT.mintVerificationNFT, NFT.onlyRole, NFT._mint, NFT._setTokenURI.
  tx_unfold. rewrite Hrole. cbv beta iota. rewrite Hrec. cbn [negb]. cbv beta iota.
  rewrite Hvalid. cbv beta iota. rewrite Hcounter. cbv beta iota. st_simpl.
  unfold NFT._exists in *. st_simpl. rewrite Hfresh. cbn [negb]. cbv beta iota.
  rewrite Hbalance. cbv beta iota. st_simpl.
  rewrite mapping_get_insert_eq, Hrec. cbn [negb]. cbv beta iota.
  eexists. reflexivity.
Qed.

(** X25. A fulfilment that meets the conditions succeeds. In a
    reachable state, let the admin hold the oracle role, the request be
    on file and [Pending], the registry point to the relayer and to the
    certificate contract, the attestation be processed and be the one of
    the request, the block time be at most 24 hours after the request,
    the timestamp and the identifier of the request be other than zero,
    the admin of the certificate contract hold the minter role, and the
    two counters have room. Then [fulfillVerification] returns, the
    request is [Verified] and one certificate has been minted. *)
Theorem fulfilment_succeeds
    (w : World) (e : Env) (requestId : Z) (output : string) (attestationId : Z)
    (proof : string) :
  reachable w ->
  let s := registry w in
  let request := getVerificationRequest requestId s in
  hasRole ORACLE_ROLE (msgSender s) s = true ->
  requester request <> 0 ->
  status request = Pending ->
  _oracleRelayer s = relayer_address w ->
  _nftContract s = nft_address w ->
  Relayer.verifyAttestation attestationId (relayer w) = true ->
  Storage.attestationId request = attestationId ->
  block_timestamp e <= timestamp request + VerificationLibrary.REQUEST_TIMEOUT ->
  timestamp request <> 0 ->
  requestId <> 0 ->
  NFT.hasRole NFT.MINTER_ROLE (NFT.msgSender (nft w)) (nft w) = true ->
  _totalVerified s + 1 < UINT256_MOD ->
  NFT.totalSupply (nft w) + 1 < UINT256_MOD ->
  exists w',
    fulfillVerification e requestId output attestationId proof w = Ok (tt, w') /\
    status (getVerificationRequest requestId (registry w')) = Verified /\
    NFT.totalSupply (nft w') = NFT.totalSupply (nft w) + 1.
Proof.
  intros Hreach s request Hrole Hstored Hpending Hrelayer Hnft Hvalid Hatt Htime Hts Hid
    Hminter Hverified Hsupply.
  subst s request. unfold getVerificationRequest in *.
  destruct (reachable_requests_wellformed _ Hreach requestId) as [_ Hfiled].
  specialize (Hfiled (stored_request_is_some _ _ Hstored)).
  unfold getVerificationRequest in Hfiled.
  destruct Hfiled as (_ & Hprompt & Hmodel & Hbound).
  destruct (reachable_tokens_consistent _ Hreach) as (_ & Hpos & Hdense & _ & Hbalance).
  unfold NFT.totalSupply in *.
  destruct (mintVerificationNFT_succeeds
              (requester (mapping_get zero_request (_requests (registry w)) requestId))
              (certificate_of (registry w) requestId output proof) (nft w))
    as [n' Hmint]; auto.
  { unfold NFT._validateMetadata, certificate_of. tx_unfold. st_simpl.
    assert (H1 : (0 <? VerificationLibrary.bytes_length
                         (prompt (mapping_get zero_request (_requests (registry w)) requestId)))
                 = true) by (apply Z.ltb_lt; lia).
    assert (H2 : (0 <? VerificationLibrary.bytes_length
                         (model (mapping_get zero_request (_requests (registry w)) requestId)))
                 = true) by (apply Z.ltb_lt; lia).
    assert (H3 : (0 <? timestamp (mapping_get zero_request (_requests (registry w)) requestId))
                 = true) by (apply Z.ltb_lt; lia).
    rewrite H1, H2, H3. cbv beta iota.
    unfold abi_encodePacked, VerificationLibrary.bytes_length.
    cbn [fold_right encodePacked1]. rewrite append_nil_r, length_be_bytes.
    apply Z.eqb_neq in Hid. rewrite Hid. reflexivity. }
  { destruct (NFT._exists (NFT._tokenIdCounter (nft w)) (nft w)) eqn:Hex; [|reflexivity].
    apply Hdense in Hex. lia. }
  { specialize (Hbalance
      (requester (mapping_get zero_request (_requests (registry w)) requestId))). lia. }
  exists (set_nft n'
            (set_registry
               (set_totalVerified (_totalVerified (registry w) + 1)
                  (set_requests
                     (<[requestId :=
                          fulfilled_request
                            (mapping_get zero_request (_requests (registry w)) requestId)
                            output]> (_requests (registry w))) (registry w))) w)).
  split; [|split].
  - rewrite fulfillVerification_eq. cbv zeta. rewrite Hrole.
    apply Z.eqb_neq in Hstored. rewrite Hstored. cbn [negb].
    rewrite bool_decide_eq_true_2 by exact Hpending.
    rewrite Hrelayer, Z.eqb_refl, Hvalid, Hatt, Z.eqb_refl.
    unfold VerificationLibrary.isRequestExpired. tx_unfold.
    rewrite uint256_add_lt
      by (unfold VerificationLibrary.REQUEST_TIMEOUT, UINT64_MOD, UINT256_MOD in *; lia).
    cbv beta iota.
    assert (Hfresh : (block_timestamp e >?
                      timestamp (mapping_get zero_request (_requests (registry w)) requestId)
                      + VerificationLibrary.REQUEST_TIMEOUT) = false).
    { rewrite Z.gtb_ltb. apply Z.ltb_ge. exact Htime. }
    rewrite Hfresh. cbn [negb].
    rewrite (uint256_add_lt _ _ Hverified), Hnft, Z.eqb_refl, Hmint. reflexivity.
  - unfold getVerificationRequest. st_simpl. rewrite mapping_get_insert_eq. reflexivity.
  - st_simpl. apply mintVerificationNFT_inv in Hmint.
    destruct Hmint as (_ & _ & Hc & _). exact Hc.
Qed.

(** X26. A submission that meets the conditions is accepted. In a
    reachable state that is not paused, let the prompt and the model be
    within their lengths, the value sent cover the required fee, the
    last submission of the stored admin lie at least 60 seconds back, the
    block time not precede the deployment, the admin have fewer than 100
    submissions on the current day, the counters have room, the registry
    point to the relayer and be authorized by it, the relayer have no
    request under the new identifier, the oracle accept the data and the
    treasury the fee. Then [requestVerification] returns the identifier
    generated from the counter, and the request is on file for the stored
    admin with the value sent as the fee paid. *)
Theorem submission_succeeds
    (w : World) (e : Env) (prompt model : string) (fee day : Z) :
  reachable w ->
  let s := registry w in
  let user := msgSender s in
  let requestId :=
    VerificationLibrary.generateRequestId user prompt model (block_timestamp e)
      (_requestCounter s) in
  _paused s = false ->
  0 < VerificationLibrary.bytes_length prompt <= VerificationLibrary.MAX_PROMPT_LENGTH ->
  0 < VerificationLibrary.bytes_length model <= VerificationLibrary.MAX_MODEL_LENGTH ->
  requiredFee e w = Ok fee -> fee <= msg_value e ->
  mapping_get 0 (_lastRequestTime s) user + VerificationLibrary.RATE_LIMIT_WINDOW
    <= block_timestamp e ->
  block_timestamp e < UINT256_MOD ->
  VerificationLibrary.timestampToDay (block_timestamp e) (DEPLOYMENT_TIME s) = Ok day ->
  mapping_get 0 (_dailyRequestCount s) (user, day) < VerificationLibrary.MAX_DAILY_REQUESTS ->
  getUserRequestCount user s + 1 < UINT256_MOD ->
  _requestCounter s + 1 < UINT256_MOD ->
  _oracleRelayer s = relayer_address w ->
  authorized (inner_env e w) (relayer w) = true ->
  Relayer.timestamp (Relayer.getAttestationRequest requestId (relayer w)) = 0 ->
  switchboard_requestData e = true ->
  accepts_value e (_treasuryAddress s) = true ->
  exists w',
    requestVerification e prompt model w = Ok (requestId, w') /\
    requester (getVerificationRequest requestId (registry w')) = user /\
    feePaid (getVerificationRequest requestId (registry w')) = msg_value e.
Proof.
  intros Hreach s user requestId Hpaused Hprompt Hmodel Hfee Hpaid Hrate Hnow Hday Hdaily
    Hcount Hcounter Hrelayer Hauth Hfresh Horacle Htreasury.
  subst s user requestId. unfold getUserRequestCount, msgSender in *.
  destruct (reachable_ledger_consistent _ Hreach) as (_ & Hstatus & Htotal & _ & Hbound & _).
  eexists. split; [|split].
  - rewrite requestVerification_eq. cbv zeta. rewrite Hpaused, Hstatus. cbn [negb Z.eqb].
    unfold _NOT_ENTERED, _ENTERED. cbn [Z.eqb Pos.eqb negb].
    unfold admission, msgSender.
    rewrite (proj2 (validateVerificationInput_ok prompt model) (conj Hprompt Hmodel)).
    rewrite Hfee. rewrite Z.geb_leb. apply Z.leb_le in Hpaid. rewrite Hpaid.
    unfold VerificationLibrary.checkRateLimit. tx_unfold.
    rewrite uint256_add_lt by lia. cbv beta iota.
    assert (Hge : (block_timestamp e >=?
                   mapping_get 0 (_lastRequestTime (registry w)) (_admin (registry w))
                   + VerificationLibrary.RATE_LIMIT_WINDOW) = true).
    { rewrite Z.geb_leb. apply Z.leb_le. exact Hrate. }
    rewrite Hge, Hday. unfold VerificationLibrary.checkDailyLimit.
    pose proof Hdaily as Hlt. apply Z.ltb_lt in Hlt. rewrite Hlt.
    rewrite (uint256_add_lt _ _ Hcount).
    rewrite uint256_add_lt
      by (unfold VerificationLibrary.MAX_DAILY_REQUESTS, UINT256_MOD in *; lia).
    rewrite (uint256_add_lt _ _ Hcounter).
    rewrite uint256_add_lt by (rewrite Htotal; exact Hcounter).
    rewrite Hrelayer, Z.eqb_refl, requestAttestation_eq. cbv zeta.
    change (switchboard_requestData (inner_env e w)) with (switchboard_requestData e).
    rewrite Hauth, Hfresh, Horacle, Htreasury. cbn [Z.eqb]. reflexivity.
  - unfold getVerificationRequest, accepted_registry. st_simpl.
    rewrite mapping_get_insert_eq. reflexivity.
  - unfold getVerificationRequest, accepted_registry. st_simpl.
    rewrite mapping_get_insert_eq. reflexivity.
Qed.

End Success.

(* ===================================================================== *)
(** ** Rate limit, output check and certificate lookup *)
(* ===================================================================== *)

Section RateLimitWindow.
Context `{EVMBuiltins}.
Import Storage VeriAISolana System.

(** A call that is no submission leaves the activity of every account
    as it was. *)
Lemma exec_other_activity e c w w' :
  requester_of c w = None ->
  exec e c w = Ok (tt, w') ->
  _requestCount (registry w') = _requestCount (registry w) /\
  _lastRequestTime (registry w') = _lastRequestTime (registry w).
Proof.
  intros Hr Hexec.
  destruct c as [p m|r p m|rid out att prf|rid reason|?|?|?|?|?|?|? ?|? ?| | |?|
                 |? ?|? ?|?|? ?|?|? ?|? ? ?|?|?];
    try discriminate Hr; cbn [exec] in Hexec.
  3-14: unfold setOracleRelayer, setVerificationFee, setTreasuryAddress, setNFTContract,
         addOracle, removeOracle, grantRole, revokeRole, _grantRole, _revokeRole,
         pause, unpause, initialize, emergencyWithdraw, _transferFees in Hexec;
       tx_unfold; tx_inv Hexec; inversion Hexec; subst; st_simpl; auto.
  - apply fulfillVerification_ok in Hexec as (_ & _ & _ & _ & _ & tokenId & n & _ & ->).
    st_simpl. auto.
  - apply markVerificationFailed_ok in Hexec as (_ & _ & ->). st_simpl. auto.
  - unfold discard in Hexec. tx_unfold.
    destruct (NFT.mintVerificationNFT _ _ _) as [[tokenId n']|]; [|discriminate].
    injection Hexec as <-. st_simpl. auto.
  - tx_unfold. destruct (NFT.updateTokenMetadata _ _ _) as [[[] n']|]; [|discriminate].
    injection Hexec as <-. st_simpl. auto.
  - tx_unfold. destruct (NFT.setBaseTokenURI _ _) as [[[] n']|]; [|discriminate].
    injection Hexec as <-. st_simpl. auto.
  - tx_unfold. destruct (NFT.grantRole _ _ _) as [[[] n']|]; [|discriminate].
    injection Hexec as <-. st_simpl. auto.
  - tx_unfold. destruct (NFT.initialize _ _) as [[[] n']|]; [|discriminate].
    injection Hexec as <-. st_simpl. auto.
  - unfold discard in Hexec. tx_unfold.
    destruct (Relayer.requestAttestation _ _ _ _) as [[att r']|]; [|discriminate].
    injection Hexec as <-. st_simpl. auto.
  - tx_unfold.
    destruct (Relayer.fulfillAttestation _ _ _ _ _) as [[[] r']|]; [|discriminate].
    injection Hexec as <-. st_simpl. auto.
  - tx_unfold. destruct (Relayer.authorizeOracleCaller _ _ _) as [[[] r']|]; [|discriminate].
    injection Hexec as <-. st_simpl. auto.
  - tx_unfold. destruct (Relayer.revokeOracleCaller _ _ _) as [[[] r']|]; [|discriminate].
    injection Hexec as <-. st_simpl. auto.
Qed.

(** Inside the window of [r] no transaction touches the activity of
    [r]. *)
Lemma step_within_window e c w r :
  block_timestamp e
    < mapping_get 0 (_lastRequestTime (registry w)) r + VerificationLibrary.RATE_LIMIT_WINDOW ->
  getUserRequestCount r (registry (step e c w)) = getUserRequestCount r (registry w) /\
  mapping_get 0 (_lastRequestTime (registry (step e c w))) r =
    mapping_get 0 (_lastRequestTime (registry w)) r.
Proof.
  intros Hwindow. unfold step, commit, getUserRequestCount.
  destruct (exec e c w) as [[[] w']|] eqn:Hexec; [|auto].
  destruct (requester_of c w) as [r'|] eqn:Hr.
  - destruct (decide (r' = r)) as [->|Hne].
    + destruct (exec_request_within_window e c w r Hr Hwindow) as (err & Herr & _).
      congruence.
    + destruct (exec_request_ok _ _ _ _ _ Hr Hexec) as (p & m & rid & Hadm).
      apply admission_ok in Hadm as (fee & day & att & rel & Hok).
      destruct Hok as (_ & _ & _ & _ & _ & _ & _ & _ & ->).
      unfold accepted_registry. st_simpl.
      rewrite !mapping_get_insert_ne by exact Hne. auto.
  - destruct (exec_other_activity _ _ _ _ Hr Hexec) as [-> ->]. auto.
Qed.

Lemma run_within_window txs w r :
  (forall e c, In (e, c) txs ->
     block_timestamp e
       < mapping_get 0 (_lastRequestTime (registry w)) r
         + VerificationLibrary.RATE_LIMIT_WINDOW) ->
  getUserRequestCount r (registry (run txs w)) = getUserRequestCount r (registry w) /\
  mapping_get 0 (_lastRequestTime (registry (run txs w))) r =
    mapping_get 0 (_lastRequestTime (registry w)) r.
Proof.
  revert w. induction txs as [|[e c] txs IH]; intros w Htimes; cbn [run]; [auto|].
  destruct (step_within_window e c w r) as [Hcount Hlast].
  { apply (Htimes e c). left. reflexivity. }
  destruct (IH (step e c w)) as [Hcount' Hlast'].
  { intros e' c' Hin. rewrite Hlast. apply (Htimes e' c'). right. exact Hin. }
  rewrite Hcount', Hlast', Hcount, Hlast. auto.
Qed.

(** C6. The rate-limit test passes exactly when the block time has
    reached the last request time plus 60 seconds (the sum in 256 bits).
    Consequently, after a submission charged to [r] has been accepted at
    time [t1], and whatever transactions are sent before [t1 + 60], the
    activity of [r] stands at one more request, with [t1] as the time of
    the last one; and every further submission charged to [r] before
    [t1 + 60], by either entry point, reverts and leaves the state, and
    with it the activity counters, unchanged. The revert is
    "Rate limit exceeded" once the tests that precede the rate limit
    (pause, guard, role, input, fee) have passed. *)
Theorem rate_limit_one_per_window :
  (forall lastRequestTime currentTime,
     currentTime < UINT256_MOD ->
     (VerificationLibrary.checkRateLimit lastRequestTime currentTime = Ok true <->
      lastRequestTime + VerificationLibrary.RATE_LIMIT_WINDOW <= currentTime)) /\
  (forall e1 c1 w w1 r txs,
     requester_of c1 w = Some r ->
     exec e1 c1 w = Ok (tt, w1) ->
     (forall e c, In (e, c) txs ->
        block_timestamp e < block_timestamp e1 + VerificationLibrary.RATE_LIMIT_WINDOW) ->
     let w2 := run txs w1 in
     getUserRequestCount r (registry w2) = getUserRequestCount r (registry w) + 1 /\
     mapping_get 0 (_lastRequestTime (registry w2)) r = block_timestamp e1 /\
     forall e2 c2,
       requester_of c2 w2 = Some r ->
       block_timestamp e2 < block_timestamp e1 + VerificationLibrary.RATE_LIMIT_WINDOW ->
       (exists err,
          exec e2 c2 w2 = Err err /\
          (block_timestamp e1 + VerificationLibrary.RATE_LIMIT_WINDOW < UINT256_MOD ->
           passes_checks_before_rate_limit e2 c2 w2 = true ->
           err = Revert "Rate limit exceeded")) /\
       step e2 c2 w2 = w2 /\
       getUserRequestCount r (registry (step e2 c2 w2)) =
         getUserRequestCount r (registry w) + 1).
Proof.
  split; [exact checkRateLimit_spec|].
  intros e1 c1 w w1 r txs Hr Hexec Htimes. cbv zeta.
  destruct (exec_request_activity _ _ _ _ _ Hr Hexec) as [Hcount Hlast].
  destruct (run_within_window txs w1 r) as [Hcount' Hlast'].
  { intros e c Hin. rewrite Hlast. eapply Htimes; eauto. }
  rewrite Hcount, Hlast in *.
  split; [exact Hcount'|]. split; [exact Hlast'|].
  intros e2 c2 Hr2 Hwindow.
  destruct (exec_request_within_window e2 c2 (run txs w1) r Hr2) as (err & Herr & Hwhich).
  { rewrite Hlast'. exact Hwindow. }
  assert (Hstep : step e2 c2 (run txs w1) = run txs w1).
  { unfold step, commit. rewrite Herr. reflexivity. }
  split; [|split].
  - exists err. split; [exact Herr|]. rewrite Hlast' in Hwhich. exact Hwhich.
  - exact Hstep.
  - rewrite Hstep. exact Hcount'.
Qed.

End RateLimitWindow.

Section VerifyOutput.
Context `{EVMBuiltins}.
Import Storage VeriAISolana System.
Hypothesis keccak256_inj : forall a b : string, keccak256 a = keccak256 b -> a = b.

(** Outputs with the same hash are the same output. *)
Lemma calculateOutputHash_inj a b :
  VerificationLibrary.calculateOutputHash a = VerificationLibrary.calculateOutputHash b ->
  a = b.
Proof.
  unfold VerificationLibrary.calculateOutputHash, abi_encodePacked.
  cbn [fold_right encodePacked1]. rewrite !append_nil_r. apply keccak256_inj.
Qed.

(** C5. [verifyOutput] is a view: a function of the storage that
    returns a boolean and has nothing to write with. For every request
    identifier, output and storage it answers [true] exactly when the
    stored request is [Verified] and the hash of the supplied output is
    the stored [outputHash]; it answers [false] for every other status
    and for every output whose hash differs. The digest being
    collision-free, once a request has been fulfilled with [issued] as
    its output in a reachable state, and whatever transactions follow,
    [verifyOutput] answers [true] for [issued] and [false] for every
    other output. *)
Theorem verifyOutput_spec
    (w : World) (e : Env) (requestId : Z) (issued : string) (attestationId : Z)
    (proof : string) (w1 : World) :
  reachable w ->
  fulfillVerification e requestId issued attestationId proof w = Ok (tt, w1) ->
  (forall id output s,
     let request := getVerificationRequest id s in
     (verifyOutput id output s = true <->
        status request = Verified /\
        VerificationLibrary.calculateOutputHash output = outputHash request) /\
     (status request <> Verified -> verifyOutput id output s = false) /\
     (VerificationLibrary.calculateOutputHash output <> outputHash request ->
        verifyOutput id output s = false)) /\
  (forall txs output,
     (verifyOutput requestId output (registry (run txs w1)) = true <-> output = issued) /\
     (output <> issued -> verifyOutput requestId output (registry (run txs w1)) = false)).
Proof.
  intros Hreach Hfulfill. split.
  { intros id output s. cbv zeta.
    destruct (verifyOutput_view id output s) as (Hiff & Hstatus & Hhash & _).
    split; [exact Hiff|]. split; [exact Hstatus | exact Hhash]. }
  assert (Hexec : exec e (FulfillVerification requestId issued attestationId proof) w
                  = Ok (tt, w1)) by exact Hfulfill.
  assert (Hids1 : ids_issued w1).
  { apply exec_requests_change in Hexec.
    eapply ids_issued_change; [exact Hexec | by apply reachable_ids_issued]. }
  apply fulfillVerification_ok in Hfulfill
    as (Hstored & _ & _ & _ & _ & tokenId & n & _ & Hw1).
  assert (Hrecord : getVerificationRequest requestId (registry w1) =
                    fulfilled_request (getVerificationRequest requestId (registry w)) issued).
  { rewrite Hw1. unfold getVerificationRequest. st_simpl. apply mapping_get_insert_eq. }
  assert (Hsettled : settled requestId w1).
  { unfold settled. fold (getVerificationRequest requestId (registry w1)).
    rewrite Hrecord. unfold fulfilled_request. st_simpl.
    split; [exact Hstored | discriminate]. }
  intros txs output.
  pose proof (settled_record_run keccak256_inj txs requestId w1 Hids1 Hsettled) as Hrun.
  assert (Hview : verifyOutput requestId output (registry (run txs w1)) =
                  (VerificationLibrary.calculateOutputHash output
                   =? VerificationLibrary.calculateOutputHash issued)).
  { unfold verifyOutput. fold (getVerificationRequest requestId (registry (run txs w1))).
    rewrite Hrun, Hrecord. unfold fulfilled_request. st_simpl.
    rewrite bool_decide_eq_true_2 by reflexivity. reflexivity. }
  rewrite Hview. split.
  - rewrite Z.eqb_eq. split; [apply calculateOutputHash_inj | by intros ->].
  - intros Hne. apply Z.eqb_neq. intros Heq. apply Hne, calculateOutputHash_inj, Heq.
Qed.

End VerifyOutput.

Section RouterLookup.
Import Multichain.



End RouterLookup.

(* ===================================================================== *)
(** ** Further properties on the concrete deployment *)
(* ===================================================================== *)

Section ScenarioWitnesses.
Import Storage VeriAISolana System Scenario.
#[local] Existing Instance ideal_builtins.

Lemma wired_reachable : reachable wired.
Proof. unfold wired. apply reachable_run. eapply reachable_deploy. exact deployed_ok. Qed.

Lemma verified_reachable : reachable verified.
Proof. unfold verified. apply reachable_run. exact attested_reachable. Qed.

Lemma submission_ok :
  requestVerification (env 2000 VerificationLibrary.MIN_VERIFICATION_FEE)
    the_prompt the_model wired =
  Ok (ok_or (0, wired)
        (requestVerification (env 2000 VerificationLibrary.MIN_VERIFICATION_FEE)
           the_prompt the_model wired)).
Proof. apply ok_or_ok. vm_compute. reflexivity. Qed.

Lemma submission_exec_ok :
  exec (env 2000 VerificationLibrary.MIN_VERIFICATION_FEE)
    (RequestVerification the_prompt the_model) wired = Ok (tt, submitted).
Proof.
  unfold submitted, submission. cbn [run]. unfold step.
  apply commit_ok. vm_compute. reflexivity.
Qed.

Lemma attestation_ok :
  exec (env 2100 0) (RelayerFulfillAttestation the_requestId "verified" the_proof) submitted
  = Ok (tt, attested).
Proof.
  unfold attested, attestation. cbn [run]. unfold step.
  apply commit_ok. vm_compute. reflexivity.
Qed.

Lemma direct_request_ok :
  exec (env 1000 0) (RelayerRequestAttestation 5 "data") deployed
  = Ok (tt, run [direct_request] deployed).
Proof.
  unfold direct_request. cbn [run]. unfold step.
  apply commit_ok. vm_compute. reflexivity.
Qed.

Lemma direct_mint_ok :
  NFT.mintVerificationNFT treasury unverified_metadata (nft deployed) =
  Ok (ok_or (0, nft deployed)
        (NFT.mintVerificationNFT treasury unverified_metadata (nft deployed))).
Proof. apply ok_or_ok. vm_compute. reflexivity. Qed.

(** Witness of X1: the state of the scenario after the attestation. *)
Lemma ledger_counters_agree_witness :
  fst (fst (getContractStats (registry attested))) = _requestCounter (registry attested) /\
  Z.of_nat (length (getUserRequests admin (registry attested))) =
    getUserRequestCount admin (registry attested) /\
  _status (registry attested) = _NOT_ENTERED.
Proof. exact (ledger_counters_agree attested admin attested_reachable). Defined.

(** Witness of X2: the daily count of the admin after one submission. *)
Lemma daily_request_cap_witness :
  0 <= mapping_get 0 (_dailyRequestCount (registry attested)) (admin, 0)
    <= VerificationLibrary.MAX_DAILY_REQUESTS.
Proof. exact (proj1 (daily_request_cap attested attested_reachable) admin 0). Defined.

(** Witness of X3: the attestation of the scenario, processed by the
    relayer and used by the fulfilment, is not recorded by the registry. *)
Lemma registry_records_no_attestation_witness :
  Relayer.verifyAttestation the_attestationId (relayer verified) = true /\
  isAttestationProcessed the_attestationId (registry verified) = false.
Proof.
  split; [vm_compute; reflexivity|].
  exact (registry_records_no_attestation verified the_attestationId verified_reachable).
Defined.

(** Witness of X4: the admin after the role grant and the pause. *)
Lemma registry_admin_is_fixed_witness :
  _admin (registry verified) <> 0 /\
  initialize treasury verified = Err (Revert "Already initialized") /\
  msgSender (registry (run pausing verified)) = msgSender (registry verified).
Proof.
  destruct (registry_admin_is_fixed verified verified_reachable) as (Hadmin & Hinit & Hrun).
  split; [exact Hadmin|]. split; [apply Hinit | apply Hrun].
Defined.

(** Witness of X5: the verified request of the scenario. *)
Lemma request_records_wellformed_witness :
  status (getVerificationRequest the_requestId (registry verified)) <> Expired /\
  (nftMinted (getVerificationRequest the_requestId (registry verified)) = true <->
   status (getVerificationRequest the_requestId (registry verified)) = Verified).
Proof.
  destruct (request_records_wellformed verified the_requestId verified_reachable)
    as (Hexpired & Hminted & _).
  split; [exact Hexpired | exact Hminted].
Defined.

(** Witness of X6: the certificate of the scenario, after calls that
    aim at it. *)
Lemma fulfilment_issues_a_lasting_certificate_witness :
  status (getVerificationRequest the_requestId (registry verified)) = Verified /\
  NFT.ownerOf (NFT.totalSupply (nft attested)) (nft (run tampering verified)) =
    Ok (requester (getVerificationRequest the_requestId (registry verified))).
Proof.
  assert (Hrelayer : _oracleRelayer (registry attested) = relayer_address attested)
    by (vm_compute; reflexivity).
  assert (Hnft : _nftContract (registry attested) = nft_address attested)
    by (vm_compute; reflexivity).
  destruct (fulfilment_issues_a_lasting_certificate attested (env 2200 0) the_requestId
              the_output the_attestationId the_proof verified tampering
              Hrelayer Hnft fulfilment_ok) as (Hstatus & Hown & _).
  split; [exact Hstatus | exact Hown].
Defined.

(** Witness of X7: the verified request after the role grant and the
    pause. *)
Lemma settled_request_is_final_witness :
  getVerificationRequest the_requestId (registry (run pausing verified)) =
  getVerificationRequest the_requestId (registry verified).
Proof.
  refine (settled_request_is_final ideal_keccak256_inj verified the_requestId pausing
            verified_reachable _ _).
  - vm_compute. discriminate.
  - vm_compute. discriminate.
Defined.

(** Witness of X8: the submission of the scenario. *)
Lemma submission_files_a_new_request_witness :
  exists requestId w',
    requestVerification (env 2000 VerificationLibrary.MIN_VERIFICATION_FEE)
      the_prompt the_model wired = Ok (requestId, w') /\
    _requests (registry wired) !! requestId = None /\
    is_Some (_requests (registry w') !! requestId).
Proof.
  pose proof submission_ok as Hreq.
  destruct (ok_or _ _) as [requestId w'].
  exists requestId, w'. split; [exact Hreq|].
  destruct (submission_files_a_new_request ideal_keccak256_inj wired _ _ _ _ _
              wired_reachable Hreq) as (_ & Hnew & Hfiled & _).
  split; [exact Hnew | exact Hfiled].
Defined.

(** Witness of X9: a certificate minted directly for the treasury. *)
Lemma mint_read_back_witness :
  exists tokenId n',
    NFT.mintVerificationNFT treasury unverified_metadata (nft deployed) = Ok (tokenId, n') /\
    NFT.ownerOf tokenId n' = Ok treasury /\
    NFT.getVerificationMetadata tokenId n' = Ok unverified_metadata.
Proof.
  pose proof direct_mint_ok as Hmint.
  destruct (ok_or _ _) as [tokenId n'].
  exists tokenId, n'. split; [exact Hmint|].
  destruct (mint_read_back _ _ _ _ _ Hmint) as (_ & _ & _ & Hown & Hmeta & _).
  split; [exact Hown | exact Hmeta].
Defined.

(** Witness of X10: the certificate of the scenario keeps its owner and
    its metadata under calls that aim at it. *)
Lemma certificates_are_soulbound_witness :
  NFT.ownerOf 0 (nft (run tampering verified)) = NFT.ownerOf 0 (nft verified) /\
  NFT.getVerificationMetadata 0 (nft (run tampering verified)) =
    NFT.getVerificationMetadata 0 (nft verified).
Proof.
  refine (certificates_are_soulbound verified 0 tampering _).
  vm_compute. reflexivity.
Defined.

(** Witness of X11: the one token of the scenario. *)
Lemma token_ids_are_dense_witness :
  (is_ok (NFT.ownerOf 0 (nft verified)) = true <-> 0 <= 0 < NFT.totalSupply (nft verified)) /\
  (admin <> 0 ->
   NFT.balanceOf admin (nft verified) =
   Ok (Z.of_nat (length (NFT.getTokensByOwner admin (nft verified))))).
Proof. exact (token_ids_are_dense verified 0 admin verified_reachable). Defined.

(** Witness of X12: the attestation of the scenario, after the
    fulfilment by the registry. *)
Lemma attestation_is_fulfilled_once_witness :
  Relayer.verifyAttestation
    (Relayer.attestationId (Relayer.getAttestationRequest the_requestId (relayer submitted)))
    (relayer (run [fulfilment] attested)) = true /\
  Relayer.fulfillAttestation (env 2500 0) the_requestId "again" the_proof
    (relayer (run [fulfilment] attested)) = Err (CustomError "RequestAlreadyProcessed").
Proof.
  destruct (attestation_is_fulfilled_once submitted (env 2100 0) the_requestId "verified"
              the_proof attested [fulfilment] attestation_ok) as (Hvalid & _ & _ & Hagain).
  split; [exact Hvalid|].
  rewrite Hagain.
  assert (Hauth : authorized (env 2500 0) (relayer (run [fulfilment] attested)) = true)
    by (vm_compute; reflexivity).
  rewrite Hauth. reflexivity.
Defined.

(** Witness of X13: a request filed with the relayer directly, before
    the wiring. *)
Lemma attestation_request_is_filed_once_witness :
  Relayer.requester
    (Relayer.getAttestationRequest 5 (relayer (run wiring (run [direct_request] deployed))))
    = admin /\
  Relayer.data
    (Relayer.getAttestationRequest 5 (relayer (run wiring (run [direct_request] deployed))))
    = "data".
Proof.
  assert (Htime : block_timestamp (env 1000 0) <> 0) by (cbn; discriminate).
  destruct (attestation_request_is_filed_once deployed (env 1000 0) 5 "data"
              (run [direct_request] deployed) wiring direct_request_ok Htime)
    as (Hrequester & Hdata & _).
  split; [exact Hrequester | exact Hdata].
Defined.

(** Witness of X15: one US dollar at a price of 150 dollars. *)
Lemma calculateSOLFee_floor_witness :
  exists solFee,
    Relayer.calculateSOLFee (env_priced 2000 0 (Some (150 * 10 ^ 8, 2000))) (10 ^ 8)
      = Ok solFee /\
    solFee = 666666.
Proof.
  destruct (calculateSOLFee_floor (env_priced 2000 0 (Some (150 * 10 ^ 8, 2000)))
              (10 ^ 8) (150 * 10 ^ 8) 2000 eq_refl) as [_ Hpos].
  - lia.
  - unfold UINT256_MOD. lia.
  - lia.
  - destruct Hpos as (solFee & Hfee & Hvalue & _); [lia|].
    exists solFee. split; [exact Hfee|]. rewrite Hvalue. reflexivity.
Defined.

(** Witness of X16: the fulfilment of the scenario, sent by a stranger. *)
Lemma role_checks_ignore_the_caller_witness :
  exec (with_sender 12345 (env 2200 0))
    (FulfillVerification the_requestId the_output the_attestationId the_proof) attested =
  exec (env 2200 0)
    (FulfillVerification the_requestId the_output the_attestationId the_proof) attested.
Proof.
  exact (role_checks_ignore_the_caller (env 2200 0) 12345
           (FulfillVerification the_requestId the_output the_attestationId the_proof)
           attested eq_refl).
Defined.

(** Witness of X17: the submission of the scenario with a treasury that
    refuses the fee. *)
Lemma rejected_fee_transfer_undoes_submission_witness :
  step (env_refusing 2000 VerificationLibrary.MIN_VERIFICATION_FEE)
    (RequestVerification the_prompt the_model) wired = wired.
Proof.
  exact (proj2 (rejected_fee_transfer_undoes_submission
                  (env_refusing 2000 VerificationLibrary.MIN_VERIFICATION_FEE)
                  (RequestVerification the_prompt the_model) wired
                  (msgSender (registry wired)) eq_refl eq_refl)).
Defined.

(** Witness of X18: the submission of the scenario, after a wiring
    that leaves out the authorization of the registry. *)
Lemma unauthorized_registry_accepts_no_submission_witness :
  exists err,
    exec (env 2000 VerificationLibrary.MIN_VERIFICATION_FEE)
      (RequestVerification the_prompt the_model) (run half_wiring deployed) = Err err.
Proof.
  refine (proj1 (proj2
            (unauthorized_registry_accepts_no_submission (env 1000 0) params deployed
               half_wiring (env 2000 VerificationLibrary.MIN_VERIFICATION_FEE)
               (RequestVerification the_prompt the_model)
               (msgSender (registry (run half_wiring deployed)))
               deployed_ok _ _ _ eq_refl))).
  - cbn. discriminate.
  - intros e' [Heq|[]]. discriminate Heq.
  - vm_compute. reflexivity.
Defined.

(** Witness of X21: the first two bytes of the account 0xabcd00..00,
    and a length that is not allocated. *)
Lemma formatAddress_hex_witness :
  VerificationLibrary.formatAddress an_address 2 = Ok "abcd" /\
  VerificationLibrary.formatAddress an_address (2 ^ 63) = Err (Panic PANIC_ALLOCATION).
Proof.
  split.
  - destruct (formatAddress_hex an_address 2) as (Hhex & _); [lia|].
    rewrite Hhex; [|lia]. vm_compute. reflexivity.
  - destruct (formatAddress_hex an_address (2 ^ 63)) as (_ & Hpanic & _); [lia|].
    apply Hpanic. unfold UINT64_MOD, UINT256_MOD. lia.
Defined.

(** Witness of X22: two certificates on Solana and one on Ethereum, two
    to a page. *)
Lemma getUserNFTs_pages_partition_witness :
  exists pages : nat,
    concat (map (fun k =>
                   Multichain.nfts
                     (Multichain.getUserNFTs (listing_of [sol_token; sol_token])
                        (listing_of [eth_token]) "user" (Z.of_nat (S k)) 2 None))
              (seq 0 pages)) = [sol_token; sol_token; eth_token].
Proof.
  destruct (getUserNFTs_pages_partition (listing_of [sol_token; sol_token])
              (listing_of [eth_token]) "user" 2 _ _ ltac:(lia) eq_refl eq_refl)
    as (pages & _ & _ & _ & Hall & _).
  exists pages. exact Hall.
Defined.

(** Witness of X23: the statistics after the fulfilment. *)
Lemma contract_stats_are_exact_witness :
  getContractStats (registry verified) =
  (Z.of_nat (size (_requests (registry verified))),
   count_status Verified (_requests (registry verified)),
   count_status Failed (_requests (registry verified))).
Proof.
  exact (proj1 (contract_stats_are_exact ideal_keccak256_inj verified verified_reachable)).
Defined.

(** Witness of X24: the fee of the scenario after the wiring. *)
Lemma static_fee_within_bounds_witness :
  getVerificationFee (registry (run wiring deployed)) = dp_initialFee params \/
  VerificationLibrary.MIN_VERIFICATION_FEE
    <= getVerificationFee (registry (run wiring deployed))
    <= VerificationLibrary.MAX_VERIFICATION_FEE.
Proof. exact (static_fee_within_bounds (env 1000 0) params deployed wiring deployed_ok). Defined.

(** Witness of X25: the fulfilment of the scenario. *)
Lemma fulfilment_succeeds_witness :
  exists w',
    fulfillVerification (env 2200 0) the_requestId the_output the_attestationId the_proof
      attested = Ok (tt, w') /\
    status (getVerificationRequest the_requestId (registry w')) = Verified /\
    NFT.totalSupply (nft w') = NFT.totalSupply (nft attested) + 1.
Proof.
  refine (fulfilment_succeeds attested (env 2200 0) the_requestId the_output
            the_attestationId the_proof attested_reachable _ _ _ _ _ _ _ _ _ _ _ _ _).
  - vm_compute. reflexivity.
  - vm_compute. discriminate.
  - vm_compute. reflexivity.
  - vm_compute. reflexivity.
  - vm_compute. reflexivity.
  - vm_compute. reflexivity.
  - vm_compute. reflexivity.
  - vm_compute. discriminate.
  - vm_compute. discriminate.
  - vm_compute. discriminate.
  - vm_compute. reflexivity.
  - vm_compute. reflexivity.
  - vm_compute. reflexivity.
Defined.

(** Witness of X26: the submission of the scenario. *)
Lemma submission_succeeds_witness :
  exists w',
    requestVerification (env 2000 VerificationLibrary.MIN_VERIFICATION_FEE)
      the_prompt the_model wired =
    Ok (VerificationLibrary.generateRequestId (msgSender (registry wired))
          the_prompt the_model 2000 (_requestCounter (registry wired)), w').
Proof.
  destruct (submission_succeeds wired (env 2000 VerificationLibrary.MIN_VERIFICATION_FEE)
              the_prompt the_model VerificationLibrary.MIN_VERIFICATION_FEE 0
              wired_reachable) as (w' & Hreq & _).
  - vm_compute. reflexivity.
  - vm_compute. split; [reflexivity | discriminate].
  - vm_compute. split; [reflexivity | discriminate].
  - vm_compute. reflexivity.
  - vm_compute. discriminate.
  - vm_compute. discriminate.
  - vm_compute. reflexivity.
  - vm_compute. reflexivity.
  - vm_compute. reflexivity.
  - vm_compute. reflexivity.
  - vm_compute. reflexivity.
  - vm_compute. reflexivity.
  - vm_compute. reflexivity.
  - vm_compute. reflexivity.
  - vm_compute. reflexivity.
  - vm_compute. reflexivity.
  - exists w'. exact Hreq.
Defined.

(** Witness of C5: the output of the scenario and an altered one, after
    the role grant and the pause. *)
Lemma verifyOutput_spec_witness :
  verifyOutput the_requestId the_output (registry (run pausing verified)) = true /\
  verifyOutput the_requestId altered_output (registry (run pausing verified)) = false.
Proof.
  destruct (verifyOutput_spec ideal_keccak256_inj attested (env 2200 0) the_requestId
              the_output the_attestationId the_proof verified
              attested_reachable fulfilment_ok) as [_ Hlater].
  destruct (Hlater pausing the_output) as [Hissued _].
  destruct (Hlater pausing altered_output) as [_ Haltered].
  split; [apply Hissued; reflexivity | apply Haltered; discriminate].
Defined.

(** Witness of C6: the submission of the scenario at time 2000, two
    calls within its window, and a second submission at time 2059. *)
Lemma rate_limit_one_per_window_witness :
  getUserRequestCount (msgSender (registry wired)) (registry (run within_window submitted)) =
    getUserRequestCount (msgSender (registry wired)) (registry wired) + 1 /\
  exec (env 2059 VerificationLibrary.MIN_VERIFICATION_FEE)
    (RequestVerification the_prompt the_model) (run within_window submitted)
  = Err (Revert "Rate limit exceeded").
Proof.
  destruct rate_limit_one_per_window as [_ Hwindow].
  destruct (Hwindow (env 2000 VerificationLibrary.MIN_VERIFICATION_FEE)
              (RequestVerification the_prompt the_model) wired submitted
              (msgSender (registry wired)) within_window eq_refl submission_exec_ok)
    as (Hcount & _ & Hsecond).
  { intros e c [[= <- <-]|[[= <- <-]|[]]];
      unfold VerificationLibrary.RATE_LIMIT_WINDOW; cbn; lia. }
  split; [exact Hcount|].
  destruct (Hsecond (env 2059 VerificationLibrary.MIN_VERIFICATION_FEE)
              (RequestVerification the_prompt the_model))
    as ((err & Herr & Hwhich) & _).
  { vm_compute. reflexivity. }
  { unfold VerificationLibrary.RATE_LIMIT_WINDOW. cbn. lia. }
  rewrite Herr. f_equal. apply Hwhich.
  - unfold VerificationLibrary.RATE_LIMIT_WINDOW, UINT256_MOD. cbn. lia.
  - vm_compute. reflexivity.
Defined.


End ScenarioWitnesses.

